(** * ApertureDB storage for Label Studio: a shallow embedding

    Source: [label_studio/io_storages/aperturedb/models.py].

    The development follows the layout of the module:
    - [Py]: the fragment of Python's value semantics the module relies on
      (JSON-shaped values, [==], [>], [max], [len], [in], [*], true
      division, [int()], [list.extend]);
    - [PyDict]: dicts and sets keyed by values read from JSON;
    - [ApertureDBStorageMixin]: [_response_status];
    - [AnnotationBBox]: [_get], [__init__], [_attr_must_match], [merge];
    - [ApertureDBExportStorage]: [save_annotation], [delete_annotation];
    - [ApertureDBImportStorageBase]: [iterkeys], [_get_bbox_annotations],
      [_get_bbox_annotations_batch], [_adb_to_rectanglelabels].

    Exceptions are values of [exn]; a function that may raise returns a
    [result].  The external store is an arbitrary state machine answering
    queries.  Values come from JSON documents, so no two of them share a
    mutable list or dict, and two occurrences of a NaN are two objects. *)

From Stdlib Require Import ZArith List String Ascii Bool Lia Floats DecimalString.
Import ListNotations.
Local Open Scope string_scope.
Local Open Scope list_scope.
Local Open Scope Z_scope.

(* ================================================================== *)
(** * Exceptions and the error monad *)

(** The payload of a [ValueError].  The module raises [ValueError] for every
    failure of its own; the constructors keep the message templates apart.
    [Builtin] stands for a [ValueError] raised by the interpreter itself. *)
Inductive verr : Type :=
| MustBeDict (description : string)           (* "{description} must be a dict" *)
| MustInclude (description key : string)      (* '{description} must include "{key}"' *)
| ImageRotation                               (* "Annotation must have 0 image_rotation" *)
| ValueRotation                               (* "annotation value must have 0 rotation" *)
| TooManyLabels (joined : string)             (* "... at most one label: {joined}" *)
| Mismatched (attr : string)                  (* "Annotations have mismatched {attr}: ..." *)
| QueryImagesFailed                           (* "Failed to query images: ..." *)
| RetrieveFailed                              (* "Error retrieving ApertureDB image data : ..." *)
| SaveFailed                                  (* "Error saving annotation data to ApertureDB : ..." *)
| DeleteFailed                                (* "Error deleting annotation data from ApertureDB : ..." *)
| Builtin (what : string).

Inductive exn : Type :=
| ValueError (m : verr)
| TypeError
| KeyError
| IndexError
| AttributeError
| OverflowError
| ZeroDivisionError
| StopIteration
| OutOfModel.      (* not a Python exception: see [seq_repeat], [update_pair] *)

Inductive result (A : Type) : Type :=
| OK (a : A)
| Raise (e : exn).
Arguments OK {A} a.
Arguments Raise {A} e.

Definition bind {A B : Type} (c : result A) (k : A -> result B) : result B :=
  match c with
  | OK a => k a
  | Raise e => Raise e
  end.

Declare Scope py_scope.
Delimit Scope py_scope with py.
Notation "x <- c ;; k" := (bind c (fun x => k))
  (at level 61, c at next level, right associativity) : py_scope.
Notation "c ;;; k" := (bind c (fun _ => k))
  (at level 61, right associativity) : py_scope.
Local Open Scope py_scope.

Fixpoint mapM {A B : Type} (f : A -> result B) (l : list A) : result (list B) :=
  match l with
  | [] => OK []
  | a :: l' => b <- f a ;; r <- mapM f l' ;; OK (b :: r)
  end.

Fixpoint foldM {A B : Type} (f : A -> B -> result A) (l : list B) (a : A) : result A :=
  match l with
  | [] => OK a
  | b :: l' => a' <- f a b ;; foldM f l' a'
  end.

Definition is_ok {A : Type} (r : result A) : bool :=
  match r with OK _ => true | Raise _ => false end.

(* ================================================================== *)
(** * Python values *)

Module Py.

(** Values as [json.loads] and the store client produce them.  A [dict] is
    an association list in insertion order with pairwise distinct string
    keys; a [str] is its UTF-8 encoding. *)
#[warnings="-register-all"]
Inductive json : Type :=
| JNull
| JBool (b : bool)
| JInt (z : Z)
| JFloat (f : float)
| JStr (s : string)
| JList (l : list json)
| JDict (d : list (string * json)).

Definition dict := list (string * json).

Fixpoint dict_get (k : string) (d : dict) : option json :=
  match d with
  | [] => None
  | (k', v) :: d' => if String.eqb k k' then Some v else dict_get k d'
  end.

Definition dict_mem (k : string) (d : dict) : bool :=
  match dict_get k d with Some _ => true | None => false end.

(** [d[k] = v]: an existing key keeps its position. *)
Fixpoint dict_set (k : string) (v : json) (d : dict) : dict :=
  match d with
  | [] => [(k, v)]
  | (k', v') :: d' =>
      if String.eqb k k' then (k', v) :: d' else (k', v') :: dict_set k v d'
  end.

(** [d.update(e)] for a dict [e], and [d | e]. *)
Definition dict_update (d e : dict) : dict :=
  fold_left (fun acc kv => dict_set (fst kv) (snd kv) acc) e d.

(** ** Numbers: [int] (unbounded), [bool] (an [int]) and [float] (binary64) *)

Inductive num : Type :=
| NInt (z : Z)
| NFloat (f : float).

Definition as_num (v : json) : option num :=
  match v with
  | JBool b => Some (NInt (Z.b2z b))
  | JInt z => Some (NInt z)
  | JFloat f => Some (NFloat f)
  | _ => None
  end.

(** Exact comparison of a float with an integer ([None] for a NaN). *)
Definition float_compare_Z (f : float) (z : Z) : option comparison :=
  match Prim2SF f with
  | S754_nan => None
  | S754_infinity s => Some (if s then Lt else Gt)
  | S754_zero _ => Some (0 ?= z)
  | S754_finite s m e =>
      let sm := if s then Zneg m else Zpos m in
      Some (match e with
            | Zneg p => sm ?= z * 2 ^ Zpos p
            | _ => sm * 2 ^ e ?= z
            end)
  end.

Definition num_compare (a b : num) : option comparison :=
  match a, b with
  | NInt x, NInt y => Some (x ?= y)
  | NFloat x, NInt y => float_compare_Z x y
  | NInt x, NFloat y => option_map CompOpp (float_compare_Z y x)
  | NFloat x, NFloat y =>
      match PrimFloat.compare x y with
      | FEq => Some Eq
      | FLt => Some Lt
      | FGt => Some Gt
      | FNotComparable => None
      end
  end.

Definition num_eqb (a b : num) : bool :=
  match num_compare a b with Some Eq => true | _ => false end.

Definition num_gtb (a b : num) : bool :=
  match num_compare a b with Some Gt => true | _ => false end.

(** ** [==] and [!=] *)

Fixpoint py_eq (a b : json) {struct a} : bool :=
  match a, b with
  | JNull, JNull => true
  | JStr s, JStr t => String.eqb s t
  | JList l, JList m =>
      (fix all2 (l m : list json) : bool :=
         match l, m with
         | [], [] => true
         | u :: l', v :: m' => py_eq u v && all2 l' m'
         | _, _ => false
         end) l m
  | JDict d, JDict e =>
      Nat.eqb (List.length d) (List.length e) &&
      (fix every (d : dict) : bool :=
         match d with
         | [] => true
         | (k, v) :: d' =>
             match dict_get k e with
             | Some w => py_eq v w
             | None => false
             end && every d'
         end) d
  | _, _ =>
      match as_num a, as_num b with
      | Some u, Some v => num_eqb u v
      | _, _ => false
      end
  end.

Definition py_ne (a b : json) : bool := negb (py_eq a b).

(** [x is None] *)
Definition is_none (v : json) : bool :=
  match v with JNull => true | _ => false end.

(** ** [>] *)

Fixpoint py_gt (a b : json) {struct a} : result bool :=
  match a, b with
  | JStr s, JStr t => OK (String.ltb t s)
  | JList l, JList m =>
      (fix lex (l m : list json) : result bool :=
         match l, m with
         | [], _ => OK false
         | _ :: _, [] => OK true
         | u :: l', v :: m' => if py_eq u v then lex l' m' else py_gt u v
         end) l m
  | _, _ =>
      match as_num a, as_num b with
      | Some u, Some v => OK (num_gtb u v)
      | _, _ => Raise TypeError
      end
  end.

(** [max(l)]: the first maximal element; an empty list is a [ValueError]. *)
Fixpoint max_from (m : json) (l : list json) : result json :=
  match l with
  | [] => OK m
  | v :: l' => g <- py_gt v m ;; max_from (if g then v else m) l'
  end.

Definition py_max (l : list json) : result json :=
  match l with
  | [] => Raise (ValueError (Builtin "max() arg is an empty sequence"))
  | v :: l' => max_from v l'
  end.

(** ** Sequences *)

Definition is_continuation (c : ascii) : bool :=
  let n := N_of_ascii c in ((128 <=? n)%N && (n <? 192)%N)%bool.

(** The code points of a UTF-8 string, each as a one-character string. *)
Fixpoint split_points (s : string) : string * list string :=
  match s with
  | EmptyString => (EmptyString, [])
  | String c s' =>
      let (k, l) := split_points s' in
      if is_continuation c then (String c k, l) else (EmptyString, String c k :: l)
  end.

Definition code_points (s : string) : list string :=
  let (k, l) := split_points s in
  match k with EmptyString => l | _ => k :: l end.

(** Iteration ([for v in x], [list(x)], the argument of [extend] and [join]). *)
Definition py_iter (v : json) : result (list json) :=
  match v with
  | JList l => OK l
  | JStr s => OK (map JStr (code_points s))
  | JDict d => OK (map (fun kv => JStr (fst kv)) d)
  | _ => Raise TypeError
  end.

Definition py_len (v : json) : result Z :=
  match v with
  | JList l => OK (Z.of_nat (List.length l))
  | JStr s => OK (Z.of_nat (List.length (code_points s)))
  | JDict d => OK (Z.of_nat (List.length d))
  | _ => Raise TypeError
  end.

Definition is_substring (needle hay : string) : bool :=
  match String.index 0 needle hay with
  | Some _ => true
  | None => match needle with EmptyString => true | _ => false end
  end.

(** ["k" in x] for a string literal [k]. *)
Definition py_contains (k : string) (v : json) : result bool :=
  match v with
  | JDict d => OK (dict_mem k d)
  | JList l => OK (existsb (fun u => py_eq (JStr k) u) l)
  | JStr s => OK (is_substring k s)
  | _ => Raise TypeError
  end.

(** [x["k"]] for a string literal [k]. *)
Definition py_getitem (v : json) (k : string) : result json :=
  match v with
  | JDict d => match dict_get k d with Some u => OK u | None => Raise KeyError end
  | _ => Raise TypeError
  end.

(** [x[i]] for a literal index [i >= 0]. *)
Definition py_index (v : json) (i : nat) : result json :=
  match v with
  | JList l => match nth_error l i with Some u => OK u | None => Raise IndexError end
  | JStr s => match nth_error (code_points s) i with
              | Some c => OK (JStr c)
              | None => Raise IndexError
              end
  | JDict _ => Raise KeyError
  | _ => Raise TypeError
  end.

(** [a.extend(b)]; only a list has the method. *)
Definition py_extend (a b : json) : result json :=
  match a with
  | JList l => items <- py_iter b ;; OK (JList (l ++ items))
  | _ => Raise AttributeError
  end.

Definition as_str (v : json) : result string :=
  match v with JStr s => OK s | _ => Raise TypeError end.

(** [sep.join(x)] *)
Definition py_join (sep : string) (v : json) : result string :=
  items <- py_iter v ;;
  strs <- mapM as_str items ;;
  OK (String.concat sep strs).

Definition hashable (v : json) : bool :=
  match v with
  | JList _ | JDict _ => false
  | _ => true
  end.

(** ** Arithmetic *)

Definition prec : Z := 53.
Definition emax : Z := 1024.

Definition is_inf (f : spec_float) : bool :=
  match f with S754_infinity _ => true | _ => false end.

(** [float(z)]: correctly rounded, [OverflowError] beyond the range. *)
Definition float_of_Z (z : Z) : result float :=
  let f := binary_normalize prec emax z 0 false in
  if is_inf f then Raise OverflowError else OK (SF2Prim f).

Definition to_float (n : num) : result float :=
  match n with
  | NInt z => float_of_Z z
  | NFloat f => OK f
  end.

Definition exact (z : Z) : spec_float :=
  match z with
  | Z0 => S754_zero false
  | Zpos p => S754_finite false p 0
  | Zneg p => S754_finite true p 0
  end.

Fixpoint repeat_list {A : Type} (l : list A) (n : nat) : list A :=
  match n with
  | O => []
  | S n' => l ++ repeat_list l n'
  end.

Fixpoint repeat_string (s : string) (n : nat) : string :=
  match n with
  | O => EmptyString
  | S n' => String.append s (repeat_string s n')
  end.

Definition as_int (v : json) : option Z :=
  match v with
  | JBool b => Some (Z.b2z b)
  | JInt z => Some z
  | _ => None
  end.

(** [Py_ssize_t] on a 64-bit machine. *)
Definition PY_SSIZE_T_MAX : Z := 2 ^ 63 - 1.

(** The longest result of a repetition that is followed here. *)
Definition REPEAT_MAX : Z := 2 ^ 20.

(** [v * n] for a sequence [v] of [len] items.  A count that does not fit
    [Py_ssize_t] is an [OverflowError]; a count of 0 or less, or an empty
    sequence, gives the empty sequence.  For a result of more than
    [REPEAT_MAX] items CPython builds it, or raises [MemoryError] or
    [OverflowError], as the type of the sequence and the memory of the
    machine have it: that is [OutOfModel] here. *)
Definition repeated (len n : Z) (build : nat -> json) : result json :=
  if (n <? - PY_SSIZE_T_MAX - 1) || (PY_SSIZE_T_MAX <? n) then Raise OverflowError
  else if (n <=? 0) || (len =? 0) then OK (build O)
  else if REPEAT_MAX <? len * n then Raise OutOfModel
  else OK (build (Z.to_nat n)).

Definition seq_repeat (v : json) (n : Z) : result json :=
  match v with
  | JStr s =>
      repeated (Z.of_nat (List.length (code_points s))) n
               (fun k => JStr (repeat_string s k))
  | JList l =>
      repeated (Z.of_nat (List.length l)) n (fun k => JList (repeat_list l k))
  | _ => Raise TypeError
  end.

(** [a * b] *)
Definition py_mul (a b : json) : result json :=
  match as_num a, as_num b with
  | Some (NInt u), Some (NInt v) => OK (JInt (u * v))
  | Some u, Some v =>
      fu <- to_float u ;; fv <- to_float v ;; OK (JFloat (PrimFloat.mul fu fv))
  | Some _, None =>
      match as_int a with Some n => seq_repeat b n | None => Raise TypeError end
  | None, Some _ =>
      match as_int b with Some n => seq_repeat a n | None => Raise TypeError end
  | None, None => Raise TypeError
  end.

(** [a / b]: always a float; [int / int] is the correctly rounded quotient. *)
Definition py_truediv (a b : json) : result float :=
  match as_num a, as_num b with
  | Some (NInt u), Some (NInt v) =>
      if v =? 0 then Raise ZeroDivisionError
      else
        let q := SFdiv prec emax (exact u) (exact v) in
        if is_inf q then Raise OverflowError else OK (SF2Prim q)
  | Some u, Some v =>
      fu <- to_float u ;; fv <- to_float v ;;
      if PrimFloat.eqb fv 0%float then Raise ZeroDivisionError
      else OK (PrimFloat.div fu fv)
  | _, _ => Raise TypeError
  end.

(** [int(f)] for a float: truncation toward zero. *)
Definition int_of_float (f : float) : result Z :=
  match Prim2SF f with
  | S754_nan => Raise (ValueError (Builtin "cannot convert float NaN to integer"))
  | S754_infinity _ => Raise OverflowError
  | S754_zero _ => OK 0
  | S754_finite s m e =>
      let a := match e with
               | Zneg p => Z.shiftr (Zpos m) (Zpos p)
               | _ => Z.shiftl (Zpos m) e
               end in
      OK (if s then - a else a)
  end.

(** [str(z)] for an int. *)
Definition str_of_Z (z : Z) : string := NilZero.string_of_int (Z.to_int z).

End Py.
Import Py.

(* ================================================================== *)
(** * ApertureDBStorageMixin *)

Module ApertureDBStorageMixin.

(** [_response_status], lines 55-62.  A value that is neither a list nor a
    dict, and an empty dict, fall off the end of the function: [None]. *)
Fixpoint _response_status (response : json) : result json :=
  match response with
  | JList l =>
      sts <- (fix each (l : list json) : result (list json) :=
                match l with
                | [] => OK []
                | val :: l' =>
                    s <- _response_status val ;; r <- each l' ;; OK (s :: r)
                end) l ;;
      py_max sts
  | JDict d =>
      match dict_get "status" d with
      | Some s => OK s
      | None =>
          match d with
          | [] => OK JNull
          | (_, val) :: _ => _response_status val
          end
      end
  | _ => OK JNull
  end.

End ApertureDBStorageMixin.
Import ApertureDBStorageMixin.

(* ================================================================== *)
(** * AnnotationBBox *)

(** The pixel rectangle [self.rect]: a dict with the four keys below, each
    holding the [int] that [int(...)] returned. *)
Module Rect.
Record t : Type := mk { x : Z; y : Z; width : Z; height : Z }.
End Rect.

Module AnnotationBBox.

(** An instance: the attributes [__init__] assigns. *)
Record t : Type := mk {
  original_width : json;
  original_height : json;
  rect : Rect.t;
  labels : json;
  text : json
}.

Definition default_description : string := "rectangle annotation".

(** [_get(obj, key, description)], lines 343-348. *)
Definition _get (obj : json) (key description : string) : result json :=
  match obj with
  | JDict d =>
      match dict_get key d with
      | Some v => OK v
      | None => Raise (ValueError (MustInclude description key))
      end
  | _ => Raise (ValueError (MustBeDict description))
  end.

(** [int(v * dim / 100)], the expression of lines 357-360. *)
Definition scale (v dim : json) : result Z :=
  p <- py_mul v dim ;;
  q <- py_truediv p (JInt 100) ;;
  int_of_float q.

(** The check of lines 365-367 and 388-390. *)
Definition at_most_one_label (labels : json) : result unit :=
  n <- py_len labels ;;
  if n >? 1
  then joined <- py_join "," labels ;; Raise (ValueError (TooManyLabels joined))
  else OK tt.

(** [__init__(self, ann)], lines 350-368. *)
Definition __init__ (ann : json) : result t :=
  ow <- _get ann "original_width" default_description ;;
  oh <- _get ann "original_height" default_description ;;
  rot <- _get ann "image_rotation" default_description ;;
  if py_ne rot (JInt 0) then Raise (ValueError ImageRotation) else
  val <- _get ann "value" default_description ;;
  x <- (v <- _get val "x" "annotation value" ;; scale v ow) ;;
  y <- (v <- _get val "y" "annotation value" ;; scale v oh) ;;
  w <- (v <- _get val "width" "annotation value" ;; scale v ow) ;;
  h <- (v <- _get val "height" "annotation value" ;; scale v oh) ;;
  vrot <- _get val "rotation" "annotation value" ;;
  if py_ne vrot (JInt 0) then Raise (ValueError ValueRotation) else
  in_val <- py_contains "rectanglelabels" val ;;
  ls <- (if in_val then py_getitem val "rectanglelabels" else OK (JList [])) ;;
  at_most_one_label ls ;;;
  in_val <- py_contains "text" val ;;
  tx <- (if in_val then py_getitem val "text" else OK (JList [])) ;;
  OK (mk ow oh (Rect.mk x y w h) ls tx).

(** The first two arguments of [_attr_must_match] are either two instances
    (read with [getattr]) or two [rect] dicts (read with [[]]). *)
Inductive holder : Type :=
| Instance (b : t)
| RectDict (r : Rect.t).

Definition attr_of (a : holder) (attr : string) : result json :=
  match a with
  | Instance b =>
      if String.eqb attr "original_width" then OK (original_width b)
      else if String.eqb attr "original_height" then OK (original_height b)
      else if String.eqb attr "labels" then OK (labels b)
      else if String.eqb attr "text" then OK (text b)
      else Raise AttributeError
  | RectDict r =>
      if String.eqb attr "x" then OK (JInt (Rect.x r))
      else if String.eqb attr "y" then OK (JInt (Rect.y r))
      else if String.eqb attr "width" then OK (JInt (Rect.width r))
      else if String.eqb attr "height" then OK (JInt (Rect.height r))
      else Raise KeyError
  end.

(** [_attr_must_match(a, b, attr)], lines 370-376. *)
Definition _attr_must_match (a b : holder) (attr : string) : result unit :=
  a_val <- attr_of a attr ;;
  b_val <- attr_of b attr ;;
  if py_ne a_val b_val then Raise (ValueError (Mismatched attr)) else OK tt.

(** [merge(self, other)] for an [other] that is already an instance:
    lines 381-391.  The instances are values here.  In the source
    [self.labels] and [self.text] are the lists of the fragment the
    instance was constructed from, when the fragment has them, and
    [extend] changes them in place; what the fragments of the annotation
    hold after a merge is not followed. *)
Definition merge_instance (self other : t) : result t :=
  _attr_must_match (Instance self) (Instance other) "original_width" ;;;
  _attr_must_match (Instance self) (Instance other) "original_height" ;;;
  _attr_must_match (RectDict (rect self)) (RectDict (rect other)) "x" ;;;
  _attr_must_match (RectDict (rect self)) (RectDict (rect other)) "y" ;;;
  _attr_must_match (RectDict (rect self)) (RectDict (rect other)) "width" ;;;
  _attr_must_match (RectDict (rect self)) (RectDict (rect other)) "height" ;;;
  ls <- py_extend (labels self) (labels other) ;;
  at_most_one_label ls ;;;
  tx <- py_extend (text self) (text other) ;;
  OK (mk (original_width self) (original_height self) (rect self) ls tx).

(** [merge(self, other)], lines 378-391, for the fragment [other] that
    [save_annotation] passes: it is first turned into an instance.  The
    result is the state of [self] after the call. *)
Definition merge (self : t) (other : json) : result t :=
  o <- __init__ other ;;
  merge_instance self o.

End AnnotationBBox.

(* ================================================================== *)
(** * Dicts and sets keyed by arbitrary hashable values

    [bbox_map], [bbox_id_fields], [_bbox_annotation_cache] and
    [_last_iterkeys] are keyed by values read from JSON.  Keys are compared
    with [==]; lists and dicts are unhashable. *)

Module PyDict.

Section Generic.
Context {V : Type}.

Fixpoint get (k : json) (m : list (json * V)) : option V :=
  match m with
  | [] => None
  | (k', v) :: m' => if py_eq k' k then Some v else get k m'
  end.

Definition mem (k : json) (m : list (json * V)) : bool :=
  match get k m with Some _ => true | None => false end.

(** [m[k] = v] *)
Fixpoint set (k : json) (v : V) (m : list (json * V)) : list (json * V) :=
  match m with
  | [] => [(k, v)]
  | (k', v') :: m' =>
      if py_eq k' k then (k', v) :: m' else (k', v') :: set k v m'
  end.

(** [k in m] *)
Definition contains (k : json) (m : list (json * V)) : result bool :=
  if hashable k then OK (mem k m) else Raise TypeError.

(** [m[k]] *)
Definition item (k : json) (m : list (json * V)) : result V :=
  if hashable k
  then match get k m with Some v => OK v | None => Raise KeyError end
  else Raise TypeError.

(** [m[k] = v], with the hash of [k] taken first. *)
Definition assign (k : json) (v : V) (m : list (json * V)) : result (list (json * V)) :=
  if hashable k then OK (set k v m) else Raise TypeError.

End Generic.

(** [set(ids)]: the distinct elements, here in order of first occurrence.
    Python fixes no order of iteration for a set, and the batched query of
    [_get_bbox_annotations] lists the keys of [_last_iterkeys] in that
    order: what is stated about that query holds up to the order of the
    keys it lists.  Membership does not depend on the order. *)
Fixpoint add (k : json) (s : list json) : list json :=
  match s with
  | [] => [k]
  | k' :: s' => if py_eq k' k then s else k' :: add k s'
  end.

Definition set_of (ids : list json) : result (list json) :=
  foldM (fun s k => if hashable k then OK (add k s) else Raise TypeError) ids [].

Definition set_mem (k : json) (s : list json) : bool :=
  existsb (fun k' => py_eq k' k) s.

(** [k in s] for a set [s] *)
Definition set_contains (k : json) (s : list json) : result bool :=
  if hashable k then OK (set_mem k s) else Raise TypeError.

End PyDict.

(* ================================================================== *)
(** * The external store *)

(** Computations that may raise and that read and update a state.  An
    exception leaves the state as it was when it was raised. *)
Definition M (S A : Type) : Type := S -> result A * S.

Definition ret {S A : Type} (a : A) : M S A := fun s => (OK a, s).

Definition raise {S A : Type} (e : exn) : M S A := fun s => (Raise e, s).

Definition lift {S A : Type} (r : result A) : M S A := fun s => (r, s).

Definition mbind {S A B : Type} (c : M S A) (k : A -> M S B) : M S B :=
  fun s =>
    match c s with
    | (OK a, s') => k a s'
    | (Raise e, s') => (Raise e, s')
    end.

Notation "x <~ c ;; k" := (mbind c (fun x => k))
  (at level 61, c at next level, right associativity) : py_scope.

(** The connection: the state of the store behind it and the queries sent
    through it so far, oldest first. *)
Record Connector (Store : Type) : Type := mkConnector {
  store : Store;
  sent : list json
}.
Arguments mkConnector {Store} store sent.
Arguments store {Store} c.
Arguments sent {Store} c.

(** What the module takes from its environment: the store, which answers a
    query with a response and moves to a new state, and the functions
    [json.loads], [json.dumps] and [str] of the Python library. *)
Class Env : Type := mkEnv {
  Store : Type;
  db_query : Store -> json -> json * Store;
  json_loads : string -> result json;
  json_dumps : json -> string;
  py_str : json -> string
}.

(** [res, _ = db.query(q)] *)
Definition query `{Env} (q : json) : M (Connector Store) json :=
  fun c =>
    let (res, s') := db_query (store c) q in
    (OK res, mkConnector s' (sent c ++ [q])).

(* ================================================================== *)
(** * ApertureDBExportStorage *)

Module ApertureDBExportStorage.

(** The fields of the [Annotation] model that [save_annotation] and
    [delete_annotation] read. *)
Record Annotation : Type := mkAnnotation {
  id : Z;
  result_ : json;                        (* annotation.result *)
  storage_filename : option string;      (* annotation.task.get_storage_filename() *)
  task_data : json;                      (* annotation.task.data *)
  created_at : string;                   (* annotation.created_at.isoformat() *)
  updated_at : string;                   (* annotation.updated_at.isoformat() *)
  project_title : string;
  project_id : Z;
  completed_by : option string;          (* annotation.completed_by.email, if any *)
  updated_by : option string;            (* annotation.updated_by.email, if any *)
  serialized : json                      (* self._get_serialized_data(annotation) *)
}.

Definition bbox_map_t : Type := list (json * AnnotationBBox.t).

(** Lines 402-403. *)
Definition regions (annotation : Annotation) : list json :=
  match result_ annotation with
  | JList l => l
  | r => [r]
  end.

Definition startswith (v : json) (p : string) : result bool :=
  match v with
  | JStr s => OK (String.prefix p s)
  | _ => Raise AttributeError
  end.

(** The body of the loop of lines 404-411. *)
Definition bbox_map_step (bbox_map : bbox_map_t) (ann : json) : result bbox_map_t :=
  has_type <- py_contains "type" ann ;;
  if negb has_type then OK bbox_map else
  ann_id <- py_getitem ann "id" ;;
  known <- PyDict.contains ann_id bbox_map ;;
  if known then
    self <- PyDict.item ann_id bbox_map ;;
    self' <- AnnotationBBox.merge self ann ;;
    OK (PyDict.set ann_id self' bbox_map)
  else
    ty <- py_getitem ann "type" ;;
    is_rect <- startswith ty "rectangle" ;;
    if is_rect then
      b <- AnnotationBBox.__init__ ann ;;
      PyDict.assign ann_id b bbox_map
    else OK bbox_map.

(** Lines 401-411. *)
Definition build_bbox_map (regions : list json) : result bbox_map_t :=
  foldM bbox_map_step regions [].

(** [re.split("key=", s)[-1]]: what follows the last ["key="], or [s]. *)
Fixpoint after_last_key (s : string) : option string :=
  match s with
  | EmptyString => None
  | String c s' =>
      match after_last_key s' with
      | Some r => Some r
      | None =>
          if String.prefix "key=" s
          then Some (String.substring 4 (String.length s - 4) s)
          else None
      end
  end.

(** Lines 413-416. *)
Definition image_id (annotation : Annotation) : result string :=
  match storage_filename annotation with
  | Some (String c s) => OK (String c s)
  | _ =>
      img_url <- py_getitem (task_data annotation) "image" ;;
      url <- as_str img_url ;;
      OK (match after_last_key url with Some r => r | None => url end)
  end.

(** The query of lines 423-438. *)
Definition scan_query (img_id : string) : json :=
  JList [
    JDict [("FindImage", JDict [
      ("blobs", JBool false);
      ("constraints", JDict [("_uniqueid", JList [JStr "=="; JStr img_id])]);
      ("_ref", JInt 1)])];
    JDict [("FindBoundingBox", JDict [
      ("blobs", JBool false);
      ("image_ref", JInt 1);
      ("results", JDict [("list", JList [JStr "LS_id"; JStr "_uniqueid"])])])]
  ].

(** The body of the loop of lines 447-451. *)
Definition id_field_step (bbox_map : bbox_map_t) (fields : list (json * string))
    (bbx : json) : result (list (json * string)) :=
  ls_id <- py_getitem bbx "LS_id" ;;
  by_ls_id <- PyDict.contains ls_id bbox_map ;;
  if by_ls_id then PyDict.assign ls_id "LS_id" fields
  else
    uid <- py_getitem bbx "_uniqueid" ;;
    by_uid <- PyDict.contains uid bbox_map ;;
    if by_uid then PyDict.assign uid "_uniqueid" fields else OK fields.

(** Lines 445-451. *)
Definition scan_id_fields (res : json) (bbox_map : bbox_map_t)
    : result (list (json * string)) :=
  r1 <- py_index res 1 ;;
  fbb <- py_getitem r1 "FindBoundingBox" ;;
  has <- py_contains "entities" fbb ;;
  if has then
    ents <- py_getitem fbb "entities" ;;
    l <- py_iter ents ;;
    foldM (id_field_step bbox_map) l []
  else OK [].

Definition rect_json (r : Rect.t) : json :=
  JDict [("x", JInt (Rect.x r)); ("y", JInt (Rect.y r));
         ("width", JInt (Rect.width r)); ("height", JInt (Rect.height r))].

(** [bbox.labels[0] if len(bbox.labels) > 0 else ""] *)
Definition first_label (labels : json) : result json :=
  n <- py_len labels ;;
  if n >? 0 then py_index labels 0 else OK (JStr "").

Definition email_or_empty (u : option string) : json :=
  match u with Some e => JStr e | None => JStr "" end.

Section WithEnv.
Context `{E : Env}.

Definition bbox_properties (with_id : option json) (bbox : AnnotationBBox.t)
    (ann_id : string) : json :=
  JDict (match with_id with Some i => [("LS_id", i)] | None => [] end ++
         [("LS_text", JStr (json_dumps (AnnotationBBox.text bbox)));
          ("LS_annotation", JStr ann_id);
          ("LS_label", JStr (json_dumps (AnnotationBBox.labels bbox)))]).

(** The commands one entry of [bbox_map] adds to the query, lines 499-534. *)
Definition bbox_commands (bbox_id_fields : list (json * string)) (ann_id : string)
    (ref : Z) (id_ : json) (bbox : AnnotationBBox.t) : result (list json) :=
  match PyDict.get id_ bbox_id_fields with
  | Some id_field =>
      label <- first_label (AnnotationBBox.labels bbox) ;;
      OK [JDict [("UpdateBoundingBox", JDict [
            ("constraints", JDict [(id_field, JList [JStr "=="; id_])]);
            ("rectangle", rect_json (AnnotationBBox.rect bbox));
            ("label", label);
            ("properties", bbox_properties None bbox ann_id)])]]
  | None =>
      label <- first_label (AnnotationBBox.labels bbox) ;;
      OK [JDict [("AddBoundingBox", JDict [
            ("image_ref", JInt 1);
            ("_ref", JInt ref);
            ("rectangle", rect_json (AnnotationBBox.rect bbox));
            ("label", label);
            ("properties", bbox_properties (Some id_) bbox ann_id)])];
          JDict [("AddConnection", JDict [
            ("class", JStr "LS_annotation_region");
            ("src", JInt 2);
            ("dst", JInt ref);
            ("if_not_found", JDict [])])]]
  end.

(** The loop of lines 497-535. *)
Fixpoint extend_query (bbox_id_fields : list (json * string)) (ann_id : string)
    (ref : Z) (bbox_map : bbox_map_t) (query : list json) : result (list json) :=
  match bbox_map with
  | [] => OK query
  | (id_, bbox) :: rest =>
      cmds <- bbox_commands bbox_id_fields ann_id ref id_ bbox ;;
      extend_query bbox_id_fields ann_id (ref + 1) rest (query ++ cmds)
  end.

(** The query of lines 458-495. *)
Definition annotation_commands (annotation : Annotation) (img_id ann_id : string)
    : list json :=
  [ JDict [("FindImage", JDict [
      ("blobs", JBool false);
      ("constraints", JDict [("_uniqueid", JList [JStr "=="; JStr img_id])]);
      ("results", JDict [("count", JBool true)]);
      ("_ref", JInt 1)])];
    JDict [("AddEntity", JDict [
      ("class", JStr "LS_annotation");
      ("if_not_found", JDict [("LS_id", JList [JStr "=="; JStr ann_id])]);
      ("properties", JDict [("LS_id", JStr ann_id)]);
      ("connect", JDict [("ref", JInt 1); ("class", JStr "LS_annotation_image")]);
      ("_ref", JInt 2)])];
    JDict [("UpdateEntity", JDict [
      ("ref", JInt 2);
      ("properties", JDict [
        ("LS_created_at", JDict [("_date", JStr (created_at annotation))]);
        ("LS_project_title", JStr (project_title annotation));
        ("LS_project_id", JInt (project_id annotation));
        ("LS_completed_by", email_or_empty (completed_by annotation));
        ("LS_updated_at", JDict [("_date", JStr (updated_at annotation))]);
        ("LS_updated_by", email_or_empty (updated_by annotation));
        ("LS_data", JStr (json_dumps (serialized annotation)))])])] ].

(** [status not in (0, 2)] *)
Definition not_in_0_2 (status : json) : bool :=
  negb (py_eq status (JInt 0) || py_eq status (JInt 2)).

(** Everything [save_annotation] does before it sends the second query:
    lines 396-535.  The result is that query. *)
Definition save_query (annotation : Annotation) : M (Connector Store) json :=
  bbox_map <~ lift (build_bbox_map (regions annotation)) ;;
  img_id <~ lift (image_id annotation) ;;
  let ann_id := str_of_Z (id annotation) in
  res <~ query (scan_query img_id) ;;
  status <~ lift (_response_status res) ;;
  if py_ne status (JInt 0) then raise (ValueError SaveFailed) else
  bbox_id_fields <~ lift (scan_id_fields res bbox_map) ;;
  q <~ lift (extend_query bbox_id_fields ann_id 3 bbox_map
               (annotation_commands annotation img_id ann_id)) ;;
  ret (JList q).

(** [save_annotation], lines 395-541. *)
Definition save_annotation (annotation : Annotation) : M (Connector Store) unit :=
  q <~ save_query annotation ;;
  res <~ query q ;;
  status <~ lift (_response_status res) ;;
  if not_in_0_2 status then raise (ValueError SaveFailed) else ret tt.

(** The query of lines 549-560. *)
Definition delete_query (ann_id : string) : json :=
  JList [
    JDict [("FindEntity", JDict [
      ("with_class", JStr "LS_annotation");
      ("constraints", JDict [("LS_id", JList [JStr "=="; JStr ann_id])]);
      ("_ref", JInt 1)])];
    JDict [("FindBoundingBox", JDict [
      ("is_connected_to", JDict [("ref", JInt 1);
                                 ("connection_class", JStr "LS_annotation_region")]);
      ("_ref", JInt 2)])];
    JDict [("DeleteBoundingBox", JDict [("ref", JInt 2)])];
    JDict [("DeleteEntity", JDict [("ref", JInt 1)])]
  ].

(** [delete_annotation], lines 543-566. *)
Definition delete_annotation (annotation : Annotation) : M (Connector Store) unit :=
  let ann_id := str_of_Z (id annotation) in
  res <~ query (delete_query ann_id) ;;
  status <~ lift (_response_status res) ;;
  if not_in_0_2 status then raise (ValueError DeleteFailed) else ret tt.

End WithEnv.

End ApertureDBExportStorage.

(* ================================================================== *)
(** * ApertureDBImportStorageBase *)

Module ApertureDBImportStorageBase.

Definition DEFAULT_LIMIT : Z := 1000.
Definition PREDICTIONS_READONLY : bool := true.

(** The page size, [batch = 100] of line 122. *)
Definition batch : Z := 100.

(** The model fields the scanner and the reader use. *)
Record Config : Type := mkConfig {
  constraints : option string;
  predictions : bool;
  pred_constraints : option string;
  limit : option Z;
  project_id : Z                         (* self.project.id *)
}.

(** [if s:] for a text field. *)
Definition nonempty (s : option string) : option string :=
  match s with
  | Some (String c r) => Some (String c r)
  | _ => None
  end.

(** One element of the argument of [dict.update] when the argument is not
    a dict: a sequence of length two, key first.  A key that is hashable
    but not a string would give a dict that is not JSON: [OutOfModel]. *)
Definition update_pair (e : json) : result (string * json) :=
  items <- py_iter e ;;
  match items with
  | [k; v] =>
      match k with
      | JStr s => OK (s, v)
      | JList _ | JDict _ => Raise TypeError
      | _ => Raise OutOfModel
      end
  | _ => Raise (ValueError (Builtin "dictionary update sequence element has length other than 2"))
  end.

(** [d.update(arg)] *)
Definition py_dict_update (d : dict) (arg : json) : result dict :=
  match arg with
  | JDict e => OK (dict_update d e)
  | _ =>
      items <- py_iter arg ;;
      foldM (fun acc e => kv <- update_pair e ;; OK (dict_set (fst kv) (snd kv) acc))
            items d
  end.

(** The constraints the scanner starts from, line 129. *)
Definition internal_constraints : dict :=
  [("width", JList [JStr ">"; JInt 0]); ("height", JList [JStr ">"; JInt 0])].

(** The per-instance state: the connection and the two attributes that
    [iterkeys] creates ([None] until then). *)
Record Storage (Store : Type) : Type := mkStorage {
  conn : Connector Store;
  _last_iterkeys : option (list json);
  _bbox_annotation_cache : option (list (json * (json * json)))
}.
Arguments mkStorage {Store} conn _last_iterkeys _bbox_annotation_cache.
Arguments conn {Store} s.
Arguments _last_iterkeys {Store} s.
Arguments _bbox_annotation_cache {Store} s.

(** How a run of the generator [iterkeys] stands after some iterations. *)
Inductive outcome : Type :=
| Returned                 (* the generator is exhausted *)
| Raised (e : exn)
| Suspended.               (* more iterations remain *)

Section WithEnv.
Context `{E : Env}.

Definition on_conn {A : Type} (c : M (Connector Store) A) : M (Storage Store) A :=
  fun self =>
    let (r, c') := c (conn self) in
    (r, mkStorage c' (_last_iterkeys self) (_bbox_annotation_cache self)).

(** ** [iterkeys], lines 119-153 *)

(** Lines 125-135: the [FindImage] command before its ["offset"] is set. *)
Definition find_images (cfg : Config) : result dict :=
  cs <- match nonempty (constraints cfg) with
        | Some s => user <- json_loads s ;; py_dict_update internal_constraints user
        | None => OK internal_constraints
        end ;;
  OK [("uniqueids", JBool true); ("blobs", JBool false); ("limit", JInt batch);
      ("constraints", JDict cs)].

(** The query of line 142 for a given offset. *)
Definition page_query (find_images : dict) (offset : Z) : json :=
  JList [JDict [("FindImage", JDict (dict_set "offset" (JInt offset) find_images))]].

(** Lines 143-149: [None] when the page reports no record. *)
Definition read_page (res : json) : result (option (list json)) :=
  status <- _response_status res ;;
  if py_ne status (JInt 0) then Raise (ValueError QueryImagesFailed) else
  r0 <- py_index res 0 ;;
  fe_result <- py_getitem r0 "FindImage" ;;
  returned <- py_getitem fe_result "returned" ;;
  if py_eq returned (JInt 0) then OK None else
  has <- py_contains "entities" fe_result ;;
  if has then
    ents <- py_getitem fe_result "entities" ;;
    l <- py_iter ents ;;
    ids <- mapM (fun ent => py_getitem ent "_uniqueid") l ;;
    OK (Some ids)
  else OK (Some []).

(** [(not self.limit) or (offset < self.limit)] *)
Definition keep_going (cfg : Config) (offset : Z) : bool :=
  match limit cfg with
  | None => true
  | Some l => (l =? 0) || (offset <? l)
  end.

(** What the consumer of the generator does with the instance each time it
    is handed a key, before it resumes the generator. *)
Variable consumer : json -> Storage Store -> Storage Store.

(** [yield from ids] *)
Definition yield_from (ids : list json) (self : Storage Store) : Storage Store :=
  fold_left (fun s k => consumer k s) ids self.

(** The [while] loop of lines 137-153, run for at most [fuel] iterations:
    the keys yielded, in order, how the run stands, and the instance. *)
Fixpoint iterkeys_loop (fuel : nat) (cfg : Config) (find_images : dict) (offset : Z)
    (self : Storage Store) : list json * outcome * Storage Store :=
  match fuel with
  | O => ([], (if keep_going cfg offset then Suspended else Returned), self)
  | S fuel' =>
      if negb (keep_going cfg offset) then ([], Returned, self) else
      let (r, self1) := on_conn (query (page_query find_images offset)) self in
      match (res <- r ;; read_page res) with
      | Raise e => ([], Raised e, self1)
      | OK None => ([], Returned, self1)
      | OK (Some ids) =>
          match PyDict.set_of ids with
          | Raise e => ([], Raised e, self1)
          | OK s =>
              let self2 := mkStorage (conn self1) (Some s) (Some []) in
              let self3 := yield_from ids self2 in
              let '(rest, out, self4) :=
                iterkeys_loop fuel' cfg find_images (offset + batch) self3 in
              (ids ++ rest, out, self4)
          end
      end
  end.

(** [iterkeys], consumed until it returns or raises, or for [fuel] pages. *)
Definition iterkeys (fuel : nat) (cfg : Config) (self : Storage Store)
    : list json * outcome * Storage Store :=
  match find_images cfg with
  | Raise e => ([], Raised e, self)
  | OK fi => iterkeys_loop fuel cfg fi 0 self
  end.

(** ** [_adb_to_rectanglelabels], lines 155-187 *)

Definition percent (c dim : json) : result json :=
  p <- py_mul (JInt 100) c ;;
  q <- py_truediv p dim ;;
  OK (JFloat q).

Definition region_of (width height bbx : json) : result json :=
  ls_id <- py_getitem bbx "LS_id" ;;
  id_ <- (if negb (is_none ls_id) then py_getitem bbx "LS_id"
          else py_getitem bbx "_uniqueid") ;;
  x <- (c <- py_getitem bbx "_coordinates" ;; v <- py_getitem c "x" ;; percent v width) ;;
  y <- (c <- py_getitem bbx "_coordinates" ;; v <- py_getitem c "y" ;; percent v height) ;;
  w <- (c <- py_getitem bbx "_coordinates" ;; v <- py_getitem c "width" ;; percent v width) ;;
  h <- (c <- py_getitem bbx "_coordinates" ;; v <- py_getitem c "height" ;; percent v height) ;;
  label <- py_getitem bbx "_label" ;;
  OK (JDict [
    ("from_name", JStr "label");
    ("to_name", JStr "image");
    ("id", JStr (py_str id_));
    ("type", JStr "rectanglelabels");
    ("original_width", width);
    ("original_height", height);
    ("image_rotation", JInt 0);
    ("value", JDict [
      ("rotation", JInt 0);
      ("x", x); ("y", y); ("width", w); ("height", h);
      ("rectanglelabels", JList [label])]);
    ("readonly", JBool PREDICTIONS_READONLY)]).

Definition _adb_to_rectanglelabels (img bboxen : json) : result json :=
  width <- py_getitem img "width" ;;
  height <- py_getitem img "height" ;;
  n <- py_len bboxen ;;
  if n >? 0 then
    l <- py_iter bboxen ;;
    rs <- mapM (region_of width height) l ;;
    OK (JList [JDict [("result", JList rs)]])
  else OK (JList []).

(** ** [_get_bbox_annotations_batch], lines 219-285 *)

(** Lines 222-262. *)
Definition batch_query (cfg : Config) (keys : list json) : result json :=
  let base :=
    [ JDict [("FindImage", JDict [
        ("blobs", JBool false);
        ("_ref", JInt 1);
        ("results", JDict [("list", JList [JStr "width"; JStr "height"])]);
        ("uniqueids", JBool true);
        ("constraints", JDict [
          ("width", JList [JStr ">"; JInt 0]);
          ("height", JList [JStr ">"; JInt 0]);
          ("_uniqueid", JList [JStr "in"; JList keys])])])];
      JDict [("FindEntity", JDict [
        ("with_class", JStr "LS_annotation");
        ("is_connected_to", JDict [("ref", JInt 1)]);
        ("constraints", JDict [("LS_project_id", JList [JStr "=="; JInt (project_id cfg)])]);
        ("results", JDict [("list", JList [JStr "LS_data"])]);
        ("group_by_source", JBool true)])] ] in
  if predictions cfg then
    pc <- match nonempty (pred_constraints cfg) with
          | Some s => json_loads s
          | None => OK (JDict [])
          end ;;
    match pc with
    | JDict d =>
        OK (JList (base ++ [
          JDict [("FindBoundingBox", JDict [
            ("image_ref", JInt 1);
            ("blobs", JBool false);
            ("coordinates", JBool true);
            ("labels", JBool true);
            ("uniqueids", JBool true);
            ("results", JDict [("list", JList [JStr "LS_id"])]);
            ("constraints", JDict (dict_update d [("LS_id", JList [JStr "=="; JNull])]));
            ("group_by_source", JBool true)])]]))
    | _ => Raise TypeError
    end
  else OK (JList base).

(** [res[i][cmd]["entities"].get(key, []) if res[i][cmd]["returned"] > 0 else []] *)
Definition grouped (res : json) (i : nat) (cmd : string) (key : json) : result json :=
  ri <- py_index res i ;;
  c <- py_getitem ri cmd ;;
  returned <- py_getitem c "returned" ;;
  some <- py_gt returned (JInt 0) ;;
  if some then
    ri <- py_index res i ;;
    c <- py_getitem ri cmd ;;
    ents <- py_getitem c "entities" ;;
    match ents with
    | JDict d =>
        if hashable key then
          OK (match key with
              | JStr k => match dict_get k d with Some v => v | None => JList [] end
              | _ => JList []
              end)
        else Raise TypeError
    | _ => Raise AttributeError
    end
  else OK (JList []).

(** The body of the loop of lines 270-285: the triple it yields. *)
Definition batch_item (cfg : Config) (res img : json) : result (json * (json * json)) :=
  key <- py_getitem img "_uniqueid" ;;
  anns <- grouped res 1 "FindEntity" key ;;
  l <- py_iter anns ;;
  loaded <- mapM (fun ann => d <- py_getitem ann "LS_data" ;; s <- as_str d ;; json_loads s) l ;;
  anns <- mapM (fun ann => r <- py_getitem ann "result" ;; OK (JDict [("result", r)])) loaded ;;
  preds <- (if predictions cfg then
              bboxen <- grouped res 2 "FindBoundingBox" key ;;
              _adb_to_rectanglelabels img bboxen
            else OK (JList [])) ;;
  OK (key, (JList anns, preds)).

(** Lines 264-270: what the generator does when it is first resumed, up to
    the head of its [for] loop.  The result is the response and the
    entities the loop will go through. *)
Definition batch_open (cfg : Config) (keys : list json)
    : M (Connector Store) (json * list json) :=
  q <~ lift (batch_query cfg keys) ;;
  res <~ query q ;;
  status <~ lift (_response_status res) ;;
  if py_ne status (JInt 0) then raise (ValueError RetrieveFailed) else
  r0 <~ lift (py_index res 0) ;;
  fi <~ lift (py_getitem r0 "FindImage") ;;
  has <~ lift (py_contains "entities" fi) ;;
  if has then
    r0 <~ lift (py_index res 0) ;;
    fi <~ lift (py_getitem r0 "FindImage") ;;
    ents <~ lift (py_getitem fi "entities") ;;
    l <~ lift (py_iter ents) ;;
    ret (res, l)
  else ret (res, []).

(** The dict comprehension of lines 211-212 over the generator. *)
Definition collect (cfg : Config) (res : json) (imgs : list json)
    : result (list (json * (json * json))) :=
  foldM (fun acc img =>
           it <- batch_item cfg res img ;;
           PyDict.assign (fst it) (snd it) acc)
        imgs [].

(** [next(gen)[1:]], line 217. *)
Definition first_item (cfg : Config) (res : json) (imgs : list json)
    : result (json * json) :=
  match imgs with
  | [] => Raise StopIteration
  | img :: _ => it <- batch_item cfg res img ;; OK (snd it)
  end.

(** ** [_get_bbox_annotations], lines 189-217 *)

Definition cached (key : json) (self : Storage Store) : result bool :=
  match _bbox_annotation_cache self with
  | Some c => PyDict.contains key c
  | None => OK false
  end.

Definition scanned (key : json) (self : Storage Store) : result bool :=
  match _last_iterkeys self with
  | Some s => PyDict.set_contains key s
  | None => OK false
  end.

Definition set_cache (c : list (json * (json * json))) : M (Storage Store) unit :=
  fun self => (OK tt, mkStorage (conn self) (_last_iterkeys self) (Some c)).

Definition _get_bbox_annotations (cfg : Config) (key : json)
    : M (Storage Store) (json * json) :=
  fun self =>
    match cached key self with
    | Raise e => (Raise e, self)
    | OK true =>
        (PyDict.item key (match _bbox_annotation_cache self with
                          | Some c => c | None => [] end), self)
    | OK false =>
        match scanned key self with
        | Raise e => (Raise e, self)
        | OK true =>
            (opened <~ on_conn (batch_open cfg (match _last_iterkeys self with
                                                  | Some s => s | None => [] end)) ;;
             c <~ lift (collect cfg (fst opened) (snd opened)) ;;
             u <~ set_cache c ;;
             lift (PyDict.item key c)) self
        | OK false =>
            (opened <~ on_conn (batch_open cfg [key]) ;;
             lift (first_item cfg (fst opened) (snd opened))) self
        end
    end.

End WithEnv.

End ApertureDBImportStorageBase.

(* ================================================================== *)
(** * ApertureDBImportStorageBase, continued: [get_data] *)

Module ApertureDBImportStorage.
Import ApertureDBImportStorageBase.

(** The two Django settings [get_data] reads. *)
Record Settings : Type := mkSettings {
  DATA_UNDEFINED_NAME : string;
  HOSTNAME : string
}.

(** [self.title or "none"] *)
Definition title_or_none (title : option string) : string :=
  match nonempty title with
  | Some t => t
  | None => "none"
  end.

Section WithEnv.
Context `{E : Env}.
Variable settings : Settings.

(** The f-string of line 290. *)
Definition data_url (title : option string) (key : json) : string :=
  String.concat "" [HOSTNAME settings; "/data/aperturedb/?title=";
                    title_or_none title; "&key="; py_str key].

(** [get_data], lines 287-299. *)
Definition get_data (cfg : Config) (title : option string) (key : json)
    : M (Storage Store) json :=
  let data := [("data", JDict [(DATA_UNDEFINED_NAME settings,
                                JStr (data_url title key))])] in
  r <~ _get_bbox_annotations cfg key ;;
  n <~ lift (py_len (fst r)) ;;
  let data := if n >? 0 then dict_set "annotations" (fst r) data else data in
  m <~ lift (py_len (snd r)) ;;
  let data := if m >? 0 then dict_set "predictions" (snd r) data else data in
  ret (JDict data).

End WithEnv.

End ApertureDBImportStorage.

(* ================================================================== *)
(** * Vocabulary of the statements *)

Module Spec.
Import AnnotationBBox.

(** Lines 351-363 of [__init__]: everything before the labels are read.
    The result is the two dimensions, the pixel rectangle and the ["value"]
    mapping of the fragment. *)
Definition geometry (ann : json) : result (json * json * Rect.t * json) :=
  ow <- _get ann "original_width" default_description ;;
  oh <- _get ann "original_height" default_description ;;
  rot <- _get ann "image_rotation" default_description ;;
  if py_ne rot (JInt 0) then Raise (ValueError ImageRotation) else
  val <- _get ann "value" default_description ;;
  x <- (v <- _get val "x" "annotation value" ;; scale v ow) ;;
  y <- (v <- _get val "y" "annotation value" ;; scale v oh) ;;
  w <- (v <- _get val "width" "annotation value" ;; scale v ow) ;;
  h <- (v <- _get val "height" "annotation value" ;; scale v oh) ;;
  vrot <- _get val "rotation" "annotation value" ;;
  if py_ne vrot (JInt 0) then Raise (ValueError ValueRotation) else
  OK (ow, oh, Rect.mk x y w h, val).

(** The attributes [merge] compares, in the order it compares them. *)
Definition compared : list string :=
  ["original_width"; "original_height"; "x"; "y"; "width"; "height"].

(** Two instances differ in one of the compared attributes ([!=] on the
    dimensions, which are arbitrary values; the rectangle holds ints). *)
Definition differ (a b : t) : Prop :=
  py_ne (original_width a) (original_width b) = true \/
  py_ne (original_height a) (original_height b) = true \/
  Rect.x (rect a) <> Rect.x (rect b) \/
  Rect.y (rect a) <> Rect.y (rect b) \/
  Rect.width (rect a) <> Rect.width (rect b) \/
  Rect.height (rect a) <> Rect.height (rect b).

Definition agree (a b : t) : Prop :=
  py_eq (original_width a) (original_width b) = true /\
  py_eq (original_height a) (original_height b) = true /\
  rect a = rect b.

(** The number of labels of an instance is at most one. *)
Definition one_label_at_most (b : t) : Prop :=
  exists n, py_len (labels b) = OK n /\ n <= 1.





(** The reading of "fragments that agree merge" that does not look at the
    labels: equal dimensions and rectangle and different text lists are
    enough for [merge] to return with the texts concatenated. *)
Definition agreeing_fragments_merge : Prop :=
  forall f1 f2 a b t1 t2,
    __init__ f1 = OK a -> __init__ f2 = OK b -> agree a b ->
    text a = JList t1 -> text b = JList t2 -> t1 <> t2 ->
    exists r, merge a f2 = OK r /\ text r = JList (t1 ++ t2).

(** [status in (0, 2)] *)
Definition accepted (status : json) : bool :=
  py_eq status (JInt 0) || py_eq status (JInt 2).

(** "A batched call fails whenever one command of the batch reports a
    status outside the accepted set": for [delete_annotation], whose
    accepted set is [(0, 2)]. *)
Definition any_bad_command_fails : Prop :=
  forall (E : Env) (annotation : ApertureDBExportStorage.Annotation)
         (c : Connector Store) (cmds : list json) (cmd : json) (z : Z),
    fst (db_query (store c)
           (ApertureDBExportStorage.delete_query
              (str_of_Z (ApertureDBExportStorage.id annotation)))) = JList cmds ->
    In cmd cmds -> _response_status cmd = OK (JInt z) -> z <> 0 -> z <> 2 ->
    is_ok (fst (ApertureDBExportStorage.delete_annotation annotation c)) = false.

(** The ["constraints"] of the first command, a [FindImage], of a query. *)
Definition query_constraints (q : json) : result json :=
  r0 <- py_index q 0 ;;
  fi <- py_getitem r0 "FindImage" ;;
  py_getitem fi "constraints".


(** No two keys of the list are equal under [==]. *)
Definition distinct_keys (l : list json) : Prop :=
  ForallOrdPairs (fun a b => py_eq a b = false) l.

Fixpoint distinctb (l : list json) : bool :=
  match l with
  | [] => true
  | a :: l' => forallb (fun b => negb (py_eq a b)) l' && distinctb l'
  end.

Definition page_size : nat := 100.

(** The store pages through the fixed listing [all], in whatever state it
    is: to the page query with offset [o] it answers with the (at most
    [page_size]) keys of [all] from position [o] on, and it reports no
    record when there is none left. *)
Definition paged_by `{E : Env} (all : list json) (fi : dict) : Prop :=
  forall (st : Store) (offset : Z),
    0 <= offset ->
    ApertureDBImportStorageBase.read_page
      (fst (db_query st (ApertureDBImportStorageBase.page_query fi offset))) =
    OK (match skipn (Z.to_nat offset) all with
        | [] => None
        | rest => Some (firstn page_size rest)
        end).

(** "A scan yields at most [limit] keys" (the help text of the field:
    "Maximum number of tasks"), over stores that page honestly through a
    listing of distinct keys. *)
Definition scan_within_limit : Prop :=
  forall (E : Env) consumer cfg fi all l fuel self ys out self',
    ApertureDBImportStorageBase.limit cfg = Some l ->
    ApertureDBImportStorageBase.find_images cfg = OK fi ->
    paged_by all fi -> Forall (fun k => hashable k = true) all -> distinct_keys all ->
    ApertureDBImportStorageBase.iterkeys consumer fuel cfg self = (ys, out, self') ->
    Z.of_nat (List.length ys) <= l.

(** A [ValueError] raised by one of the [raise] statements of
    [AnnotationBBox]. *)
Definition is_validation (e : exn) : bool :=
  match e with
  | ValueError (MustBeDict _ | MustInclude _ _ | ImageRotation
               | ValueRotation | TooManyLabels _ | Mismatched _) => true
  | _ => false
  end.

(** What the arithmetic of [int(v * dim / 100)] can raise. *)
Definition is_arithmetic (e : exn) : bool :=
  match e with
  | TypeError | OverflowError | ValueError (Builtin _) => true
  | _ => false
  end.

(** A repetition of a string or a list whose result is longer than is
    followed here: see [seq_repeat]. *)
Definition is_out_of_model (e : exn) : bool :=
  match e with
  | OutOfModel => true
  | _ => false
  end.

(** A fragment of a rectangle type with the given identifier. *)
Definition rectangle_with_id (i : json) (ann : json) : Prop :=
  exists d ty,
    ann = JDict d /\ dict_get "type" d = Some (JStr ty) /\
    String.prefix "rectangle" ty = true /\ dict_get "id" d = Some i.

(** The number of commands [save_annotation] adds to its second query for
    the boxes of [bbox_map]: one for a box the store already has, two for
    a new one. *)
Fixpoint box_commands (bbox_id_fields : list (json * string))
    (bbox_map : ApertureDBExportStorage.bbox_map_t) : nat :=
  match bbox_map with
  | [] => 0
  | (id_, _) :: rest =>
      (if PyDict.mem id_ bbox_id_fields then 1 else 2) + box_commands bbox_id_fields rest
  end.

(** The string [s] has no occurrence of ["key="]. *)
Definition no_key_marker (s : string) : Prop :=
  ApertureDBExportStorage.after_last_key s = None.

(** The ["constraints"] of the command [cmd] at position [i] of a query. *)
Definition nth_constraints (q : json) (i : nat) (cmd : string) : result json :=
  r <- py_index q i ;;
  c <- py_getitem r cmd ;;
  py_getitem c "constraints".

(** The parsed prediction constraints of a configuration: the empty
    mapping when the field is unset or empty. *)
Definition user_pred_constraints `{E : Env}
    (cfg : ApertureDBImportStorageBase.Config) : result json :=
  match ApertureDBImportStorageBase.nonempty
          (ApertureDBImportStorageBase.pred_constraints cfg) with
  | Some s => json_loads s
  | None => OK (JDict [])
  end.

(** The fragment is a mapping whose ["id"] is the string [i]. *)
Definition touches (i : string) (ann : json) : bool :=
  match ann with
  | JDict d =>
      match dict_get "id" d with
      | Some (JStr j) => String.eqb i j
      | _ => false
      end
  | _ => false
  end.

(** A consumer of the scan that reads the annotations of every key it is
    handed, as [get_data] does, and goes on whatever the outcome. *)
Definition reader `{E : Env} (cfg : ApertureDBImportStorageBase.Config)
    (key : json) (self : ApertureDBImportStorageBase.Storage Store)
    : ApertureDBImportStorageBase.Storage Store :=
  snd (ApertureDBImportStorageBase._get_bbox_annotations cfg key self).

(** A fragment [d] that carries the text [t] of the region [i] whose
    rectangle gave the box [b0]: it has a type and the identifier [i], and
    it constructs to an instance that agrees with [b0], has no label and
    has the text list [t]. *)
Definition note_of (b0 : AnnotationBBox.t) (i : string) (dt : dict * list json) : Prop :=
  dict_mem "type" (fst dt) = true /\
  dict_get "id" (fst dt) = Some (JStr i) /\
  exists o, AnnotationBBox.__init__ (JDict (fst dt)) = OK o /\
            agree b0 o /\
            AnnotationBBox.labels o = JList [] /\
            AnnotationBBox.text o = JList (snd dt).

(** The boxes the store lists in the response to the first query of
    [save_annotation]. *)
Definition stored_boxes (res : json) : result (list json) :=
  r1 <- py_index res 1 ;;
  fbb <- py_getitem r1 "FindBoundingBox" ;;
  has <- py_contains "entities" fbb ;;
  if has then ents <- py_getitem fbb "entities" ;; py_iter ents else OK [].

(** The stored box [bbx] is matched with the key [k] of the map: by its
    ["LS_id"], or by its ["_uniqueid"] when its ["LS_id"] is no key. *)
Definition matches (m : ApertureDBExportStorage.bbox_map_t) (k : string) (bbx : json)
    : Prop :=
  py_getitem bbx "LS_id" = OK (JStr k) \/
  exists ls, py_getitem bbx "LS_id" = OK ls /\ PyDict.contains ls m = OK false /\
             py_getitem bbx "_uniqueid" = OK (JStr k).

(** ** The response to a batched read *)









(** The commands for the boxes of [bbox_map], one list per box, with the
    references 3, 4, ... in the order of the boxes. *)
Fixpoint commands_per_box `{E : Env} (bbox_id_fields : list (json * string))
    (ann_id : string) (ref : Z) (bbox_map : ApertureDBExportStorage.bbox_map_t)
    (cmdss : list (list json)) : Prop :=
  match bbox_map, cmdss with
  | [], [] => True
  | (id_, bbox) :: rest, cmds :: cmdss' =>
      ApertureDBExportStorage.bbox_commands bbox_id_fields ann_id ref id_ bbox = OK cmds /\
      commands_per_box bbox_id_fields ann_id (ref + 1) rest cmdss'
  | _, _ => False
  end.

End Spec.

(* ================================================================== *)
(** * Sample data *)

Module Sample.

(** A region as Label Studio stores it: percentages of an 800x600 image. *)
Definition region (id_ ty : string) (extra : dict) : json :=
  JDict [("id", JStr id_); ("type", JStr ty);
         ("from_name", JStr "label"); ("to_name", JStr "image");
         ("original_width", JInt 800); ("original_height", JInt 600);
         ("image_rotation", JInt 0);
         ("value", JDict ([("x", JInt 10); ("y", JInt 10);
                           ("width", JInt 50); ("height", JInt 20);
                           ("rotation", JInt 0)] ++ extra))].

Definition cat : json :=
  region "r1" "rectanglelabels" [("rectanglelabels", JList [JStr "cat"])].

Definition cat_a : json :=
  region "r1" "rectanglelabels"
    [("rectanglelabels", JList [JStr "cat"]); ("text", JList [JStr "a"])].

Definition cat_b : json :=
  region "r1" "rectanglelabels"
    [("rectanglelabels", JList [JStr "cat"]); ("text", JList [JStr "b"])].

Definition cat_dog : json :=
  region "r1" "rectanglelabels" [("rectanglelabels", JList [JStr "cat"; JStr "dog"])].

(** The per-region text of the same region: same identifier, another type. *)
Definition note : json :=
  region "r1" "textarea" [("text", JList [JStr "hello"])].

(** A fragment of another type that reuses the identifier and carries no
    geometry. *)
Definition choice : json :=
  JDict [("id", JStr "r1"); ("type", JStr "choices");
         ("value", JDict [("choices", JList [JStr "blurry"])])].

(** The same region drawn on a 1024-pixel-wide image. *)
Definition wide : json :=
  JDict [("id", JStr "r1"); ("type", JStr "rectanglelabels");
         ("original_width", JInt 1024); ("original_height", JInt 600);
         ("image_rotation", JInt 0);
         ("value", JDict [("x", JInt 10); ("y", JInt 10);
                          ("width", JInt 50); ("height", JInt 20);
                          ("rotation", JInt 0)])].

Definition box (ls tx : list json) : AnnotationBBox.t :=
  AnnotationBBox.mk (JInt 800) (JInt 600) (Rect.mk 80 60 400 120) (JList ls) (JList tx).

(** ** Stores *)

Definition quote : string := String (Ascii.ascii_of_nat 34) EmptyString.

Definition quoted (s : string) : string := String.append quote (String.append s quote).

(** The user constraint [{"width": [">=", 0]}], as text and parsed. *)
Definition wide_open_text : string :=
  String.concat "" ["{"; quoted "width"; ": ["; quoted ">="; ", 0]}"].

Definition wide_open : dict := [("width", JList [JStr ">="; JInt 0])].

(** The user constraint [{"LS_reviewed": ["==", true]}]. *)
Definition reviewed_text : string :=
  String.concat "" ["{"; quoted "LS_reviewed"; ": ["; quoted "=="; ", true]}"].

Definition reviewed : dict := [("LS_reviewed", JList [JStr "=="; JBool true])].

(** A [json.loads] that knows the texts above. *)
Definition loads (s : string) : result json :=
  if String.eqb s wide_open_text then OK (JDict wide_open)
  else if String.eqb s reviewed_text then OK (JDict reviewed)
  else if String.eqb s "{}" then OK (JDict [])
  else if String.eqb s "[]" then OK (JList [])
  else Raise (ValueError (Builtin "JSONDecodeError")).

(** A store that plays back a script of responses, whatever it is asked. *)
Definition scripted : Env :=
  mkEnv (list json)
        (fun script _ => match script with
                         | [] => (JNull, [])
                         | r :: rest => (r, rest)
                         end)
        loads (fun _ => "") (fun _ => "").

(** A store without state whose response is a function of the query. *)
Definition answering (f : json -> json) : Env :=
  mkEnv unit (fun _ q => (f q, tt)) loads (fun _ => "") (fun _ => "").

Definition command (name : string) (status : Z) (more : dict) : json :=
  JDict [(name, JDict (more ++ [("status", JInt status)]))].

(** An annotation without regions on the image ["img1"]. *)
Definition empty_annotation : ApertureDBExportStorage.Annotation :=
  ApertureDBExportStorage.mkAnnotation
    7 (JList []) (Some "img1") (JDict []) "2024-05-01T10:00:00" "2024-05-01T10:05:00"
    "demo" 3 None None (JDict [("id", JInt 7); ("result", JList [])]).

(** The store finds the image and no box, then matches the annotation
    entity it is asked to add. *)
Definition found_then_matched : list json :=
  [ JList [command "FindImage" 0 [("returned", JInt 1)];
           command "FindBoundingBox" 0 [("returned", JInt 0)]];
    JList [command "FindImage" 0 [("count", JInt 1)];
           command "AddEntity" 2 [];
           command "UpdateEntity" 0 [("count", JInt 1)]] ].

(** The store finds nothing to delete. *)
Definition nothing_to_delete : list json :=
  [ JList [command "FindEntity" 0 [("returned", JInt 0)];
           command "FindBoundingBox" 0 [("returned", JInt 0)];
           command "DeleteBoundingBox" 2 [("count", JInt 0)];
           command "DeleteEntity" 2 [("count", JInt 0)]] ].

(** One command of the batch comes back empty (status 1) and another
    matches nothing (status 2). *)
Definition mixed_commands : list json :=
  [ command "FindEntity" 1 [("returned", JInt 0)];
    command "FindBoundingBox" 0 [("returned", JInt 0)];
    command "DeleteBoundingBox" 0 [("count", JInt 0)];
    command "DeleteEntity" 2 [("count", JInt 0)] ].

Definition empty_and_matched : list json := [JList mixed_commands].

(** ** A store of images *)

Definition entity (key : json) : json :=
  JDict [("_uniqueid", key); ("width", JInt 800); ("height", JInt 600)].

(** The answer of a store that holds the images [all] to a page query. *)
Definition page_response (all : list json) (q : json) : json :=
  match (r0 <- py_index q 0 ;; fi <- py_getitem r0 "FindImage" ;;
         py_getitem fi "offset") with
  | OK (JInt o) =>
      let page := firstn Spec.page_size (skipn (Z.to_nat o) all) in
      JList [JDict [("FindImage", JDict [
        ("entities", JList (map entity page));
        ("returned", JInt (Z.of_nat (List.length page)));
        ("status", JInt 0)])]]
  | _ => JDict [("info", JStr "bad query"); ("status", JInt (-1))]
  end.

Definition image_store (all : list json) : Env := answering (page_response all).

(** 250 images. *)
Definition images : list json :=
  map (fun n => JStr (String.append "img" (str_of_Z (Z.of_nat n)))) (seq 0 250).

Definition config (constraints : option string) (limit : option Z)
    : ApertureDBImportStorageBase.Config :=
  ApertureDBImportStorageBase.mkConfig constraints false None limit 3.

Definition idle {Store : Type} (k : json)
    (self : ApertureDBImportStorageBase.Storage Store)
    : ApertureDBImportStorageBase.Storage Store := self.

Definition blank {Store : Type} (s : Store)
    : ApertureDBImportStorageBase.Storage Store :=
  ApertureDBImportStorageBase.mkStorage (mkConnector s []) None None.

(** The answer to a batched read of the images ["a"] and ["b"]: both are
    found, neither has annotations. *)
Definition both_found : json :=
  JList [command "FindImage" 0
           [("entities", JList [entity (JStr "a"); entity (JStr "b")]);
            ("returned", JInt 2)];
         command "FindEntity" 0 [("returned", JInt 0)]].

(** An instance that has just scanned the page [{"a", "b"}]. *)
Definition scanned_ab (script : list json)
    : ApertureDBImportStorageBase.Storage (list json) :=
  ApertureDBImportStorageBase.mkStorage
    (mkConnector script []) (Some [JStr "a"; JStr "b"]) (Some []).

Definition no_annotations : json * json := (JList [], JList []).

Definition fresh {Store : Type} (s : Store) : Connector Store := mkConnector s [].

(** An annotation whose two regions share an identifier and disagree on
    the width of the image. *)
Definition inconsistent_annotation : ApertureDBExportStorage.Annotation :=
  ApertureDBExportStorage.mkAnnotation
    8 (JList [cat; wide]) (Some "img1") (JDict []) "2024-05-01T10:00:00"
    "2024-05-01T10:05:00" "demo" 3 None None (JDict [("id", JInt 8)]).

(** A bounding box as the store returns it for a prediction. *)
Definition stored_box : json :=
  JDict [("LS_id", JNull); ("_uniqueid", JStr "5.1.220");
         ("_coordinates", JDict [("x", JInt 80); ("y", JInt 60);
                                 ("width", JInt 400); ("height", JInt 120)]);
         ("_label", JStr "cat")].

Definition settings : ApertureDBImportStorage.Settings :=
  ApertureDBImportStorage.mkSettings "$undefined$" "http://localhost:8080".

(** The region the reader emits for [stored_box] on an 800x600 image. *)
Definition emitted : json :=
  match @ApertureDBImportStorageBase.region_of scripted (JInt 800) (JInt 600) stored_box with
  | OK reg => reg
  | Raise _ => JNull
  end.

(** An image record of width 0. *)
Definition flat_image : json :=
  JDict [("_uniqueid", JStr "a"); ("width", JInt 0); ("height", JInt 600)].

(** The answer to a batched read in which the store reports a failure. *)
Definition failed : json := JDict [("info", JStr "failure"); ("status", JInt (-1))].

(** [str] on the values that occur as keys. *)
Definition render (v : json) : string :=
  match v with
  | JStr s => s
  | JInt z => str_of_Z z
  | _ => ""
  end.

(** The scripted store with that [str]. *)
Definition rendering : Env :=
  mkEnv (list json)
        (fun script _ => match script with
                         | [] => (JNull, [])
                         | r :: rest => (r, rest)
                         end)
        loads (fun _ => "") render.

(** An annotation on a task that was created from the image ["5.1.220"]
    and has no storage filename. *)
Definition linked_annotation : ApertureDBExportStorage.Annotation :=
  ApertureDBExportStorage.mkAnnotation
    9 (JList []) None
    (JDict [("image",
             JStr (@ApertureDBImportStorage.data_url rendering settings (Some "demo")
                     (JStr "5.1.220")))])
    "2024-05-01T10:00:00" "2024-05-01T10:05:00" "demo" 3 None None
    (JDict [("id", JInt 9)]).

(** ** A store of annotations *)

(** The document [{"result": [{"id": "r1"}]}], as text. *)
Definition saved_text : string :=
  String.concat "" ["{"; quoted "result"; ": [{"; quoted "id"; ": "; quoted "r1"; "}]}"].

Definition saved : json := JDict [("result", JList [JDict [("id", JStr "r1")]])].

Definition loads_saved (s : string) : result json :=
  if String.eqb s saved_text then OK saved else loads s.

(** The scripted store, reading the document above as well. *)
Definition archive : Env :=
  mkEnv (list json)
        (fun script _ => match script with
                         | [] => (JNull, [])
                         | r :: rest => (r, rest)
                         end)
        loads_saved (fun _ => "") (fun _ => "").



(** The batched query for the page [{"a", "b"}]. *)
Definition query_ab : json :=
  match @ApertureDBImportStorageBase.batch_query archive (config None (Some 1000))
          [JStr "a"; JStr "b"] with
  | OK q => q
  | Raise _ => JNull
  end.

(** The answer to a batched read of ["a"] and ["b"] of a store that no
    longer has the image ["a"]. *)
Definition only_b_found : json :=
  JList [command "FindImage" 0
           [("entities", JList [entity (JStr "b")]); ("returned", JInt 1)];
         command "FindEntity" 0 [("returned", JInt 0)]].

(** An annotation of the image ["img1"] with one labelled rectangle and
    its text. *)
Definition boxed_annotation : ApertureDBExportStorage.Annotation :=
  ApertureDBExportStorage.mkAnnotation
    7 (JList [cat; note]) (Some "img1") (JDict []) "2024-05-01T10:00:00"
    "2024-05-01T10:05:00" "demo" 3 None None (JDict [("id", JInt 7)]).

End Sample.

(* ================================================================== *)
(** * Properties *)

Import ApertureDBExportStorage.

(** ** Tactics for the error monad *)

Lemma bind_OK {A B : Type} (c : result A) (k : A -> result B) (b : B) :
  bind c k = OK b -> exists a, c = OK a /\ k a = OK b.
Proof. destruct c as [a|e]; simpl; intros H; [eauto | discriminate]. Qed.

(** Split a hypothesis [x <- c ;; k = OK b] into its two steps. *)
Ltac bind_inv H :=
  let a := fresh "a" in
  let Ha := fresh "Ha" in
  apply bind_OK in H; destruct H as (a & Ha & H).

Tactic Notation "bind_split" hyp(H) "as" ident(a) ident(Ha) :=
  apply bind_OK in H; destruct H as (a & Ha & H).

(** Two dicts that are the same value. *)
Ltac same_dict E d := inversion E; subst d; clear E.


(** ** Integers under [==], [>] and [max] *)

Lemma py_eq_int (a b : Z) : py_eq (JInt a) (JInt b) = (a =? b).
Proof.
  simpl. unfold num_eqb, num_compare. now rewrite Z.eqb_compare.
Qed.

Lemma py_ne_int (a b : Z) : py_ne (JInt a) (JInt b) = negb (a =? b).
Proof. unfold py_ne. now rewrite py_eq_int. Qed.

Lemma py_gt_int (a b : Z) : py_gt (JInt a) (JInt b) = OK (b <? a).
Proof.
  simpl. unfold num_gtb, num_compare. f_equal.
  rewrite Z.ltb_compare, (Z.compare_antisym b a).
  now destruct (b ?= a).
Qed.

Lemma max_from_int (zs : list Z) (m : Z) :
  max_from (JInt m) (map JInt zs) = OK (JInt (fold_left Z.max zs m)).
Proof.
  revert m; induction zs as [|z zs IH]; intros m; simpl map; [reflexivity|].
  unfold max_from; fold max_from. rewrite py_gt_int. simpl bind.
  destruct (Z.ltb_spec m z).
  - rewrite IH. simpl. now rewrite Z.max_r by lia.
  - rewrite IH. simpl. now rewrite Z.max_l by lia.
Qed.

Lemma fold_max_ge (zs : list Z) (m : Z) :
  m <= fold_left Z.max zs m /\ forall s, In s zs -> s <= fold_left Z.max zs m.
Proof.
  revert m; induction zs as [|z zs IH]; intros m; simpl.
  - split; [lia | tauto].
  - destruct (IH (Z.max m z)) as [H1 H2]. split; [lia|].
    intros s [<-|Hs]; [lia | auto].
Qed.

Lemma fold_max_in (zs : list Z) (m : Z) :
  In (fold_left Z.max zs m) (m :: zs).
Proof.
  revert m; induction zs as [|z zs IH]; intros m; simpl; [auto|].
  destruct (IH (Z.max m z)) as [H|H]; [|auto].
  rewrite <- H. destruct (Z.max_spec m z) as [[_ ->]|[_ ->]]; auto.
Qed.

(** ** [_response_status] *)

Lemma response_status_list (l : list json) :
  _response_status (JList l) = (sts <- mapM _response_status l ;; py_max sts).
Proof.
  simpl. f_equal.
  induction l as [|v l IH]; simpl; [reflexivity|].
  destruct (_response_status v); simpl; [|reflexivity].
  now rewrite IH.
Qed.

Lemma response_status_dict (d : dict) :
  _response_status (JDict d) =
  match dict_get "status" d with
  | Some s => OK s
  | None => match d with
            | [] => OK JNull
            | (_, val) :: _ => _response_status val
            end
  end.
Proof. destruct d as [|[k v] d]; reflexivity. Qed.

(** C10 (amended).  The status of a list is Python's [max] of the statuses
    of its elements, and the status of a dict is its ["status"] entry if it
    has one and otherwise the status of its first value only.  For a batch
    whose commands report integer statuses this is their largest status;
    so with non-negative statuses a check against [0] fails as soon as one
    command is non-zero, and a check against [(0, 2)] fails as soon as one
    command reports more than [2]. *)
Theorem response_status_is_max :
  (forall l, _response_status (JList l) =
             (sts <- mapM _response_status l ;; py_max sts)) /\
  (forall d, _response_status (JDict d) =
             match dict_get "status" d with
             | Some s => OK s
             | None => match d with
                       | [] => OK JNull
                       | (_, val) :: _ => _response_status val
                       end
             end) /\
  (forall l z zs,
      mapM _response_status l = OK (map JInt (z :: zs)) ->
      let m := fold_left Z.max zs z in
      _response_status (JList l) = OK (JInt m) /\
      In m (z :: zs) /\
      (forall s, In s (z :: zs) -> s <= m) /\
      ((forall s, In s (z :: zs) -> 0 <= s) ->
       (py_ne (JInt m) (JInt 0) = true <-> exists s, In s (z :: zs) /\ s <> 0)) /\
      ((exists s, In s (z :: zs) /\ 2 < s) -> not_in_0_2 (JInt m) = true)).
Proof.
  split; [exact response_status_list|].
  split; [exact response_status_dict|].
  intros l z zs H m.
  assert (Hge : forall s, In s (z :: zs) -> s <= m).
  { destruct (fold_max_ge zs z) as [H1 H2]. intros s [<-|Hs]; [exact H1 | exact (H2 s Hs)]. }
  split; [|split; [apply fold_max_in|split; [exact Hge|split]]].
  - rewrite response_status_list, H. simpl bind.
    change (py_max (map JInt (z :: zs))) with (max_from (JInt z) (map JInt zs)).
    apply max_from_int.
  - intros Hpos. rewrite py_ne_int. split.
    + intros Hm. exists m. split; [apply fold_max_in|].
      destruct (Z.eqb_spec m 0); [discriminate | assumption].
    + intros (s & Hs & Hne).
      specialize (Hge s Hs). specialize (Hpos s Hs).
      destruct (Z.eqb_spec m 0); [lia | reflexivity].
  - intros (s & Hs & Hlt). specialize (Hge s Hs).
    unfold not_in_0_2. rewrite !py_eq_int.
    destruct (Z.eqb_spec m 0); [lia|].
    destruct (Z.eqb_spec m 2); [lia | reflexivity].
Qed.

(** ** [AnnotationBBox] *)

Section BBox.
Import AnnotationBBox Spec.

Lemma init_geometry (ann : json) :
  __init__ ann =
  (g <- geometry ann ;;
   let '(ow, oh, r, val) := g in
   in_val <- py_contains "rectanglelabels" val ;;
   ls <- (if in_val then py_getitem val "rectanglelabels" else OK (JList [])) ;;
   at_most_one_label ls ;;;
   in_val <- py_contains "text" val ;;
   tx <- (if in_val then py_getitem val "text" else OK (JList [])) ;;
   OK (mk ow oh r ls tx)).
Proof.
  unfold __init__, geometry.
  repeat (match goal with
          | |- bind ?c _ = bind (bind ?c _) _ => destruct c; simpl; [|reflexivity]
          | |- (if ?b then _ else _) = bind (if ?b then _ else _) _ =>
              destruct b; simpl; [reflexivity|]
          end).
  reflexivity.
Qed.

Lemma get_OK (obj : json) (key description : string) (v : json) :
  _get obj key description = OK v ->
  exists d, obj = JDict d /\ dict_get key d = Some v.
Proof.
  destruct obj; simpl; try discriminate.
  destruct (dict_get key d) eqn:Hk; [|discriminate].
  intros H; inversion H; subst. eauto.
Qed.

(** What a successful [geometry] has read and computed. *)
Lemma geometry_OK (ann ow oh val : json) (r : Rect.t) :
  geometry ann = OK (ow, oh, r, val) ->
  exists d vd vx vy vw vh,
    ann = JDict d /\ val = JDict vd /\
    dict_get "original_width" d = Some ow /\
    dict_get "original_height" d = Some oh /\
    dict_get "value" d = Some val /\
    dict_get "x" vd = Some vx /\ dict_get "y" vd = Some vy /\
    dict_get "width" vd = Some vw /\ dict_get "height" vd = Some vh /\
    scale vx ow = OK (Rect.x r) /\ scale vy oh = OK (Rect.y r) /\
    scale vw ow = OK (Rect.width r) /\ scale vh oh = OK (Rect.height r).
Proof.
  unfold geometry. intros H.
  bind_split H as ow' Hw. bind_split H as oh' Hh. bind_split H as rot Hrot.
  destruct (py_ne rot (JInt 0)); [discriminate|].
  bind_split H as val' Hv.
  bind_split H as x Hx. bind_split H as y Hy. bind_split H as w Hwd. bind_split H as h Hht.
  bind_split H as vrot Hvrot.
  destruct (py_ne vrot (JInt 0)); [discriminate|].
  inversion H; subst; clear H.
  apply get_OK in Hw as (d & -> & Hw).
  apply get_OK in Hh as (d0 & E0 & Hh). same_dict E0 d0.
  apply get_OK in Hv as (d0 & E0 & Hv). same_dict E0 d0.
  bind_split Hx as vx Hvx. bind_split Hy as vy Hvy.
  bind_split Hwd as vw Hvw. bind_split Hht as vh Hvh.
  apply get_OK in Hvx as (vd & -> & Hvx).
  apply get_OK in Hvy as (d0 & E0 & Hvy). same_dict E0 d0.
  apply get_OK in Hvw as (d0 & E0 & Hvw). same_dict E0 d0.
  apply get_OK in Hvh as (d0 & E0 & Hvh). same_dict E0 d0.
  exists d, vd, vx, vy, vw, vh. simpl. repeat split; assumption.
Qed.

Lemma init_OK (ann : json) (b : t) :
  __init__ ann = OK b ->
  exists val, geometry ann = OK (original_width b, original_height b, rect b, val)
              /\ at_most_one_label (labels b) = OK tt.
Proof.
  rewrite init_geometry. intros H.
  bind_split H as g Hg. destruct g as [[[ow oh] r] val].
  bind_split H as in_val Hin. bind_split H as ls Hls. bind_split H as u Hu.
  bind_split H as in_val' Hin'. bind_split H as tx Htx.
  inversion H; subst; clear H. simpl.
  exists val. split; [assumption|]. now destruct u.
Qed.

(** Where the labels and the text of an instance come from. *)
Lemma init_labels (ann : json) (b : t) :
  __init__ ann = OK b ->
  exists d vd,
    ann = JDict d /\ dict_get "value" d = Some (JDict vd) /\
    labels b = match dict_get "rectanglelabels" vd with
               | Some ls => ls
               | None => JList []
               end /\
    text b = match dict_get "text" vd with
             | Some tx => tx
             | None => JList []
             end.
Proof.
  rewrite init_geometry. intros H.
  bind_split H as g Hg. destruct g as [[[ow oh] r] val].
  apply geometry_OK in Hg
    as (d & vd & vx & vy & vw & vh & -> & -> & _ & _ & Hv & _).
  exists d, vd. split; [reflexivity|]. split; [exact Hv|].
  unfold py_contains, py_getitem, dict_mem in H.
  destruct (dict_get "rectanglelabels" vd) as [ls|];
    destruct (dict_get "text" vd) as [tx|]; simpl in H;
    repeat (match type of H with
            | bind _ _ = OK _ => bind_inv H
            end);
    repeat (match goal with
            | Hx : OK _ = OK _ |- _ => inversion Hx; subst; clear Hx
            end);
    simpl; auto.
Qed.

Lemma at_most_one_label_OK (ls : json) :
  at_most_one_label ls = OK tt -> exists n, py_len ls = OK n /\ n <= 1.
Proof.
  unfold at_most_one_label. intros H. bind_inv H.
  exists a. split; [assumption|].
  destruct (Z.gtb_spec a 1); [|lia].
  destruct (py_join "," ls); discriminate.
Qed.

Lemma mapM_as_str (names : list string) : mapM as_str (map JStr names) = OK names.
Proof. induction names as [|n l IH]; simpl; [reflexivity|]. now rewrite IH. Qed.

Lemma at_most_one_label_many (names : list string) :
  (1 < List.length names)%nat ->
  at_most_one_label (JList (map JStr names)) =
  Raise (ValueError (TooManyLabels (String.concat "," names))).
Proof.
  intros H. unfold at_most_one_label. simpl py_len. simpl bind.
  rewrite length_map.
  destruct (Z.gtb_spec (Z.of_nat (List.length names)) 1); [|lia].
  unfold py_join. simpl py_iter. simpl bind. now rewrite mapM_as_str.
Qed.

Lemma at_most_one_label_few (l : list json) :
  (List.length l <= 1)%nat -> at_most_one_label (JList l) = OK tt.
Proof.
  intros H. unfold at_most_one_label. simpl.
  destruct (Z.gtb_spec (Z.of_nat (List.length l)) 1); [lia | reflexivity].
Qed.

Lemma must_match_instance (a b : t) (attr : string) (u v : json) :
  attr_of (Instance a) attr = OK u -> attr_of (Instance b) attr = OK v ->
  _attr_must_match (Instance a) (Instance b) attr =
  if py_eq u v then OK tt else Raise (ValueError (Mismatched attr)).
Proof.
  intros Hu Hv. unfold _attr_must_match, py_ne. rewrite Hu, Hv. simpl.
  now destruct (py_eq u v).
Qed.

Lemma must_match_rect (r s : Rect.t) (attr : string) (u v : Z) :
  attr_of (RectDict r) attr = OK (JInt u) -> attr_of (RectDict s) attr = OK (JInt v) ->
  _attr_must_match (RectDict r) (RectDict s) attr =
  if u =? v then OK tt else Raise (ValueError (Mismatched attr)).
Proof.
  intros Hu Hv. unfold _attr_must_match. rewrite Hu, Hv. simpl bind.
  rewrite py_ne_int. now destruct (u =? v).
Qed.

(** The six comparisons of [merge], as one case analysis. *)
Lemma merge_instance_cases (self o : t) :
  (exists attr, In attr compared /\
                merge_instance self o = Raise (ValueError (Mismatched attr)) /\
                differ self o) \/
  (agree self o /\
   merge_instance self o =
   (ls <- py_extend (labels self) (labels o) ;;
    at_most_one_label ls ;;;
    tx <- py_extend (text self) (text o) ;;
    OK (mk (original_width self) (original_height self) (rect self) ls tx))).
Proof.
  unfold merge_instance, differ, agree, compared, py_ne.
  rewrite (must_match_instance self o "original_width" _ _ eq_refl eq_refl).
  rewrite (must_match_instance self o "original_height" _ _ eq_refl eq_refl).
  rewrite (must_match_rect (rect self) (rect o) "x" _ _ eq_refl eq_refl).
  rewrite (must_match_rect (rect self) (rect o) "y" _ _ eq_refl eq_refl).
  rewrite (must_match_rect (rect self) (rect o) "width" _ _ eq_refl eq_refl).
  rewrite (must_match_rect (rect self) (rect o) "height" _ _ eq_refl eq_refl).
  destruct (py_eq (original_width self) (original_width o));
    [|left; exists "original_width"; simpl; auto 10].
  destruct (py_eq (original_height self) (original_height o));
    [|left; exists "original_height"; simpl; auto 10].
  destruct (Z.eqb_spec (Rect.x (rect self)) (Rect.x (rect o))) as [Ex|Ex];
    [|left; exists "x"; simpl; auto 10].
  destruct (Z.eqb_spec (Rect.y (rect self)) (Rect.y (rect o))) as [Ey|Ey];
    [|left; exists "y"; simpl; auto 10].
  destruct (Z.eqb_spec (Rect.width (rect self)) (Rect.width (rect o))) as [Ewd|Ewd];
    [|left; exists "width"; simpl; auto 12].
  destruct (Z.eqb_spec (Rect.height (rect self)) (Rect.height (rect o))) as [Eht|Eht];
    [|left; exists "height"; simpl; auto 12].
  right. split; [|reflexivity].
  repeat split.
  destruct (rect self), (rect o); simpl in *; congruence.
Qed.

Lemma differ_not_agree (a b : t) : differ a b -> agree a b -> False.
Proof.
  unfold differ, agree, py_ne. intros D (Hw & Hh & Hr).
  rewrite Hw, Hh, Hr in D. simpl in D.
  destruct D as [D|[D|[D|[D|[D|D]]]]]; congruence.
Qed.

(** C2.  Two fragments that both construct and whose instances differ in
    [original_width], [original_height] or a field of the pixel rectangle
    do not merge: [merge] raises the mismatch [ValueError] for one of the
    six attributes.  Whenever [merge] returns, the other fragment agrees
    with the instance on all six. *)
Theorem merge_rejects_any_mismatch :
  (forall f1 f2 a b,
      __init__ f1 = OK a -> __init__ f2 = OK b -> differ a b ->
      exists attr, In attr compared /\
                   merge a f2 = Raise (ValueError (Mismatched attr))) /\
  (forall self other r,
      merge self other = OK r ->
      exists o, __init__ other = OK o /\ agree self o).
Proof.
  split.
  - intros f1 f2 a b _ Hb D. unfold merge. rewrite Hb. simpl bind.
    destruct (merge_instance_cases a b) as [(attr & Hin & Hm & _)|[Ha _]].
    + eauto.
    + destruct (differ_not_agree _ _ D Ha).
  - intros self other r H. unfold merge in H. bind_inv H.
    exists a. split; [assumption|].
    destruct (merge_instance_cases self a) as [(attr & _ & Hm & _)|[Hag _]].
    + congruence.
    + assumption.
Qed.




(** The same computation on float percentages, as the labelling front end
    sends them. *)
Example scale_floats :
  scale (JFloat 10.5) (JInt 801) = OK 84 /\
  scale (JFloat 0x1.0aaaaaaaaaaabp+5) (JInt 3) = OK 1 /\
  scale (JFloat 12.375) (JFloat 640) = OK 79.
Proof. vm_compute. repeat split. Qed.

(** On integer percentages the result is the truncated quotient
    [v * dim / 100], here for every percentage from 0 to 100 and a range
    of image dimensions. *)
Example scale_integers :
  forallb (fun dim =>
             forallb (fun v => match scale (JInt v) (JInt dim) with
                               | OK z => z =? Z.quot (v * dim) 100
                               | Raise _ => false
                               end)
                     (map Z.of_nat (seq 0 101)))
          [1; 7; 99; 101; 480; 600; 768; 800; 1024; 1080; 1920; 4096; 65535] = true.
Proof. vm_compute. reflexivity. Qed.

(** ** Merging *)

Lemma merge_agree (self : t) (other : json) (o : t) :
  __init__ other = OK o -> agree self o ->
  merge self other =
  (ls <- py_extend (labels self) (labels o) ;;
   at_most_one_label ls ;;;
   tx <- py_extend (text self) (text o) ;;
   OK (mk (original_width self) (original_height self) (rect self) ls tx)).
Proof.
  intros Ho Ha. unfold merge. rewrite Ho. simpl bind.
  destruct (merge_instance_cases self o) as [(attr & _ & _ & D)|[_ Hm]].
  - destruct (differ_not_agree _ _ D Ha).
  - exact Hm.
Qed.

(** C7 (amended).  Two fragments that construct, agree on the dimensions
    and on the pixel rectangle, and carry label lists with at most one
    label between them merge: the result keeps the geometry and holds the
    concatenation of the label lists and of the text lists, first fragment
    first. *)
Theorem merge_concatenates_text :
  forall f1 f2 a b l1 l2 t1 t2,
    __init__ f1 = OK a -> __init__ f2 = OK b -> agree a b ->
    labels a = JList l1 -> labels b = JList l2 ->
    (List.length (l1 ++ l2) <= 1)%nat ->
    text a = JList t1 -> text b = JList t2 ->
    merge a f2 =
    OK (mk (original_width a) (original_height a) (rect a)
           (JList (l1 ++ l2)) (JList (t1 ++ t2))).
Proof.
  intros f1 f2 a b l1 l2 t1 t2 _ Hb Hag Hl1 Hl2 Hlen Ht1 Ht2.
  rewrite (merge_agree a f2 b Hb Hag), Hl1, Hl2, Ht1, Ht2.
  simpl py_extend. simpl bind.
  now rewrite (at_most_one_label_few _ Hlen).
Qed.

Lemma merge_concatenates_text_witness :
  merge (Sample.box [JStr "cat"] []) Sample.note =
  OK (Sample.box [JStr "cat"] [JStr "hello"]).
Proof.
  apply (merge_concatenates_text Sample.cat Sample.note
           (Sample.box [JStr "cat"] []) (Sample.box [] [JStr "hello"])
           [JStr "cat"] [] [] [JStr "hello"]).
  - vm_compute; reflexivity.
  - vm_compute; reflexivity.
  - repeat split.
  - reflexivity.
  - reflexivity.
  - simpl; lia.
  - reflexivity.
  - reflexivity.
Defined.

(** C7 as stated fails: two fragments with the same geometry, one label
    each and different texts do not merge. *)
Lemma agreeing_fragments_need_not_merge : ~ agreeing_fragments_merge.
Proof.
  intros H.
  destruct (H Sample.cat_a Sample.cat_b
              (Sample.box [JStr "cat"] [JStr "a"]) (Sample.box [JStr "cat"] [JStr "b"])
              [JStr "a"] [JStr "b"]) as (r & Hr & _).
  - vm_compute; reflexivity.
  - vm_compute; reflexivity.
  - repeat split.
  - reflexivity.
  - reflexivity.
  - discriminate.
  - vm_compute in Hr. discriminate.
Qed.

Example two_labels_message :
  merge (Sample.box [JStr "cat"] [JStr "a"]) Sample.cat_b =
  Raise (ValueError (TooManyLabels "cat,cat")).
Proof. vm_compute. reflexivity. Qed.

Lemma merge_one_label (self : t) (other : json) (r : t) :
  merge self other = OK r -> one_label_at_most r.
Proof.
  intros H. unfold merge in H. bind_split H as o Ho.
  destruct (merge_instance_cases self o) as [(attr & _ & Hm & _)|[_ Hm]];
    rewrite Hm in H; [discriminate|].
  bind_split H as ls Hls. bind_split H as u Hu. bind_split H as tx Htx.
  inversion H; subst; clear H.
  destruct u. exact (at_most_one_label_OK ls Hu).
Qed.

Lemma init_one_label (ann : json) (b : t) :
  __init__ ann = OK b -> one_label_at_most b.
Proof.
  intros H. apply init_OK in H as (val & _ & Hl).
  exact (at_most_one_label_OK _ Hl).
Qed.

Lemma set_Forall {V : Type} (P : json * V -> Prop) (k : json) (v : V)
    (m : list (json * V)) :
  Forall P m -> (forall k', P (k', v)) -> Forall P (PyDict.set k v m).
Proof.
  intros Hm Hv. induction Hm as [|[k' v'] m Hkv Hm IH]; simpl.
  - constructor; [apply Hv | constructor].
  - destruct (py_eq k' k); constructor; auto.
Qed.

Lemma step_one_label (m m' : bbox_map_t) (ann : json) :
  Forall (fun kv => one_label_at_most (snd kv)) m ->
  bbox_map_step m ann = OK m' ->
  Forall (fun kv => one_label_at_most (snd kv)) m'.
Proof.
  intros Hm H. unfold bbox_map_step in H.
  bind_split H as has_type Ht.
  destruct has_type; simpl in H; [|inversion H; subst; assumption].
  bind_split H as i Hi. bind_split H as known Hk.
  destruct known.
  - bind_split H as self Hself. bind_split H as self' Hmerge.
    inversion H; subst; clear H.
    apply set_Forall; [assumption|].
    intros k'. simpl. exact (merge_one_label _ _ _ Hmerge).
  - bind_split H as ty Hty. bind_split H as is_rect Hr.
    destruct is_rect; [|inversion H; subst; assumption].
    bind_split H as b Hb. unfold PyDict.assign in H.
    destruct (hashable i); [|discriminate].
    inversion H; subst; clear H.
    apply set_Forall; [assumption|].
    intros k'. simpl. exact (init_one_label _ _ Hb).
Qed.

Lemma foldM_invariant {A B : Type} (P : A -> Prop) (f : A -> B -> result A) :
  (forall a b a', P a -> f a b = OK a' -> P a') ->
  forall l a a', P a -> foldM f l a = OK a' -> P a'.
Proof.
  intros Hf l. induction l as [|b l IH]; simpl; intros a a' Ha H.
  - inversion H; subst; assumption.
  - bind_split H as a1 H1. eauto.
Qed.

(** C8.  An instance has at most one label whenever [__init__] or [merge]
    returns one, and so has every box in the map [save_annotation] builds.
    A fragment whose ["rectanglelabels"] list has more than one entry
    never constructs; when its geometry is valid and the entries are
    label names, what it raises is the [ValueError] "at most one label",
    and so does a merge of agreeing fragments whose label names add up to
    more than one. *)
Theorem at_most_one_label_everywhere :
  (forall ann b, __init__ ann = OK b -> one_label_at_most b) /\
  (forall d vd ls,
      dict_get "value" d = Some (JDict vd) ->
      dict_get "rectanglelabels" vd = Some (JList ls) ->
      (1 < List.length ls)%nat ->
      is_ok (__init__ (JDict d)) = false) /\
  (forall self other r, merge self other = OK r -> one_label_at_most r) /\
  (forall regions m,
      build_bbox_map regions = OK m ->
      Forall (fun kv => one_label_at_most (snd kv)) m) /\
  (forall ann ow oh r d names,
      geometry ann = OK (ow, oh, r, JDict d) ->
      dict_get "rectanglelabels" d = Some (JList (map JStr names)) ->
      (1 < List.length names)%nat ->
      __init__ ann = Raise (ValueError (TooManyLabels (String.concat "," names)))) /\
  (forall self other o n1 n2,
      __init__ other = OK o -> agree self o ->
      labels self = JList (map JStr n1) -> labels o = JList (map JStr n2) ->
      (1 < List.length (n1 ++ n2))%nat ->
      merge self other =
      Raise (ValueError (TooManyLabels (String.concat "," (n1 ++ n2))))).
Proof.
  split; [exact init_one_label|].
  split.
  { intros d vd ls Hv Hl Hn.
    destruct (__init__ (JDict d)) as [b|e] eqn:Hb; [|reflexivity].
    destruct (init_one_label _ _ Hb) as (n & Hlen & Hle).
    apply init_labels in Hb as (d' & vd' & Hd & Hv' & Hlab & _).
    inversion Hd; subst d'. rewrite Hv in Hv'. inversion Hv'; subst vd'.
    rewrite Hl in Hlab. rewrite Hlab in Hlen. simpl in Hlen.
    inversion Hlen; subst. lia. }
  split; [exact merge_one_label|].
  split; [|split].
  - intros regions m H.
    apply (foldM_invariant (fun m => Forall (fun kv => one_label_at_most (snd kv)) m)
             bbox_map_step) with (l := regions) (a := []).
    + intros a b a' Ha Hs. exact (step_one_label a a' b Ha Hs).
    + constructor.
    + exact H.
  - intros ann ow oh r d names Hg Hl Hn.
    rewrite init_geometry, Hg. simpl bind.
    unfold dict_mem. rewrite Hl. simpl bind.
    now rewrite (at_most_one_label_many names Hn).
  - intros self other o n1 n2 Ho Hag H1 H2 Hn.
    rewrite (merge_agree self other o Ho Hag), H1, H2.
    simpl py_extend. simpl bind.
    rewrite <- map_app.
    rewrite (at_most_one_label_many (n1 ++ n2)); [reflexivity|exact Hn].
Qed.

Lemma at_most_one_label_witness :
  __init__ Sample.cat_dog = Raise (ValueError (TooManyLabels "cat,dog")).
Proof.
  apply (proj1 (proj2 (proj2 (proj2 (proj2 at_most_one_label_everywhere))))
           Sample.cat_dog (JInt 800) (JInt 600) (Rect.mk 80 60 400 120)
           [("x", JInt 10); ("y", JInt 10); ("width", JInt 50); ("height", JInt 20);
            ("rotation", JInt 0); ("rectanglelabels", JList [JStr "cat"; JStr "dog"])]
           ["cat"; "dog"]).
  - vm_compute; reflexivity.
  - reflexivity.
  - simpl; lia.
Defined.

End BBox.

(** ** The map of boxes that [save_annotation] builds *)

Section BBoxMap.
Import AnnotationBBox Spec.


Lemma step_known (m : bbox_map_t) (d : dict) (i : json) (self : t) :
  dict_mem "type" d = true -> dict_get "id" d = Some i -> hashable i = true ->
  PyDict.get i m = Some self ->
  bbox_map_step m (JDict d) =
  (self' <- merge self (JDict d) ;; OK (PyDict.set i self' m)).
Proof.
  intros Ht Hi Hh Hm. unfold bbox_map_step. simpl py_contains. rewrite Ht. simpl.
  rewrite Hi. simpl. unfold PyDict.contains, PyDict.item, PyDict.mem.
  now rewrite Hh, Hm.
Qed.

Lemma step_new (m : bbox_map_t) (d : dict) (i : json) (ty : string) :
  dict_get "type" d = Some (JStr ty) -> String.prefix "rectangle" ty = true ->
  dict_get "id" d = Some i -> hashable i = true -> PyDict.get i m = None ->
  bbox_map_step m (JDict d) =
  (b <- __init__ (JDict d) ;; OK (PyDict.set i b m)).
Proof.
  intros Ht Hp Hi Hh Hm. unfold bbox_map_step. simpl py_contains.
  unfold dict_mem. rewrite Ht. simpl. rewrite Hi. simpl.
  unfold PyDict.contains, PyDict.assign, PyDict.mem. rewrite Hh, Hm. simpl.
  rewrite Ht. simpl. now rewrite Hp.
Qed.




Example text_fragment_contributes :
  build_bbox_map [Sample.cat; Sample.note] =
  OK [(JStr "r1", Sample.box [JStr "cat"] [JStr "hello"])].
Proof. vm_compute. reflexivity. Qed.

Example other_fragment_raises :
  build_bbox_map [Sample.cat; Sample.choice] =
  Raise (ValueError (MustInclude "rectangle annotation" "original_width")).
Proof. vm_compute. reflexivity. Qed.

Example mismatch_aborts_save :
  build_bbox_map [Sample.cat; Sample.wide] =
  Raise (ValueError (Mismatched "original_width")).
Proof. vm_compute. reflexivity. Qed.

End BBoxMap.

(** ** The status checks of [save_annotation] and [delete_annotation] *)

Section Persist.
Import Spec.
Context `{E : Env}.

Lemma accepted_int (z : Z) : accepted (JInt z) = true <-> z = 0 \/ z = 2.
Proof.
  unfold accepted. rewrite !py_eq_int, orb_true_iff, !Z.eqb_eq. tauto.
Qed.

Lemma not_in_0_2_accepted (status : json) : not_in_0_2 status = negb (accepted status).
Proof. reflexivity. Qed.

(** C9.  Once [save_annotation] has sent its second query, and once
    [delete_annotation] has sent its query, the call returns normally if
    the status of the response is equal to 0 or to 2 and raises its
    [ValueError] otherwise; an integer status is accepted exactly when it
    is 0 or 2. *)
Theorem status_0_or_2_is_success :
  forall (annotation : Annotation) (c : Connector Store),
    (forall q c1 res s' status,
        save_query annotation c = (OK q, c1) ->
        db_query (store c1) q = (res, s') ->
        _response_status res = OK status ->
        save_annotation annotation c =
        ((if accepted status then OK tt else Raise (ValueError SaveFailed)),
         mkConnector s' (sent c1 ++ [q]))) /\
    (forall res s' status,
        db_query (store c) (delete_query (str_of_Z (id annotation))) = (res, s') ->
        _response_status res = OK status ->
        delete_annotation annotation c =
        ((if accepted status then OK tt else Raise (ValueError DeleteFailed)),
         mkConnector s' (sent c ++ [delete_query (str_of_Z (id annotation))]))) /\
    (forall z, accepted (JInt z) = true <-> z = 0 \/ z = 2).
Proof.
  intros annotation c. split; [|split; [|exact accepted_int]].
  - intros q c1 res s' status Hq Hr Hs.
    unfold save_annotation, mbind. rewrite Hq.
    unfold query. rewrite Hr. unfold lift. rewrite Hs.
    rewrite not_in_0_2_accepted. now destruct (accepted status).
  - intros res s' status Hr Hs.
    unfold delete_annotation, mbind, query. rewrite Hr.
    unfold lift. rewrite Hs.
    rewrite not_in_0_2_accepted. now destruct (accepted status).
Qed.

End Persist.

Lemma status_0_or_2_witness :
  @save_annotation Sample.scripted Sample.empty_annotation
    (Sample.fresh Sample.found_then_matched) =
  (OK tt,
   mkConnector []
     [scan_query "img1";
      JList (@annotation_commands Sample.scripted Sample.empty_annotation "img1" "7")])
  /\
  @delete_annotation Sample.scripted Sample.empty_annotation
    (Sample.fresh Sample.nothing_to_delete) =
  (OK tt, mkConnector [] [delete_query "7"]).
Proof.
  split.
  - apply (proj1 (@status_0_or_2_is_success Sample.scripted Sample.empty_annotation
                    (Sample.fresh Sample.found_then_matched))
             (JList (@annotation_commands Sample.scripted Sample.empty_annotation "img1" "7"))
             (mkConnector [nth 1 Sample.found_then_matched JNull] [scan_query "img1"])
             (nth 1 Sample.found_then_matched JNull) [] (JInt 2));
      reflexivity.
  - apply (proj1 (proj2 (@status_0_or_2_is_success Sample.scripted Sample.empty_annotation
                    (Sample.fresh Sample.nothing_to_delete)))
             (nth 0 Sample.nothing_to_delete JNull) [] (JInt 2));
      reflexivity.
Defined.

(** C10 as stated fails: a command of the batch reports status 1, which
    [delete_annotation] does not accept, and the call returns normally
    because another command reports 2. *)
Lemma bad_command_masked_by_larger_status : ~ Spec.any_bad_command_fails.
Proof.
  intros H.
  specialize (H Sample.scripted Sample.empty_annotation
                (Sample.fresh Sample.empty_and_matched)
                _ (Sample.command "FindEntity" 1 [("returned", JInt 0)]) 1
                eq_refl (or_introl eq_refl) eq_refl).
  vm_compute in H.
  assert (true = false) by (apply H; discriminate).
  discriminate.
Qed.

Lemma response_status_is_max_witness :
  _response_status (JList Sample.mixed_commands) = OK (JInt 2).
Proof.
  apply (proj1 (proj2 (proj2 response_status_is_max)
                  Sample.mixed_commands 1 [0; 0; 2] eq_refl)).
Defined.

Lemma merge_rejects_any_mismatch_witness :
  exists attr, In attr Spec.compared /\
               AnnotationBBox.merge (Sample.box [JStr "cat"] []) Sample.wide =
               Raise (ValueError (Mismatched attr)).
Proof.
  apply (proj1 merge_rejects_any_mismatch Sample.cat Sample.wide
           (Sample.box [JStr "cat"] [])
           (AnnotationBBox.mk (JInt 1024) (JInt 600) (Rect.mk 102 60 512 120)
              (JList []) (JList []))).
  - vm_compute; reflexivity.
  - vm_compute; reflexivity.
  - left. reflexivity.
Defined.

(** ** Dicts *)

Lemma dict_get_set (k k' : string) (v : json) (d : dict) :
  dict_get k (dict_set k' v d) = if String.eqb k k' then Some v else dict_get k d.
Proof.
  induction d as [|[k0 v0] d IH]; simpl; [reflexivity|].
  destruct (String.eqb_spec k' k0) as [->|Hne]; simpl.
  - now destruct (String.eqb k k0).
  - rewrite IH. destruct (String.eqb_spec k k0) as [->|Hk]; [|reflexivity].
    destruct (String.eqb_spec k0 k'); [congruence | reflexivity].
Qed.

Lemma dict_get_not_in (k : string) (d : dict) :
  ~ In k (map fst d) -> dict_get k d = None.
Proof.
  induction d as [|[k0 v0] d IH]; simpl; [reflexivity|].
  intros H. destruct (String.eqb_spec k k0) as [->|Hk]; [tauto | apply IH; tauto].
Qed.

(** [d.update(e)] and [d | e]: the entries of [e] win. *)
Lemma dict_get_update (k : string) (d e : dict) :
  NoDup (map fst e) ->
  dict_get k (dict_update d e) =
  match dict_get k e with Some v => Some v | None => dict_get k d end.
Proof.
  unfold dict_update. revert d.
  induction e as [|[k1 v1] e IH]; simpl; intros d Hnd; [reflexivity|].
  inversion Hnd as [|? ? Hnotin Hnd']; subst.
  rewrite (IH _ Hnd'), dict_get_set.
  destruct (String.eqb_spec k k1) as [->|Hk]; [|reflexivity].
  now rewrite (dict_get_not_in k1 e Hnotin).
Qed.

(** ** The key scan *)

Section Scan.
Import ApertureDBImportStorageBase Spec.
Context `{E : Env}.
Variable consumer : json -> Storage Store -> Storage Store.

Lemma find_images_user (cfg : Config) (s : string) (u : dict) :
  nonempty (constraints cfg) = Some s -> json_loads s = OK (JDict u) ->
  find_images cfg =
  OK [("uniqueids", JBool true); ("blobs", JBool false); ("limit", JInt batch);
      ("constraints", JDict (dict_update internal_constraints u))].
Proof. intros Hs Hu. unfold find_images. now rewrite Hs, Hu. Qed.

Lemma page_query_constraints (fi : dict) (offset : Z) :
  query_constraints (page_query fi offset) =
  match dict_get "constraints" fi with Some cs => OK cs | None => Raise KeyError end.
Proof.
  unfold query_constraints, page_query. simpl. now rewrite dict_get_set.
Qed.

(** C4 (what the code does).  With a user expression that parses to a
    mapping [u], the constraints of every page query are the internal
    ones updated with [u]: a key of [u] is sent with the user's
    condition, also when the key is ["width"] or ["height"], and the
    internal condition on that key is not sent. *)
Theorem user_constraint_replaces_internal :
  forall (cfg : Config) (s : string) (u : dict),
    nonempty (constraints cfg) = Some s -> json_loads s = OK (JDict u) ->
    NoDup (map fst u) ->
    exists fi cs,
      find_images cfg = OK fi /\
      (forall offset, query_constraints (page_query fi offset) = OK (JDict cs)) /\
      (forall k, dict_get k cs =
                 match dict_get k u with
                 | Some v => Some v
                 | None => dict_get k internal_constraints
                 end).
Proof.
  intros cfg s u Hs Hu Hnd.
  exists [("uniqueids", JBool true); ("blobs", JBool false); ("limit", JInt batch);
          ("constraints", JDict (dict_update internal_constraints u))],
         (dict_update internal_constraints u).
  split; [exact (find_images_user cfg s u Hs Hu)|].
  split.
  - intros offset. now rewrite page_query_constraints.
  - intros k. exact (dict_get_update k internal_constraints u Hnd).
Qed.

End Scan.

Example width_requirement_lost :
  @ApertureDBImportStorageBase.find_images Sample.scripted
    (Sample.config (Some Sample.wide_open_text) None) =
  OK [("uniqueids", JBool true); ("blobs", JBool false); ("limit", JInt 100);
      ("constraints", JDict [("width", JList [JStr ">="; JInt 0]);
                             ("height", JList [JStr ">"; JInt 0])])].
Proof. vm_compute. reflexivity. Qed.

Lemma user_constraint_replaces_internal_witness :
  exists fi cs,
    @ApertureDBImportStorageBase.find_images Sample.scripted
      (Sample.config (Some Sample.wide_open_text) None) = OK fi /\
    (forall offset,
        Spec.query_constraints (ApertureDBImportStorageBase.page_query fi offset) =
        OK (JDict cs)) /\
    (forall k, dict_get k cs =
               match dict_get k Sample.wide_open with
               | Some v => Some v
               | None => dict_get k ApertureDBImportStorageBase.internal_constraints
               end).
Proof.
  apply (@user_constraint_replaces_internal Sample.scripted
           (Sample.config (Some Sample.wide_open_text) None)
           Sample.wide_open_text Sample.wide_open).
  - reflexivity.
  - vm_compute; reflexivity.
  - repeat constructor. simpl. tauto.
Defined.

(** ** Lists *)

Lemma firstn_plus {A : Type} (a b : nat) (l : list A) :
  firstn (a + b) l = firstn a l ++ firstn b (skipn a l).
Proof.
  revert l; induction a as [|a IH]; intros l; simpl; [reflexivity|].
  destruct l as [|x l]; simpl.
  - now destruct b.
  - now rewrite IH.
Qed.

Lemma Forall_firstn_skipn {A : Type} (P : A -> Prop) (n : nat) (l : list A) :
  Forall P l -> Forall P (firstn n l) /\ Forall P (skipn n l).
Proof.
  intros H. rewrite <- (firstn_skipn n l) in H. now apply Forall_app in H.
Qed.

Lemma distinct_keys_firstn (n : nat) (l : list json) :
  Spec.distinct_keys l -> Spec.distinct_keys (firstn n l).
Proof.
  unfold Spec.distinct_keys. intros H. revert n.
  induction H as [|a l Ha Hl IH]; intros n.
  - rewrite firstn_nil. constructor.
  - destruct n as [|n]; simpl; constructor.
    + exact (proj1 (Forall_firstn_skipn _ n l Ha)).
    + apply IH.
Qed.

Lemma distinctb_distinct (l : list json) :
  Spec.distinctb l = true -> Spec.distinct_keys l.
Proof.
  unfold Spec.distinct_keys.
  induction l as [|a l IH]; simpl; intros H; constructor.
  - apply andb_true_iff in H as [H _].
    apply Forall_forall. intros b Hb.
    rewrite forallb_forall in H. specialize (H b Hb).
    now destruct (py_eq a b).
  - apply IH. now apply andb_true_iff in H as [_ H].
Qed.

Lemma set_of_OK (ids : list json) :
  Forall (fun k => hashable k = true) ids -> exists s, PyDict.set_of ids = OK s.
Proof.
  unfold PyDict.set_of. generalize (@nil json).
  induction ids as [|k ids IH]; intros acc H; simpl; [eauto|].
  inversion H as [|? ? Hk Hids]; subst. rewrite Hk. simpl. auto.
Qed.

Section ScanLoop.
Import ApertureDBImportStorageBase Spec.
Context `{E : Env}.
Variable consumer : json -> Storage Store -> Storage Store.

Lemma on_conn_query (q : json) (self : Storage Store) :
  on_conn (query q) self =
  (OK (fst (db_query (store (conn self)) q)),
   mkStorage (mkConnector (snd (db_query (store (conn self)) q))
                          (sent (conn self) ++ [q]))
             (_last_iterkeys self) (_bbox_annotation_cache self)).
Proof.
  unfold on_conn, query. now destruct (db_query (store (conn self)) q).
Qed.

(** One iteration of the loop, when the loop test holds. *)
Lemma loop_step (fuel : nat) (cfg : Config) (fi : dict) (offset : Z)
    (self : Storage Store) :
  keep_going cfg offset = true ->
  iterkeys_loop consumer (S fuel) cfg fi offset self =
  let q := page_query fi offset in
  let self1 := snd (on_conn (query q) self) in
  match read_page (fst (db_query (store (conn self)) q)) with
  | Raise e => ([], Raised e, self1)
  | OK None => ([], Returned, self1)
  | OK (Some ids) =>
      match PyDict.set_of ids with
      | Raise e => ([], Raised e, self1)
      | OK s =>
          let self3 := yield_from consumer ids (mkStorage (conn self1) (Some s) (Some [])) in
          let '(rest, out, self4) :=
            iterkeys_loop consumer fuel cfg fi (offset + batch) self3 in
          (ids ++ rest, out, self4)
      end
  end.
Proof.
  intros Hk. simpl. rewrite Hk. simpl negb. cbv iota.
  rewrite on_conn_query. reflexivity.
Qed.

Lemma loop_done (fuel : nat) (cfg : Config) (fi : dict) (offset : Z)
    (self : Storage Store) :
  keep_going cfg offset = false ->
  iterkeys_loop consumer fuel cfg fi offset self = ([], Returned, self).
Proof. intros Hk. destruct fuel; simpl; now rewrite Hk. Qed.

Section Paged.
Variables (cfg : Config) (fi : dict) (all : list json) (l : Z).
Hypothesis Hlimit : limit cfg = Some l.
Hypothesis Hpos : 0 < l.
Hypothesis Hpaged : paged_by all fi.
Hypothesis Hhash : Forall (fun k => hashable k = true) all.

(** The number of pages a scan reads at most. *)
Let pages : Z := (l + 99) / 100.

Lemma pages_bounds : l <= 100 * pages < l + 100.
Proof.
  unfold pages.
  pose proof (Z.div_mod (l + 99) 100 ltac:(lia)).
  pose proof (Z.mod_pos_bound (l + 99) 100 ltac:(lia)). lia.
Qed.

Lemma loop_paged (k : nat) :
  forall (i : Z) (fuel : nat) (self : Storage Store),
    0 <= i -> Z.of_nat k = pages - i -> (k <= fuel)%nat ->
    exists self',
      iterkeys_loop consumer fuel cfg fi (100 * i) self =
      (firstn (k * page_size) (skipn (Z.to_nat (100 * i)) all), Returned, self').
Proof.
  pose proof pages_bounds as Hb.
  induction k as [|k IH]; intros i fuel self Hi Hk Hfuel.
  - exists self. simpl firstn. apply loop_done.
    unfold keep_going. rewrite Hlimit.
    destruct (Z.eqb_spec l 0); [lia|]. destruct (Z.ltb_spec (100 * i) l); [lia|reflexivity].
  - destruct fuel as [|fuel]; [lia|].
    assert (Hgo : keep_going cfg (100 * i) = true).
    { unfold keep_going. rewrite Hlimit.
      destruct (Z.ltb_spec (100 * i) l); [apply orb_true_r | lia]. }
    rewrite (loop_step fuel cfg fi (100 * i) self Hgo). cbv zeta.
    rewrite (Hpaged _ (100 * i) ltac:(lia)).
    destruct (skipn (Z.to_nat (100 * i)) all) as [|a rest] eqn:Hskip.
    + eexists. rewrite firstn_nil. reflexivity.
    + assert (Hpage : Forall (fun k => hashable k = true) (firstn page_size (a :: rest))).
      { rewrite <- Hskip.
        apply Forall_firstn_skipn. now apply Forall_firstn_skipn. }
      destruct (set_of_OK _ Hpage) as (s & Hs). rewrite Hs.
      match goal with
      | |- context [iterkeys_loop consumer fuel cfg fi (100 * i + batch) ?s3] =>
          destruct (IH (i + 1) fuel s3 ltac:(lia) ltac:(lia) ltac:(lia)) as (self' & Hrec)
      end.
      replace (100 * i + batch) with (100 * (i + 1)) by (unfold batch; lia).
      rewrite Hrec. exists self'.
      replace (Z.to_nat (100 * (i + 1))) with (page_size + Z.to_nat (100 * i))%nat
        by (unfold page_size; lia).
      rewrite <- skipn_skipn, Hskip.
      change (S k * page_size)%nat with (page_size + k * page_size)%nat.
      now rewrite firstn_plus.
Qed.

End Paged.

(** C3 (what the code does).  With a limit [l > 0] and a store that pages
    through a fixed listing of distinct keys, the scan returns after at
    most [(l + 99) / 100] pages and has yielded the keys of the listing
    in order up to the first multiple of the page size that reaches [l]:
    no key twice, but up to [100 * ((l + 99) / 100)] keys, which exceeds
    [l] when [l] is not a multiple of the page size. *)
Theorem scan_yields_whole_pages :
  forall (cfg : Config) (fi : dict) (all : list json) (l : Z) (fuel : nat)
         (self : Storage Store),
    limit cfg = Some l -> 0 < l -> find_images cfg = OK fi ->
    paged_by all fi -> Forall (fun k => hashable k = true) all ->
    distinct_keys all -> (Z.to_nat ((l + 99) / 100) <= fuel)%nat ->
    let ys := firstn (Z.to_nat (100 * ((l + 99) / 100))) all in
    (exists self', iterkeys consumer fuel cfg self = (ys, Returned, self')) /\
    distinct_keys ys /\
    Z.of_nat (List.length ys) <= 100 * ((l + 99) / 100) /\
    100 * ((l + 99) / 100) < l + 100.
Proof.
  intros cfg fi all l fuel self Hl Hpos Hfi Hp Hh Hd Hfuel ys.
  pose proof (pages_bounds l) as Hb. cbv zeta in Hb.
  split; [|split; [|split]].
  - unfold iterkeys. rewrite Hfi.
    destruct (loop_paged cfg fi all l Hl Hpos Hp Hh (Z.to_nat ((l + 99) / 100))
                0 fuel self ltac:(lia) ltac:(lia) Hfuel) as (self' & H).
    exists self'. change (100 * 0) with 0 in H. rewrite H. simpl skipn.
    unfold ys. do 2 f_equal. unfold page_size. f_equal. lia.
  - apply distinct_keys_firstn, Hd.
  - unfold ys. rewrite length_firstn. lia.
  - lia.
Qed.

End ScanLoop.

(** ** The sample image store pages honestly *)

Lemma uniqueids_of_entities (page : list json) :
  mapM (fun ent => py_getitem ent "_uniqueid") (map Sample.entity page) = OK page.
Proof.
  induction page as [|k page IH]; [reflexivity|].
  simpl map. unfold mapM; fold (@mapM json json).
  rewrite IH. reflexivity.
Qed.

Lemma offset_of_page_query (fi : dict) (offset : Z) :
  (r0 <- py_index (ApertureDBImportStorageBase.page_query fi offset) 0 ;;
   f <- py_getitem r0 "FindImage" ;;
   py_getitem f "offset") = OK (JInt offset).
Proof.
  unfold ApertureDBImportStorageBase.page_query. simpl.
  now rewrite dict_get_set.
Qed.

Lemma read_page_of_entities (page : list json) :
  ApertureDBImportStorageBase.read_page
    (JList [JDict [("FindImage", JDict [
       ("entities", JList (map Sample.entity page));
       ("returned", JInt (Z.of_nat (List.length page)));
       ("status", JInt 0)])]]) =
  OK (match page with [] => None | _ => Some page end).
Proof.
  unfold ApertureDBImportStorageBase.read_page.
  rewrite response_status_list. simpl mapM. simpl bind.
  destruct page as [|a page]; [reflexivity|].
  change (num_eqb (NInt (Z.of_nat (List.length (a :: page)))) (NInt 0)) with false.
  cbv iota. now rewrite uniqueids_of_entities.
Qed.

Lemma image_store_paged (all : list json) (fi : dict) :
  @Spec.paged_by (Sample.image_store all) all fi.
Proof.
  intros st offset Hoff.
  change (fst (db_query st (ApertureDBImportStorageBase.page_query fi offset)))
    with (Sample.page_response all (ApertureDBImportStorageBase.page_query fi offset)).
  unfold Sample.page_response. rewrite offset_of_page_query.
  rewrite read_page_of_entities.
  destruct (skipn (Z.to_nat offset) all) as [|a rest]; reflexivity.
Qed.

Lemma images_hashable : Forall (fun k => hashable k = true) Sample.images.
Proof.
  apply Forall_forall. apply forallb_forall. vm_compute. reflexivity.
Qed.

Lemma images_distinct : Spec.distinct_keys Sample.images.
Proof. apply distinctb_distinct. vm_compute. reflexivity. Qed.

Lemma scan_yields_whole_pages_witness :
  let ys := firstn 200 Sample.images in
  (exists self',
      @ApertureDBImportStorageBase.iterkeys (Sample.image_store Sample.images)
        Sample.idle 2 (Sample.config None (Some 150)) (Sample.blank tt) =
      (ys, ApertureDBImportStorageBase.Returned, self')) /\
  Spec.distinct_keys ys /\
  Z.of_nat (List.length ys) <= 200 /\ 200 < 150 + 100.
Proof.
  apply (@scan_yields_whole_pages (Sample.image_store Sample.images) Sample.idle
           (Sample.config None (Some 150))
           [("uniqueids", JBool true); ("blobs", JBool false); ("limit", JInt 100);
            ("constraints", JDict ApertureDBImportStorageBase.internal_constraints)]
           Sample.images 150 2 (Sample.blank tt)).
  - reflexivity.
  - lia.
  - reflexivity.
  - apply image_store_paged.
  - exact images_hashable.
  - exact images_distinct.
  - vm_compute. lia.
Defined.

(** C3, the bound: with limit 150 a scan of a store that holds 250 images
    yields 200 keys, so the limit is not a bound on what a scan yields. *)
Lemma scan_exceeds_limit : ~ Spec.scan_within_limit.
Proof.
  intros H.
  specialize (H (Sample.image_store Sample.images) Sample.idle
                (Sample.config None (Some 150)) _ Sample.images 150 2%nat
                (Sample.blank tt) _ _ _
                eq_refl eq_refl (image_store_paged _ _) images_hashable images_distinct
                eq_refl).
  vm_compute in H. apply H. reflexivity.
Qed.

(** ** The annotation cache *)

Lemma py_eq_str_l (n : string) (k : json) : py_eq (JStr n) k = true -> k = JStr n.
Proof.
  destruct k; simpl; try discriminate.
  intros H. apply String.eqb_eq in H. now subst.
Qed.

Lemma py_eq_str_r (n : string) (k : json) : py_eq k (JStr n) = true -> k = JStr n.
Proof.
  destruct k; simpl; try discriminate.
  intros H. apply String.eqb_eq in H. now subst.
Qed.

Lemma py_eq_str_refl (n : string) : py_eq (JStr n) (JStr n) = true.
Proof. simpl. apply String.eqb_refl. Qed.

Section StringKeys.
Context {V : Type}.

Lemma mem_set_same (n : string) (v : V) (m : list (json * V)) :
  PyDict.mem (JStr n) (PyDict.set (JStr n) v m) = true.
Proof.
  unfold PyDict.mem.
  induction m as [|[k' v'] m IH]; simpl.
  - now rewrite String.eqb_refl.
  - destruct (py_eq k' (JStr n)) eqn:Hk; simpl; rewrite Hk; [reflexivity | exact IH].
Qed.

Lemma mem_set_other (n : string) (k : json) (v : V) (m : list (json * V)) :
  PyDict.mem (JStr n) m = true -> PyDict.mem (JStr n) (PyDict.set k v m) = true.
Proof.
  unfold PyDict.mem.
  induction m as [|[k' v'] m IH]; simpl; [discriminate|].
  destruct (py_eq k' (JStr n)) eqn:Hn.
  - intros _. destruct (py_eq k' k); simpl; now rewrite Hn.
  - intros H. destruct (py_eq k' k) eqn:Hk; simpl; rewrite Hn; [|auto].
    destruct (PyDict.get (JStr n) m); [reflexivity | discriminate].
Qed.

End StringKeys.

Lemma get_set_same {V : Type} (i : string) (v : V) (m : list (json * V)) :
  PyDict.get (JStr i) (PyDict.set (JStr i) v m) = Some v.
Proof.
  induction m as [|[k' v'] m IH]; simpl.
  - now rewrite String.eqb_refl.
  - destruct (py_eq k' (JStr i)) eqn:Hk; simpl; rewrite Hk; [reflexivity | exact IH].
Qed.

Lemma get_set_other {V : Type} (i : string) (j : json) (v : V) (m : list (json * V)) :
  j <> JStr i ->
  PyDict.get (JStr i) (PyDict.set j v m) = PyDict.get (JStr i) m.
Proof.
  intros Hj. induction m as [|[k' v'] m IH]; simpl.
  - destruct (py_eq j (JStr i)) eqn:Hji; [|reflexivity].
    apply py_eq_str_r in Hji. contradiction.
  - destruct (py_eq k' j) eqn:Hkj; simpl.
    + destruct (py_eq k' (JStr i)) eqn:Hki; [|reflexivity].
      apply py_eq_str_r in Hki. subst k'.
      apply py_eq_str_l in Hkj. contradiction.
    + destruct (py_eq k' (JStr i)); [reflexivity | exact IH].
Qed.

Section Cache.
Import ApertureDBImportStorageBase Spec.
Context `{E : Env}.

Lemma batch_item_key (cfg : Config) (res img : json) (it : json * (json * json)) :
  batch_item cfg res img = OK it -> py_getitem img "_uniqueid" = OK (fst it).
Proof.
  unfold batch_item. intros H.
  bind_split H as key Hkey. bind_split H as anns Hanns. bind_split H as l Hl.
  bind_split H as loaded Hloaded. bind_split H as anns' Hanns'.
  bind_split H as preds Hpreds.
  inversion H; subst. exact Hkey.
Qed.

(** Every image of the response whose key is a string gets an entry of
    the dict the comprehension builds. *)
Lemma collect_mem (cfg : Config) (res : json) (imgs : list json) :
  forall acc c,
    foldM (fun acc img =>
             it <- batch_item cfg res img ;;
             PyDict.assign (fst it) (snd it) acc) imgs acc = OK c ->
    (forall n, PyDict.mem (JStr n) acc = true -> PyDict.mem (JStr n) c = true) /\
    (forall img n, In img imgs -> py_getitem img "_uniqueid" = OK (JStr n) ->
                   PyDict.mem (JStr n) c = true).
Proof.
  induction imgs as [|img imgs IH]; simpl; intros acc c H.
  - inversion H; subst. split; [auto | tauto].
  - bind_split H as acc1 H1. bind_split H1 as it Hit.
    unfold PyDict.assign in H1.
    destruct (hashable (fst it)); [|discriminate].
    inversion H1; subst acc1; clear H1.
    destruct (IH _ _ H) as [Hacc Himgs].
    split.
    + intros n Hn. apply Hacc. now apply mem_set_other.
    + intros img' n [<-|Hin] Hu.
      * apply Hacc. apply batch_item_key in Hit. rewrite Hu in Hit.
        inversion Hit as [Hf]. apply mem_set_same.
      * eauto.
Qed.


(** The generator sends its query, and only that, when it is first
    resumed; when the query cannot be built nothing is sent. *)
Lemma batch_open_sends (cfg : Config) (keys : list json) (c c' : Connector Store)
    (r : result (json * list json)) :
  batch_open cfg keys c = (r, c') ->
  match batch_query cfg keys with
  | Raise e => r = Raise e /\ c' = c
  | OK q =>
      c' = mkConnector (snd (db_query (store c) q)) (sent c ++ [q]) /\
      forall res imgs, r = OK (res, imgs) -> res = fst (db_query (store c) q)
  end.
Proof.
  unfold batch_open, mbind, lift, query, raise, ret.
  destruct (batch_query cfg keys) as [q|e]; simpl.
  2:{ intros H; inversion H; auto. }
  destruct (db_query (store c) q) as [res s']; simpl.
  repeat match goal with
         | |- context [match ?x with _ => _ end] => destruct x; simpl
         end;
    intros H; inversion H; subst; (split; [reflexivity|]);
    intros res' imgs' Hr; inversion Hr; reflexivity.
Qed.

Lemma scanned_string (names : list string) (n : string) (self : Storage Store) :
  _last_iterkeys self = Some (map JStr names) -> In n names ->
  scanned (JStr n) self = OK true.
Proof.
  intros Hl Hin. unfold scanned. rewrite Hl.
  unfold PyDict.set_contains, PyDict.set_mem. simpl hashable. cbv iota.
  f_equal. apply existsb_exists. exists (JStr n).
  split; [now apply in_map | apply py_eq_str_refl].
Qed.

(** *** The response, as the reads go through it *)










(** Whatever the outcome, a lookup outside the cache and the scanned
    batch leaves both attributes as they were and sends at most one
    query. *)
Lemma single_lookup_leaves_cache (cfg : Config) (key : json) (self self' : Storage Store)
    (r : result (json * json)) :
  cached key self = OK false -> scanned key self = OK false ->
  _get_bbox_annotations cfg key self = (r, self') ->
  _bbox_annotation_cache self' = _bbox_annotation_cache self /\
  _last_iterkeys self' = _last_iterkeys self /\
  (List.length (sent (conn self')) <= S (List.length (sent (conn self))))%nat.
Proof.
  intros Hmiss Hnot. unfold _get_bbox_annotations. rewrite Hmiss, Hnot.
  unfold mbind, on_conn.
  destruct (batch_open cfg [key] (conn self)) as [ro c'] eqn:Hopen.
  pose proof (batch_open_sends _ _ _ _ _ Hopen) as Hsend.
  assert (Hlen : (List.length (sent c') <= S (List.length (sent (conn self))))%nat).
  { destruct (batch_query cfg [key]); destruct Hsend as [H1 H2]; subst; simpl.
    - rewrite length_app. simpl. lia.
    - lia. }
  destruct ro as [opened|e]; unfold lift; intros H; inversion H; subst; simpl; auto.
Qed.

End Cache.



Example unlisted_key_raises :
  @ApertureDBImportStorageBase._get_bbox_annotations Sample.scripted
    (Sample.config None (Some 1000)) (JStr "a")
    (Sample.scanned_ab [Sample.only_b_found]) =
  (Raise KeyError,
   ApertureDBImportStorageBase.mkStorage
     (mkConnector [] [Sample.query_ab]) (Some (map JStr ["a"; "b"]))
     (Some [(JStr "b", Sample.no_annotations)])).
Proof. vm_compute. reflexivity. Qed.

(** The scenario of the specification: after a scan of [{"a", "b"}] a read
    of ["a"] sends the one batched query, and the read of ["b"] that
    follows is served from the cache. *)
Example second_read_is_cached :
  let cfg := Sample.config None (Some 1000) in
  let '(r1, self1) :=
    @ApertureDBImportStorageBase._get_bbox_annotations Sample.scripted cfg (JStr "a")
      (Sample.scanned_ab [Sample.both_found]) in
  let '(r2, self2) :=
    @ApertureDBImportStorageBase._get_bbox_annotations Sample.scripted cfg (JStr "b") self1 in
  r1 = OK Sample.no_annotations /\ r2 = OK Sample.no_annotations /\
  List.length (sent (ApertureDBImportStorageBase.conn self1)) = 1%nat /\
  self2 = self1.
Proof. vm_compute. repeat split. Qed.

(** A key outside the scanned batch: one query for that key alone, and
    the cache is left as it was. *)
Example outside_batch_bypasses_cache :
  let cfg := Sample.config None (Some 1000) in
  let '(r, self1) :=
    @ApertureDBImportStorageBase._get_bbox_annotations Sample.scripted cfg (JStr "z")
      (Sample.scanned_ab
         [JList [Sample.command "FindImage" 0
                   [("entities", JList [Sample.entity (JStr "z")]); ("returned", JInt 1)];
                 Sample.command "FindEntity" 0 [("returned", JInt 0)]]]) in
  r = OK Sample.no_annotations /\
  ApertureDBImportStorageBase._bbox_annotation_cache self1 = Some [] /\
  List.length (sent (ApertureDBImportStorageBase.conn self1)) = 1%nat.
Proof. vm_compute. repeat split. Qed.

(* ================================================================== *)
(** * Further properties *)

Lemma bind_Raise_inv {A B : Type} (c : result A) (k : A -> result B) (e : exn) :
  bind c k = Raise e -> c = Raise e \/ exists a, c = OK a /\ k a = Raise e.
Proof. destruct c as [a|e']; simpl; intros H; [eauto | left; congruence]. Qed.

(** Split a hypothesis [x <- c ;; k = Raise e]: either [c] raised, which
    the tactic [t] has to deal with, or it returned. *)
Tactic Notation "raise_split" hyp(H) "as" ident(a) ident(Ha) "by" tactic(t) :=
  apply bind_Raise_inv in H; destruct H as [H|(a & Ha & H)]; [solve [t]|].

(** ** What [AnnotationBBox.__init__] accepts and what it raises *)

Section Construction.
Import AnnotationBBox Spec.

Lemma get_raises (obj : json) (key description : string) (e : exn) :
  _get obj key description = Raise e -> is_validation e = true.
Proof.
  destruct obj; simpl; try (intros H; inversion H; reflexivity).
  destruct (dict_get key d); intros H; inversion H; reflexivity.
Qed.

Lemma float_of_Z_raises (z : Z) (e : exn) :
  float_of_Z z = Raise e -> e = OverflowError.
Proof.
  unfold float_of_Z. destruct (is_inf _); intros H; inversion H; reflexivity.
Qed.

Lemma to_float_raises (n : num) (e : exn) :
  to_float n = Raise e -> e = OverflowError.
Proof. destruct n; simpl; [apply float_of_Z_raises | discriminate]. Qed.

Lemma repeated_raises (len n : Z) (build : nat -> json) (e : exn) :
  repeated len n build = Raise e -> is_arithmetic e || is_out_of_model e = true.
Proof.
  unfold repeated.
  destruct ((n <? - PY_SSIZE_T_MAX - 1) || (PY_SSIZE_T_MAX <? n));
    [intros H; inversion H; reflexivity|].
  destruct ((n <=? 0) || (len =? 0)); [discriminate|].
  destruct (REPEAT_MAX <? len * n); intros H; inversion H; reflexivity.
Qed.

Lemma seq_repeat_raises (v : json) (n : Z) (e : exn) :
  seq_repeat v n = Raise e -> is_arithmetic e || is_out_of_model e = true.
Proof.
  destruct v; simpl; try (intros H; inversion H; reflexivity);
    apply repeated_raises.
Qed.

Lemma py_mul_raises (a b : json) (e : exn) :
  py_mul a b = Raise e -> is_arithmetic e || is_out_of_model e = true.
Proof.
  unfold py_mul.
  destruct (as_num a) as [[u|fu]|] eqn:Ha; destruct (as_num b) as [[v|fv]|] eqn:Hb;
    try discriminate;
    try (destruct (as_int _); [apply seq_repeat_raises
                               | intros H; inversion H; reflexivity]);
    try (intros H; inversion H; reflexivity);
    simpl; intros H.
  - destruct (float_of_Z u) eqn:Hu; simpl in H; [discriminate|].
    inversion H; subst. now rewrite (float_of_Z_raises _ _ Hu).
  - destruct (float_of_Z v) eqn:Hv; simpl in H; [discriminate|].
    inversion H; subst. now rewrite (float_of_Z_raises _ _ Hv).
Qed.

(** The product of a float never repeats a sequence. *)
Lemma py_mul_float_raises (f : float) (b : json) (e : exn) :
  py_mul (JFloat f) b = Raise e -> is_arithmetic e = true.
Proof.
  unfold py_mul. simpl as_num.
  destruct (as_num b) as [[v|fv]|] eqn:Hb; simpl;
    try (intros H; inversion H; reflexivity).
  destruct (float_of_Z v) eqn:Hv; simpl; [discriminate|].
  intros H. inversion H; subst. now rewrite (float_of_Z_raises _ _ Hv).
Qed.

(** Division by the literal [100] never divides by zero. *)
Lemma div_100_raises (p : json) (e : exn) :
  py_truediv p (JInt 100) = Raise e -> is_arithmetic e = true.
Proof.
  unfold py_truediv. destruct (as_num p) as [[u|fu]|]; simpl.
  - destruct (is_inf _); intros H; inversion H; reflexivity.
  - vm_compute. discriminate.
  - intros H; inversion H; reflexivity.
Qed.

Lemma int_of_float_raises (f : float) (e : exn) :
  int_of_float f = Raise e -> is_arithmetic e = true.
Proof.
  unfold int_of_float. destruct (Prim2SF f); intros H; inversion H; reflexivity.
Qed.

Lemma scale_raises (v dim : json) (e : exn) :
  scale v dim = Raise e -> is_arithmetic e || is_out_of_model e = true.
Proof.
  unfold scale. intros H.
  raise_split H as p Hp by (eapply py_mul_raises; eassumption).
  raise_split H as q Hq
    by (erewrite div_100_raises by eassumption; reflexivity).
  erewrite int_of_float_raises by eassumption. reflexivity.
Qed.

Lemma scale_float_raises (f : float) (dim : json) (e : exn) :
  scale (JFloat f) dim = Raise e -> is_arithmetic e = true.
Proof.
  unfold scale. intros H.
  raise_split H as p Hp by (eapply py_mul_float_raises; eassumption).
  raise_split H as q Hq by (eapply div_100_raises; eassumption).
  eapply int_of_float_raises; eassumption.
Qed.

Lemma get_then_scale_raises (val : json) (key : string) (dim : json) (e : exn) :
  (v <- _get val key "annotation value" ;; scale v dim) = Raise e ->
  is_validation e || is_arithmetic e || is_out_of_model e = true.
Proof.
  intros H.
  raise_split H as v Hv by (erewrite get_raises by eassumption; reflexivity).
  rewrite <- orb_assoc. rewrite (scale_raises _ _ _ H). apply orb_true_r.
Qed.

Lemma geometry_raises (ann : json) (e : exn) :
  geometry ann = Raise e ->
  is_validation e || is_arithmetic e || is_out_of_model e = true.
Proof.
  unfold geometry. intros H.
  raise_split H as ow Hw by (erewrite get_raises by eassumption; reflexivity).
  raise_split H as oh Hh by (erewrite get_raises by eassumption; reflexivity).
  raise_split H as rot Hrot by (erewrite get_raises by eassumption; reflexivity).
  destruct (py_ne rot (JInt 0)); [inversion H; reflexivity|].
  raise_split H as val Hval by (erewrite get_raises by eassumption; reflexivity).
  raise_split H as x Hx by (eapply get_then_scale_raises; eassumption).
  raise_split H as y Hy by (eapply get_then_scale_raises; eassumption).
  raise_split H as w Hwd by (eapply get_then_scale_raises; eassumption).
  raise_split H as h Hht by (eapply get_then_scale_raises; eassumption).
  raise_split H as vrot Hvrot by (erewrite get_raises by eassumption; reflexivity).
  destruct (py_ne vrot (JInt 0)); inversion H; reflexivity.
Qed.

Lemma mapM_as_str_raises (l : list json) (e : exn) :
  mapM as_str l = Raise e -> e = TypeError.
Proof.
  induction l as [|v l IH]; simpl; [discriminate|].
  destruct v; simpl; try (intros H; inversion H; reflexivity).
  destruct (mapM as_str l); simpl; [discriminate|].
  intros H. inversion H; subst. now apply IH.
Qed.

Lemma at_most_one_label_raises (ls : json) (e : exn) :
  at_most_one_label ls = Raise e -> is_validation e || is_arithmetic e = true.
Proof.
  unfold at_most_one_label. intros H.
  raise_split H as n Hn by (destruct ls; simpl in H; inversion H; reflexivity).
  destruct (n >? 1); [|discriminate].
  apply bind_Raise_inv in H. destruct H as [H|(j & _ & H)].
  - unfold py_join in H.
    raise_split H as items Hi by (destruct ls; simpl in H; inversion H; reflexivity).
    apply bind_Raise_inv in H. destruct H as [H|(strs & _ & H)]; [|discriminate].
    now rewrite (mapM_as_str_raises _ _ H).
  - inversion H; reflexivity.
Qed.

(** X2.  [__init__] reports every malformed fragment as one of its own
    [ValueError]s or fails in the arithmetic on the coordinates
    ([TypeError], [OverflowError], or the [ValueError] of [int(nan)]); the
    one other case is a coordinate that is a string or a list and is
    repeated into more than [REPEAT_MAX] items, where CPython raises
    [MemoryError], [OverflowError] or the [TypeError] of the division.
    No lookup is unguarded, so it never raises [KeyError], [IndexError]
    or [AttributeError], and it never divides by zero.  A fragment that
    is not a mapping is rejected with "must be a dict". *)
Theorem init_raises_only_validation_or_arithmetic :
  (forall ann e,
      __init__ ann = Raise e ->
      is_validation e || is_arithmetic e || is_out_of_model e = true) /\
  (forall ann,
      (forall d, ann <> JDict d) ->
      __init__ ann = Raise (ValueError (MustBeDict "rectangle annotation"))).
Proof.
  split.
  - intros ann e. rewrite init_geometry. intros H.
    raise_split H as g Hg by (eapply geometry_raises; eassumption).
    destruct g as [[[ow oh] r] val].
    apply geometry_OK in Hg
      as (d & vd & vx & vy & vw & vh & -> & -> & _).
    unfold py_contains, py_getitem, dict_mem in H.
    destruct (dict_get "rectanglelabels" vd) as [ls|];
      destruct (dict_get "text" vd) as [tx|]; simpl in H;
      try discriminate;
      (apply bind_Raise_inv in H; destruct H as [H|(u & _ & H)];
       [erewrite at_most_one_label_raises by eassumption; reflexivity
       | discriminate]).
  - intros ann Hnd. destruct ann; try reflexivity.
    destruct (Hnd d eq_refl).
Qed.

(** A coordinate that is a string, on an image of 10^15 pixels: the
    repetition is past what is followed here. *)
Example huge_repetition_is_not_followed :
  __init__ (JDict [("original_width", JInt (10 ^ 15)); ("original_height", JInt 600);
                   ("image_rotation", JInt 0);
                   ("value", JDict [("x", JStr "a")])]) =
  Raise OutOfModel.
Proof. vm_compute. reflexivity. Qed.

Lemma init_raises_witness :
  __init__ (JList []) = Raise (ValueError (MustBeDict "rectangle annotation")).
Proof.
  apply (proj2 init_raises_only_validation_or_arithmetic (JList [])).
  intros d H. discriminate H.
Defined.

(** The rotations a successful [geometry] has checked. *)
Lemma geometry_rotation (ann ow oh val : json) (r : Rect.t) :
  geometry ann = OK (ow, oh, r, val) ->
  exists rot vrot,
    _get ann "image_rotation" default_description = OK rot /\
    py_eq rot (JInt 0) = true /\
    _get val "rotation" "annotation value" = OK vrot /\
    py_eq vrot (JInt 0) = true.
Proof.
  unfold geometry. intros H.
  bind_split H as ow' Hw. bind_split H as oh' Hh. bind_split H as rot Hrot.
  unfold py_ne in H. destruct (py_eq rot (JInt 0)) eqn:Er; [|discriminate].
  simpl in H.
  bind_split H as val' Hv.
  bind_split H as x Hx. bind_split H as y Hy. bind_split H as w Hwd. bind_split H as h Hht.
  bind_split H as vrot Hvrot.
  destruct (py_eq vrot (JInt 0)) eqn:Ev; [|discriminate].
  inversion H; subst. exists rot, vrot. repeat split; assumption.
Qed.

(** X1.  No box is ever constructed from a rotated fragment: an instance
    exists only if ["image_rotation"] and the ["rotation"] of the value
    are both equal to 0.  A fragment with both dimensions and a non-zero
    ["image_rotation"] raises "must have 0 image_rotation" whatever else
    it holds. *)
Theorem rotated_fragment_is_rejected :
  (forall ann b,
      __init__ ann = OK b ->
      exists d vd rot vrot,
        ann = JDict d /\ dict_get "image_rotation" d = Some rot /\
        py_eq rot (JInt 0) = true /\
        dict_get "value" d = Some (JDict vd) /\
        dict_get "rotation" vd = Some vrot /\ py_eq vrot (JInt 0) = true) /\
  (forall d ow oh rot,
      dict_get "original_width" d = Some ow ->
      dict_get "original_height" d = Some oh ->
      dict_get "image_rotation" d = Some rot ->
      py_eq rot (JInt 0) = false ->
      __init__ (JDict d) = Raise (ValueError ImageRotation)).
Proof.
  split.
  - intros ann b H. apply init_OK in H as (val & Hg & _).
    pose proof (geometry_rotation _ _ _ _ _ Hg) as (rot & vrot & Hr & Er & Hvr & Ev).
    apply geometry_OK in Hg
      as (d & vd & vx & vy & vw & vh & -> & -> & _ & _ & Hv & _).
    apply get_OK in Hr as (d' & Ed & Hr). same_dict Ed d'.
    apply get_OK in Hvr as (d' & Ed & Hvr). same_dict Ed d'.
    exists d, vd, rot, vrot. repeat split; assumption.
  - intros d ow oh rot Hw Hh Hr Er.
    unfold __init__, _get. rewrite Hw, Hh, Hr. simpl bind.
    unfold py_ne. now rewrite Er.
Qed.

Lemma rotated_fragment_witness :
  __init__ (JDict [("original_width", JInt 800); ("original_height", JInt 600);
                   ("image_rotation", JInt 90)]) =
  Raise (ValueError ImageRotation).
Proof.
  apply (proj2 rotated_fragment_is_rejected _ (JInt 800) (JInt 600) (JInt 90));
    reflexivity.
Defined.

End Construction.

(** ** The keys of the map of boxes *)

Section MapKeys.
Import AnnotationBBox Spec.

Lemma get_None_all {V : Type} (k : json) (m : list (json * V)) :
  PyDict.get k m = None -> Forall (fun k' => py_eq k' k = false) (map fst m).
Proof.
  induction m as [|[k' v'] m IH]; simpl; [constructor|].
  destruct (py_eq k' k) eqn:Hk; [discriminate|].
  intros H. constructor; auto.
Qed.

(** [m[k] = v] adds the key [k] at the end or leaves the keys alone. *)
Lemma set_keys {V : Type} (k : json) (v : V) (m : list (json * V)) :
  map fst (PyDict.set k v m) =
  if PyDict.mem k m then map fst m else map fst m ++ [k].
Proof.
  unfold PyDict.mem.
  induction m as [|[k' v'] m IH]; simpl; [reflexivity|].
  destruct (py_eq k' k) eqn:Hk; simpl; [reflexivity|].
  rewrite IH. now destruct (PyDict.get k m).
Qed.

Lemma distinct_keys_snoc (l : list json) (k : json) :
  distinct_keys l -> Forall (fun k' => py_eq k' k = false) l ->
  distinct_keys (l ++ [k]).
Proof.
  unfold distinct_keys. intros Hl Hk.
  induction Hl as [|a l Ha Hl IH]; simpl.
  - constructor; constructor.
  - inversion Hk as [|? ? Hak Hk']; subst.
    constructor; [|auto].
    apply Forall_app. split; [assumption | constructor; [assumption | constructor]].
Qed.

(** A step of the loop leaves the keys alone or adds, at the end, the
    identifier of the rectangle fragment it has just constructed. *)
Lemma step_keys (m m' : bbox_map_t) (ann : json) :
  bbox_map_step m ann = OK m' ->
  map fst m' = map fst m \/
  exists i, map fst m' = map fst m ++ [i] /\ PyDict.get i m = None /\
            hashable i = true /\ rectangle_with_id i ann.
Proof.
  unfold bbox_map_step. intros H.
  bind_split H as has_type Ht.
  destruct has_type; simpl in H; [|inversion H; auto].
  bind_split H as i Hi. bind_split H as known Hk.
  unfold PyDict.contains in Hk.
  destruct (hashable i) eqn:Hh; [|discriminate].
  inversion Hk as [Hmem]; clear Hk.
  destruct known.
  - bind_split H as self Hself. bind_split H as self' Hmerge.
    inversion H; subst m'. left. rewrite set_keys. now rewrite Hmem.
  - bind_split H as ty Hty. bind_split H as is_rect Hr.
    destruct is_rect; [|inversion H; auto].
    bind_split H as b Hb. unfold PyDict.assign in H. rewrite Hh in H.
    inversion H; subst m'. right. exists i.
    rewrite set_keys, Hmem.
    unfold PyDict.mem in Hmem.
    destruct (PyDict.get i m) eqn:Hg; [discriminate|].
    split; [reflexivity|]. split; [reflexivity|]. split; [exact Hh|].
    destruct ann; simpl in Hi; try discriminate.
    destruct (dict_get "id" d) eqn:Hid; [|discriminate]. inversion Hi; subst j.
    simpl in Hty. destruct (dict_get "type" d) eqn:Htype; [|discriminate].
    inversion Hty; subst j.
    destruct ty; simpl in Hr; try discriminate. inversion Hr as [Hp].
    exists d, s. auto.
Qed.

(** The association list that stands for [bbox_map] is a dict: no two of
    its keys are equal, and every key is hashable. *)
Theorem one_box_per_identifier :
  forall regions m,
    build_bbox_map regions = OK m ->
    distinct_keys (map fst m) /\
    Forall (fun k => hashable k = true) (map fst m).
Proof.
  intros regions m H.
  apply (foldM_invariant
           (fun m => distinct_keys (map fst m) /\
                     Forall (fun k => hashable k = true) (map fst m))
           bbox_map_step) with (l := regions) (a := []); [| |exact H].
  - intros a ann a' [Hd Hh] Hs.
    destruct (step_keys a a' ann Hs) as [->|(i & -> & Hg & Hi & _)]; [auto|].
    split.
    + apply distinct_keys_snoc; [assumption | now apply get_None_all].
    + apply Forall_app. split; [assumption | constructor; [assumption | constructor]].
  - split; constructor.
Qed.

Lemma one_box_per_identifier_witness :
  distinct_keys (map fst [(JStr "r1", Sample.box [JStr "cat"] [JStr "hello"])]) /\
  Forall (fun k => hashable k = true)
         (map fst [(JStr "r1", Sample.box [JStr "cat"] [JStr "hello"])]).
Proof.
  apply (one_box_per_identifier [Sample.cat; Sample.note]).
  vm_compute. reflexivity.
Defined.

Lemma fold_keys (l : list json) :
  forall m0 m,
    foldM bbox_map_step l m0 = OK m ->
    forall k, In k (map fst m) ->
              In k (map fst m0) \/ exists ann, In ann l /\ rectangle_with_id k ann.
Proof.
  induction l as [|ann l IH]; simpl; intros m0 m H k Hk.
  - inversion H; subst. auto.
  - bind_split H as m1 H1.
    destruct (IH _ _ H k Hk) as [Hin|(ann' & Hin & Hr)]; [|eauto].
    destruct (step_keys m0 m1 ann H1) as [E|(i & E & _ & _ & Hr)];
      rewrite E in Hin; [auto|].
    apply in_app_or in Hin as [Hin|[<-|[]]]; [auto|].
    right. exists ann. auto.
Qed.

(** X4.  Every box of the map was opened by a rectangle fragment: each key
    is the identifier of a fragment of the sequence whose type starts
    with ["rectangle"].  A sequence without such a fragment gives the
    empty map, whatever identifiers its fragments carry. *)
Theorem every_box_has_a_rectangle :
  forall regions m,
    build_bbox_map regions = OK m ->
    (forall k, In k (map fst m) ->
               exists ann, In ann regions /\ rectangle_with_id k ann) /\
    ((forall ann i, In ann regions -> ~ rectangle_with_id i ann) -> m = []).
Proof.
  intros regions m H.
  assert (Hall : forall k, In k (map fst m) ->
                           exists ann, In ann regions /\ rectangle_with_id k ann).
  { intros k Hk. destruct (fold_keys regions [] m H k Hk) as [[]|Hr]. exact Hr. }
  split; [exact Hall|].
  intros Hnone. destruct m as [|[k b] m]; [reflexivity|].
  destruct (Hall k (or_introl eq_refl)) as (ann & Hin & Hr).
  destruct (Hnone ann k Hin Hr).
Qed.

Lemma every_box_has_a_rectangle_witness :
  exists ann, In ann [Sample.cat; Sample.note] /\ rectangle_with_id (JStr "r1") ann.
Proof.
  apply (proj1 (every_box_has_a_rectangle [Sample.cat; Sample.note]
                  [(JStr "r1", Sample.box [JStr "cat"] [JStr "hello"])]
                  ltac:(vm_compute; reflexivity))).
  simpl. auto.
Defined.

End MapKeys.

(** ** What [save_annotation] and [delete_annotation] send *)

Section Writes.
Import Spec.
Context `{E : Env}.

Lemma extend_query_appends (fields : list (json * string)) (ann_id : string)
    (m : bbox_map_t) :
  forall ref q q',
    extend_query fields ann_id ref m q = OK q' ->
    exists cmds, q' = q ++ cmds /\ List.length cmds = box_commands fields m.
Proof.
  induction m as [|[id_ bbox] m IH]; simpl; intros ref q q' H.
  - inversion H; subst. exists []. now rewrite app_nil_r.
  - bind_split H as cmds Hc.
    destruct (IH _ _ _ H) as (rest & -> & Hlen).
    exists (cmds ++ rest). rewrite app_assoc. split; [reflexivity|].
    rewrite length_app, Hlen. f_equal.
    unfold bbox_commands, PyDict.mem in *.
    destruct (PyDict.get id_ fields); bind_split Hc as label Hl;
      inversion Hc; reflexivity.
Qed.

(** X5.  A sequence of regions that does not merge stops [save_annotation]
    before it has sent anything: the exception of the merge is raised
    and the connection is as it was.  When the first, read-only query
    reports a status other than 0 the call raises and the second query,
    the one that writes, is not sent.  In every case the call sends at
    most two queries. *)
Theorem save_writes_nothing_unless_checked :
  forall (annotation : Annotation) (c : Connector Store),
    (forall e, build_bbox_map (regions annotation) = Raise e ->
               save_annotation annotation c = (Raise e, c)) /\
    (forall m img res s' status,
        build_bbox_map (regions annotation) = OK m ->
        image_id annotation = OK img ->
        db_query (store c) (scan_query img) = (res, s') ->
        _response_status res = OK status -> py_eq status (JInt 0) = false ->
        save_annotation annotation c =
        (Raise (ValueError SaveFailed), mkConnector s' (sent c ++ [scan_query img]))) /\
    (forall r c',
        save_annotation annotation c = (r, c') ->
        exists qs, sent c' = sent c ++ qs /\ (List.length qs <= 2)%nat).
Proof.
  intros annotation c. split; [|split].
  - intros e He. unfold save_annotation, save_query, mbind, lift. now rewrite He.
  - intros m img res s' status Hm Hi Hq Hs Hne.
    unfold save_annotation, save_query, mbind, lift, query, raise.
    rewrite Hm, Hi. simpl. rewrite Hq, Hs. unfold py_ne. now rewrite Hne.
  - intros r c'.
    unfold save_annotation, save_query, mbind, lift, query, raise, ret.
    destruct (build_bbox_map (regions annotation)) as [m|e].
    2:{ intros H; inversion H; subst. exists [].
        split; [now rewrite app_nil_r | simpl; lia]. }
    destruct (image_id annotation) as [img|e].
    2:{ intros H; inversion H; subst. exists [].
        split; [now rewrite app_nil_r | simpl; lia]. }
    simpl. destruct (db_query (store c) (scan_query img)) as [res s'].
    destruct (_response_status res) as [status|e].
    2:{ intros H; inversion H; subst. exists [scan_query img].
        split; [reflexivity | simpl; lia]. }
    destruct (py_ne status (JInt 0)).
    { intros H; inversion H; subst. exists [scan_query img].
        split; [reflexivity | simpl; lia]. }
    destruct (scan_id_fields res m) as [fields|e].
    2:{ intros H; inversion H; subst. exists [scan_query img].
        split; [reflexivity | simpl; lia]. }
    destruct (extend_query fields (str_of_Z (id annotation)) 3 m _) as [q|e].
    2:{ intros H; inversion H; subst. exists [scan_query img].
        split; [reflexivity | simpl; lia]. }
    simpl. destruct (db_query s' (JList q)) as [res2 s2].
    assert (Hsent : forall x : result unit * Connector Store,
               snd x = mkConnector s2 ((sent c ++ [scan_query img]) ++ [JList q]) ->
               exists qs, sent (snd x) = sent c ++ qs /\ (List.length qs <= 2)%nat).
    { intros x ->. exists [scan_query img; JList q]. simpl.
      split; [now rewrite <- app_assoc | lia]. }
    destruct (_response_status res2) as [status2|e];
      [destruct (not_in_0_2 status2)|];
      intros H; specialize (Hsent (r, c')); simpl in Hsent;
      apply Hsent; inversion H; reflexivity.
Qed.

Lemma extend_query_per_box (fields : list (json * string)) (ann_id : string)
    (m : bbox_map_t) :
  forall ref q q',
    extend_query fields ann_id ref m q = OK q' ->
    exists cmdss, commands_per_box fields ann_id ref m cmdss /\
                  q' = q ++ List.concat cmdss /\
                  List.length (List.concat cmdss) = box_commands fields m.
Proof.
  induction m as [|[id_ bbox] m IH]; cbn [extend_query]; intros ref q q' H.
  - inversion H; subst. exists []. simpl. now rewrite app_nil_r.
  - bind_split H as cmds Hc.
    destruct (IH _ _ _ H) as (rest & Hrest & -> & Hlen).
    exists (cmds :: rest). cbn [commands_per_box List.concat box_commands].
    split; [split; assumption|]. split; [now rewrite app_assoc|].
    rewrite length_app, Hlen. f_equal.
    unfold bbox_commands, PyDict.mem in *.
    destruct (PyDict.get id_ fields); bind_split Hc as label Hl;
      inversion Hc; reflexivity.
Qed.

(** X6.  The second query of [save_annotation] consists of the three
    commands for the annotation followed by the commands for the boxes,
    box by box in the order of the map, with the references 3, 4, ...:
    for each box the commands that the fields found by the scan of the
    first response give, one for a box the scan found and two for any
    other, so between one and two commands for every box of the map and
    none for anything else. *)
Theorem second_query_covers_every_box :
  forall (annotation : Annotation) (c c1 : Connector Store) (q : json),
    save_query annotation c = (OK q, c1) ->
    exists m img fields cmdss,
      build_bbox_map (regions annotation) = OK m /\
      image_id annotation = OK img /\
      scan_id_fields (fst (db_query (store c) (scan_query img))) m = OK fields /\
      commands_per_box fields (str_of_Z (id annotation)) 3 m cmdss /\
      q = JList (annotation_commands annotation img (str_of_Z (id annotation)) ++
                 List.concat cmdss) /\
      List.length (List.concat cmdss) = box_commands fields m /\
      (List.length m <= box_commands fields m <= 2 * List.length m)%nat.
Proof.
  intros annotation c c1 q.
  unfold save_query, mbind, lift, query, raise, ret.
  destruct (build_bbox_map (regions annotation)) as [m|e]; [|discriminate].
  destruct (image_id annotation) as [img|e]; [|discriminate].
  simpl. destruct (db_query (store c) (scan_query img)) as [res s'] eqn:Hdb.
  destruct (_response_status res) as [status|e]; [|discriminate].
  destruct (py_ne status (JInt 0)); [discriminate|].
  destruct (scan_id_fields res m) as [fields|e] eqn:Hf; [|discriminate].
  destruct (extend_query fields (str_of_Z (id annotation)) 3 m _) as [q'|e] eqn:Hq;
    [|discriminate].
  destruct (extend_query_per_box _ _ _ _ _ _ Hq) as (cmdss & Hper & Hq' & Hlen).
  intros H. inversion H; subst.
  exists m, img, fields, cmdss.
  split; [reflexivity|]. split; [reflexivity|]. split; [rewrite Hdb; exact Hf|].
  split; [exact Hper|]. split; [reflexivity|]. split; [exact Hlen|].
  clear. induction m as [|[i b] m IH]; simpl; [lia|].
  destruct (PyDict.mem i fields); lia.
Qed.

(** X7.  [delete_annotation] sends exactly one query, the same four
    commands for every annotation up to its identifier, whether the call
    returns or raises; the connection ends in the state the store
    answered with. *)
Theorem delete_sends_one_query :
  forall (annotation : Annotation) (c c' : Connector Store) (r : result unit),
    delete_annotation annotation c = (r, c') ->
    sent c' = sent c ++ [delete_query (str_of_Z (id annotation))] /\
    store c' = snd (db_query (store c) (delete_query (str_of_Z (id annotation)))) /\
    (forall e, r = Raise e ->
               e = ValueError DeleteFailed \/
               _response_status
                 (fst (db_query (store c) (delete_query (str_of_Z (id annotation))))) =
               Raise e).
Proof.
  intros annotation c c' r.
  unfold delete_annotation, mbind, lift, query, raise, ret.
  destruct (db_query (store c) (delete_query (str_of_Z (id annotation)))) as [res s'].
  simpl.
  destruct (_response_status res) as [status|e0] eqn:Hs;
    [destruct (not_in_0_2 status)|];
    intros H; inversion H; subst; simpl; repeat split;
    intros e He; inversion He; subst; auto.
Qed.

End Writes.

Lemma second_query_witness :
  exists m img fields cmdss,
    build_bbox_map (regions Sample.boxed_annotation) = OK m /\
    image_id Sample.boxed_annotation = OK img /\
    scan_id_fields
      (fst (@db_query Sample.scripted
              (store (Sample.fresh Sample.found_then_matched)) (scan_query img))) m =
    OK fields /\
    @Spec.commands_per_box Sample.scripted fields
      (str_of_Z (id Sample.boxed_annotation)) 3 m cmdss /\
    JList (@annotation_commands Sample.scripted Sample.boxed_annotation "img1" "7" ++
           [JDict [("AddBoundingBox", JDict [
              ("image_ref", JInt 1);
              ("_ref", JInt 3);
              ("rectangle", rect_json (Rect.mk 80 60 400 120));
              ("label", JStr "cat");
              ("properties",
               @bbox_properties Sample.scripted (Some (JStr "r1"))
                 (Sample.box [JStr "cat"] [JStr "hello"]) "7")])];
            JDict [("AddConnection", JDict [
              ("class", JStr "LS_annotation_region");
              ("src", JInt 2);
              ("dst", JInt 3);
              ("if_not_found", JDict [])])]]) =
    JList (@annotation_commands Sample.scripted Sample.boxed_annotation img
             (str_of_Z (id Sample.boxed_annotation)) ++ List.concat cmdss) /\
    List.length (List.concat cmdss) = Spec.box_commands fields m /\
    (List.length m <= Spec.box_commands fields m <= 2 * List.length m)%nat.
Proof.
  apply (@second_query_covers_every_box Sample.scripted Sample.boxed_annotation
           (Sample.fresh Sample.found_then_matched)
           (mkConnector [nth 1 Sample.found_then_matched JNull] [scan_query "img1"])).
  vm_compute. reflexivity.
Defined.

Lemma delete_sends_one_query_witness :
  sent (mkConnector (@nil json) [delete_query "7"]) =
  [] ++ [delete_query (str_of_Z (id Sample.empty_annotation))] /\
  store (mkConnector (@nil json) [delete_query "7"]) =
  snd (@db_query Sample.scripted Sample.nothing_to_delete
         (delete_query (str_of_Z (id Sample.empty_annotation)))) /\
  (forall e, OK tt = Raise e ->
             e = ValueError DeleteFailed \/
             _response_status
               (fst (@db_query Sample.scripted Sample.nothing_to_delete
                       (delete_query (str_of_Z (id Sample.empty_annotation))))) =
             Raise e).
Proof.
  apply (@delete_sends_one_query Sample.scripted Sample.empty_annotation
           (Sample.fresh Sample.nothing_to_delete)).
  reflexivity.
Defined.

Lemma save_writes_nothing_witness :
  @save_annotation Sample.scripted Sample.inconsistent_annotation
    (Sample.fresh Sample.found_then_matched) =
  (Raise (ValueError (Mismatched "original_width")),
   Sample.fresh Sample.found_then_matched).
Proof.
  apply (proj1 (@save_writes_nothing_unless_checked Sample.scripted
                  Sample.inconsistent_annotation
                  (Sample.fresh Sample.found_then_matched))).
  vm_compute. reflexivity.
Defined.

(** ** The batched read *)

Section BatchedRead.
Import ApertureDBImportStorageBase Spec.
Context `{E : Env}.

(** X8.  The user's settings never reach the conditions the batched read
    relies on.  The image command always asks for width and height above
    zero and for exactly the given keys, and the annotation command for
    the project of the configuration.  With predictions enabled the
    third command keeps every condition of the user except on ["LS_id"],
    which is always "equal to null"; with predictions disabled there is
    no third command. *)
Theorem batch_query_keeps_internal_conditions :
  forall (cfg : Config) (keys : list json) (q : json),
    batch_query cfg keys = OK q ->
    nth_constraints q 0 "FindImage" =
      OK (JDict [("width", JList [JStr ">"; JInt 0]);
                 ("height", JList [JStr ">"; JInt 0]);
                 ("_uniqueid", JList [JStr "in"; JList keys])]) /\
    nth_constraints q 1 "FindEntity" =
      OK (JDict [("LS_project_id", JList [JStr "=="; JInt (project_id cfg)])]) /\
    (predictions cfg = false -> py_index q 2 = Raise IndexError) /\
    (predictions cfg = true ->
     exists user cs,
       user_pred_constraints cfg = OK (JDict user) /\
       nth_constraints q 2 "FindBoundingBox" = OK (JDict cs) /\
       dict_get "LS_id" cs = Some (JList [JStr "=="; JNull]) /\
       forall k, k <> "LS_id" -> dict_get k cs = dict_get k user).
Proof.
  intros cfg keys q. unfold batch_query, user_pred_constraints.
  destruct (predictions cfg).
  - intros H. bind_split H as pc Hpc. destruct pc as [| | | | | |d]; try discriminate.
    inversion H; subst q; clear H.
    split; [reflexivity|]. split; [reflexivity|]. split; [discriminate|].
    intros _. exists d, (dict_update d [("LS_id", JList [JStr "=="; JNull])]).
    split; [exact Hpc|]. split; [reflexivity|].
    unfold dict_update. simpl fold_left. split.
    + rewrite dict_get_set. reflexivity.
    + intros k Hk. rewrite dict_get_set.
      destruct (String.eqb_spec k "LS_id"); [contradiction | reflexivity].
  - intros H. inversion H; subst q.
    split; [reflexivity|]. split; [reflexivity|]. split; [reflexivity|discriminate].
Qed.

End BatchedRead.

Lemma batch_query_witness :
  Spec.nth_constraints
    (JList [JDict [("FindImage", JDict [
              ("blobs", JBool false); ("_ref", JInt 1);
              ("results", JDict [("list", JList [JStr "width"; JStr "height"])]);
              ("uniqueids", JBool true);
              ("constraints", JDict [
                 ("width", JList [JStr ">"; JInt 0]);
                 ("height", JList [JStr ">"; JInt 0]);
                 ("_uniqueid", JList [JStr "in"; JList [JStr "a"]])])])];
            JDict [("FindEntity", JDict [
              ("with_class", JStr "LS_annotation");
              ("is_connected_to", JDict [("ref", JInt 1)]);
              ("constraints", JDict [("LS_project_id", JList [JStr "=="; JInt 3])]);
              ("results", JDict [("list", JList [JStr "LS_data"])]);
              ("group_by_source", JBool true)])]]) 0 "FindImage" =
  OK (JDict [("width", JList [JStr ">"; JInt 0]);
             ("height", JList [JStr ">"; JInt 0]);
             ("_uniqueid", JList [JStr "in"; JList [JStr "a"]])]).
Proof.
  apply (@batch_query_keeps_internal_conditions Sample.scripted
           (Sample.config None (Some 1000)) [JStr "a"]).
  reflexivity.
Defined.

(** ** Predictions *)

Section Predictions.
Import ApertureDBImportStorageBase AnnotationBBox Spec.
Context `{E : Env}.

Lemma mapM_Forall2 {A B : Type} (f : A -> result B) (l : list A) (r : list B) :
  mapM f l = OK r -> Forall2 (fun a b => f a = OK b) l r.
Proof.
  revert r; induction l as [|a l IH]; simpl; intros r H.
  - inversion H. constructor.
  - bind_split H as b Hb. bind_split H as r' Hr. inversion H; subst.
    constructor; auto.
Qed.

Lemma region_of_not_a_dict (width height bbx : json) :
  (forall d, bbx <> JDict d) -> region_of width height bbx = Raise TypeError.
Proof.
  intros H. destruct bbx; try reflexivity. destruct (H d eq_refl).
Qed.

(** X9.  [_adb_to_rectanglelabels] returns no prediction for an image
    without boxes and otherwise a single prediction whose ["result"]
    holds one region per box, in the order of the boxes. *)
Theorem one_region_per_box :
  forall (img bboxen r : json),
    _adb_to_rectanglelabels img bboxen = OK r ->
    exists width height n,
      py_getitem img "width" = OK width /\ py_getitem img "height" = OK height /\
      py_len bboxen = OK n /\
      (n = 0 -> r = JList []) /\
      (0 < n ->
       exists boxes regions,
         bboxen = JList boxes /\
         r = JList [JDict [("result", JList regions)]] /\
         Forall2 (fun bbx reg => region_of width height bbx = OK reg) boxes regions).
Proof.
  intros img bboxen r H. unfold _adb_to_rectanglelabels in H.
  bind_split H as width Hw. bind_split H as height Hh. bind_split H as n Hn.
  exists width, height, n. repeat split; try assumption.
  - intros ->. simpl in H. now inversion H.
  - intros Hpos. destruct (Z.gtb_spec n 0); [|lia].
    bind_split H as l Hl. bind_split H as rs Hrs. inversion H; subst r; clear H.
    apply mapM_Forall2 in Hrs.
    destruct bboxen; simpl in Hl; try discriminate; inversion Hl; subst l; clear Hl.
    + (* a str: its characters are no boxes *)
      simpl in Hn. inversion Hn; subst n.
      destruct (code_points s) as [|c cs]; [simpl in Hpos; lia|].
      inversion Hrs as [|? ? ? ? Hc _]; subst. discriminate Hc.
    + exists l0, rs. auto.
    + (* a dict: its keys are no boxes *)
      simpl in Hn. inversion Hn; subst n.
      destruct d as [|[k v] d]; [simpl in Hpos; lia|].
      inversion Hrs as [|? ? ? ? Hc _]; subst. discriminate Hc.
Qed.

Lemma percent_float (bbx : json) (key : string) (dim x : json) :
  (c <- py_getitem bbx "_coordinates" ;; v <- py_getitem c key ;; percent v dim) = OK x ->
  exists f, x = JFloat f.
Proof.
  intros H. bind_split H as c Hc. bind_split H as v Hv.
  unfold percent in H. bind_split H as p Hp. bind_split H as q Hq.
  inversion H. eauto.
Qed.

(** The explicit form of a region: its coordinates are floats. *)
Lemma region_of_OK (width height bbx reg : json) :
  region_of width height bbx = OK reg ->
  exists id_ x y w h label,
    py_getitem bbx "_label" = OK label /\
    reg = JDict [
      ("from_name", JStr "label");
      ("to_name", JStr "image");
      ("id", JStr (py_str id_));
      ("type", JStr "rectanglelabels");
      ("original_width", width);
      ("original_height", height);
      ("image_rotation", JInt 0);
      ("value", JDict [
        ("rotation", JInt 0);
        ("x", JFloat x); ("y", JFloat y); ("width", JFloat w); ("height", JFloat h);
        ("rectanglelabels", JList [label])]);
      ("readonly", JBool PREDICTIONS_READONLY)].
Proof.
  unfold region_of. intros H.
  bind_split H as ls_id Hls. bind_split H as id_ Hid.
  bind_split H as x Hx. bind_split H as y Hy.
  bind_split H as w Hwd. bind_split H as h Hht.
  bind_split H as label Hlabel.
  apply percent_float in Hx as (fx & ->). apply percent_float in Hy as (fy & ->).
  apply percent_float in Hwd as (fw & ->). apply percent_float in Hht as (fh & ->).
  inversion H; subst. exists id_, fx, fy, fw, fh, label. auto.
Qed.

(** X10.  A region that [_adb_to_rectanglelabels] emits is a read-only
    fragment of type ["rectanglelabels"] that [AnnotationBBox] never
    rejects: constructing a box from it can only fail in the arithmetic,
    and a box that is constructed has the dimensions of the image, the
    label of the stored box as its only label and no text. *)
Theorem emitted_region_is_well_formed :
  forall (width height bbx reg : json),
    region_of width height bbx = OK reg ->
    py_getitem reg "type" = OK (JStr "rectanglelabels") /\
    py_getitem reg "readonly" = OK (JBool true) /\
    (forall e, __init__ reg = Raise e -> is_arithmetic e = true) /\
    (forall b, __init__ reg = OK b ->
               original_width b = width /\ original_height b = height /\
               text b = JList [] /\
               exists label, py_getitem bbx "_label" = OK label /\
                             labels b = JList [label]).
Proof.
  intros width height bbx reg H.
  apply region_of_OK in H as (id_ & x & y & w & h & label & Hlabel & ->).
  split; [reflexivity|]. split; [reflexivity|].
  assert (Hinit :
    __init__ (JDict [
      ("from_name", JStr "label"); ("to_name", JStr "image");
      ("id", JStr (py_str id_)); ("type", JStr "rectanglelabels");
      ("original_width", width); ("original_height", height);
      ("image_rotation", JInt 0);
      ("value", JDict [("rotation", JInt 0);
                       ("x", JFloat x); ("y", JFloat y);
                       ("width", JFloat w); ("height", JFloat h);
                       ("rectanglelabels", JList [label])]);
      ("readonly", JBool PREDICTIONS_READONLY)]) =
    (px <- scale (JFloat x) width ;; py <- scale (JFloat y) height ;;
     pw <- scale (JFloat w) width ;; ph <- scale (JFloat h) height ;;
     OK (mk width height (Rect.mk px py pw ph) (JList [label]) (JList [])))).
  { unfold __init__. cbn -[scale].
    destruct (scale (JFloat x) width); [|reflexivity]. cbn -[scale].
    destruct (scale (JFloat y) height); [|reflexivity]. cbn -[scale].
    destruct (scale (JFloat w) width); [|reflexivity]. cbn -[scale].
    destruct (scale (JFloat h) height); reflexivity. }
  rewrite Hinit. split.
  - intros e He.
    raise_split He as px Hpx by (eapply scale_float_raises; eassumption).
    raise_split He as py Hpy by (eapply scale_float_raises; eassumption).
    raise_split He as pw Hpw by (eapply scale_float_raises; eassumption).
    raise_split He as ph Hph by (eapply scale_float_raises; eassumption).
    discriminate.
  - intros b Hb.
    bind_split Hb as px Hpx. bind_split Hb as py Hpy.
    bind_split Hb as pw Hpw. bind_split Hb as ph Hph.
    inversion Hb; subst b. simpl. repeat split. exists label. auto.
Qed.

End Predictions.

Lemma one_region_per_box_witness :
  exists width height n,
    py_getitem (Sample.entity (JStr "a")) "width" = OK width /\
    py_getitem (Sample.entity (JStr "a")) "height" = OK height /\
    py_len (JList [Sample.stored_box]) = OK n /\
    (n = 0 -> JList [JDict [("result", JList [Sample.emitted])]] = JList []) /\
    (0 < n ->
     exists boxes regions,
       JList [Sample.stored_box] = JList boxes /\
       JList [JDict [("result", JList [Sample.emitted])]] =
       JList [JDict [("result", JList regions)]] /\
       Forall2 (fun bbx reg =>
                  @ApertureDBImportStorageBase.region_of Sample.scripted width height bbx =
                  OK reg) boxes regions).
Proof.
  apply (@one_region_per_box Sample.scripted (Sample.entity (JStr "a"))
           (JList [Sample.stored_box])).
  vm_compute. reflexivity.
Defined.

Lemma emitted_region_witness :
  py_getitem Sample.emitted "type" = OK (JStr "rectanglelabels") /\
  py_getitem Sample.emitted "readonly" = OK (JBool true) /\
  (forall e, AnnotationBBox.__init__ Sample.emitted = Raise e ->
             Spec.is_arithmetic e = true) /\
  (forall b, AnnotationBBox.__init__ Sample.emitted = OK b ->
             AnnotationBBox.original_width b = JInt 800 /\
             AnnotationBBox.original_height b = JInt 600 /\
             AnnotationBBox.text b = JList [] /\
             exists label, py_getitem Sample.stored_box "_label" = OK label /\
                           AnnotationBBox.labels b = JList [label]).
Proof.
  apply (@emitted_region_is_well_formed Sample.scripted (JInt 800) (JInt 600)
           Sample.stored_box Sample.emitted).
  vm_compute. reflexivity.
Defined.

(** The stored box comes back as the box it was: pixel to percentage and
    back. *)
Example stored_box_round_trip :
  AnnotationBBox.__init__ Sample.emitted = OK (Sample.box [JStr "cat"] []).
Proof. vm_compute. reflexivity. Qed.

Section ZeroWidth.
Import ApertureDBImportStorageBase Spec.
Context `{E : Env}.

Lemma float_of_100 : float_of_Z 100 = OK 100%float.
Proof. vm_compute. reflexivity. Qed.

Lemma float_of_0 : float_of_Z 0 = OK 0%float.
Proof. vm_compute. reflexivity. Qed.

Lemma float_div_by_zero (f : float) :
  py_truediv (JFloat f) (JInt 0) = Raise ZeroDivisionError.
Proof.
  unfold py_truediv. cbn [as_num to_float bind]. rewrite float_of_0.
  cbn [bind]. replace (PrimFloat.eqb 0 0) with true by (vm_compute; reflexivity).
  reflexivity.
Qed.

Lemma percent_of_zero (v : json) :
  as_num v <> None -> percent v (JInt 0) = Raise ZeroDivisionError.
Proof.
  intros Hv. unfold percent, py_mul.
  destruct (as_num v) as [[u|f]|] eqn:Hn; [| |congruence]; cbn [as_num].
  - reflexivity.
  - cbn [to_float]. rewrite float_of_100. cbn [bind].
    now rewrite float_div_by_zero.
Qed.

(** X11.  An image record of width 0 with at least one box makes
    [_adb_to_rectanglelabels] divide by zero: when the first box has an
    identifier and a numeric x coordinate the call raises
    [ZeroDivisionError]. *)
Theorem zero_width_divides_by_zero :
  forall (img height bbx ls u c vx : json) (rest : list json),
    py_getitem img "width" = OK (JInt 0) ->
    py_getitem img "height" = OK height ->
    py_getitem bbx "LS_id" = OK ls ->
    py_getitem bbx "_uniqueid" = OK u ->
    py_getitem bbx "_coordinates" = OK c ->
    py_getitem c "x" = OK vx -> as_num vx <> None ->
    _adb_to_rectanglelabels img (JList (bbx :: rest)) = Raise ZeroDivisionError.
Proof.
  intros img height bbx ls u c vx rest Hw Hh Hls Hu Hc Hx Hn.
  unfold _adb_to_rectanglelabels. rewrite Hw, Hh. simpl bind.
  destruct (Z.gtb_spec (Z.of_nat (List.length (bbx :: rest))) 0);
    [|simpl List.length in *; lia].
  simpl mapM. unfold region_of at 1. rewrite Hls. simpl bind.
  assert (Hid : (if negb (is_none ls) then OK ls else py_getitem bbx "_uniqueid")
                = OK (if negb (is_none ls) then ls else u)).
  { destruct (negb (is_none ls)); [reflexivity | exact Hu]. }
  rewrite Hid. simpl bind. rewrite Hc. simpl bind. rewrite Hx. simpl bind.
  now rewrite (percent_of_zero vx Hn).
Qed.

End ZeroWidth.

Lemma zero_width_witness :
  @ApertureDBImportStorageBase._adb_to_rectanglelabels Sample.scripted
    Sample.flat_image (JList [Sample.stored_box]) = Raise ZeroDivisionError.
Proof.
  apply (@zero_width_divides_by_zero Sample.scripted Sample.flat_image (JInt 600)
           Sample.stored_box JNull (JStr "5.1.220")
           (JDict [("x", JInt 80); ("y", JInt 60); ("width", JInt 400);
                   ("height", JInt 120)]) (JInt 80) []);
    try reflexivity.
  discriminate.
Defined.

(** ** Reads and the cache *)

Section Reads.
Import ApertureDBImportStorageBase Spec.
Context `{E : Env}.

(** X12.  A read never touches the scanned batch and sends at most one
    query.  When it raises, the cache is what it was before, so a batched
    read that fails stores no partial result; the one exception is the
    [KeyError] for a key of the batch that the response does not list,
    which is raised after the cache has been replaced. *)
Theorem failed_read_leaves_cache :
  forall (cfg : Config) (key : json) (self self' : Storage Store)
         (r : result (json * json)),
    _get_bbox_annotations cfg key self = (r, self') ->
    _last_iterkeys self' = _last_iterkeys self /\
    (exists qs, sent (conn self') = sent (conn self) ++ qs /\
                (List.length qs <= 1)%nat) /\
    (forall e, r = Raise e ->
               _bbox_annotation_cache self' = _bbox_annotation_cache self \/
               (e = KeyError /\
                exists c, _bbox_annotation_cache self' = Some c /\
                          PyDict.get key c = None)).
Proof.
  intros cfg key self self' r.
  assert (Hnil : exists qs, sent (conn self) = sent (conn self) ++ qs /\
                            (List.length qs <= 1)%nat).
  { exists []. split; [now rewrite app_nil_r | simpl; lia]. }
  assert (Hopen : forall keys ro c',
             batch_open cfg keys (conn self) = (ro, c') ->
             exists qs, sent c' = sent (conn self) ++ qs /\ (List.length qs <= 1)%nat).
  { intros keys ro c' Ho. pose proof (batch_open_sends _ _ _ _ _ Ho) as Hs.
    destruct (batch_query cfg keys) as [q|e]; destruct Hs as [H1 H2]; subst.
    - exists [q]. split; [reflexivity | simpl; lia].
    - exact Hnil. }
  unfold _get_bbox_annotations.
  destruct (cached key self) as [[|]|e].
  - intros H; inversion H; subst. auto.
  - destruct (scanned key self) as [[|]|e] eqn:Hsc.
    + assert (Hh : hashable key = true).
      { unfold scanned, PyDict.set_contains in Hsc.
        destruct (_last_iterkeys self); [|discriminate].
        destruct (hashable key); [reflexivity | discriminate]. }
      unfold mbind, on_conn, lift, set_cache.
      destruct (batch_open cfg _ (conn self)) as [ro c'] eqn:Ho.
      specialize (Hopen _ _ _ Ho).
      destruct ro as [opened|e]; [|intros H; inversion H; subst; simpl; auto].
      destruct (collect cfg (fst opened) (snd opened)) as [c|e];
        [|intros H; inversion H; subst; simpl; auto].
      simpl. unfold PyDict.item. rewrite Hh.
      destruct (PyDict.get key c) as [v|] eqn:Hv;
        intros H; inversion H; subst; simpl; repeat split; try assumption;
        intros e' He'; inversion He'; subst.
      right. split; [reflexivity|]. exists c. auto.
    + unfold mbind, on_conn, lift.
      destruct (batch_open cfg [key] (conn self)) as [ro c'] eqn:Ho.
      specialize (Hopen _ _ _ Ho).
      destruct ro as [opened|e]; intros H; inversion H; subst; simpl; auto.
    + intros H; inversion H; subst. auto.
  - intros H; inversion H; subst. auto.
Qed.

(** The batched branch, for a batch of strings the store answers for. *)
Lemma batch_read (cfg : Config) (names : list string) (n : string)
    (self : Storage Store) (res : json) (imgs : list json) (c' : Connector Store)
    (c : list (json * (json * json))) :
  cached (JStr n) self = OK false ->
  _last_iterkeys self = Some (map JStr names) -> In n names ->
  batch_open cfg (map JStr names) (conn self) = (OK (res, imgs), c') ->
  (forall m, In m names ->
             exists img, In img imgs /\ py_getitem img "_uniqueid" = OK (JStr m)) ->
  collect cfg res imgs = OK c ->
  (forall m, In m names -> PyDict.mem (JStr m) c = true) /\
  exists v, PyDict.get (JStr n) c = Some v /\
            _get_bbox_annotations cfg (JStr n) self =
            (OK v, mkStorage c' (Some (map JStr names)) (Some c)).
Proof.
  intros Hmiss Hlast Hin Hopen Hcover Hcollect.
  assert (Hall : forall m, In m names -> PyDict.mem (JStr m) c = true).
  { intros m Hm. destruct (Hcover m Hm) as (img & Himg & Hu).
    exact (proj2 (collect_mem cfg res imgs [] c Hcollect) img m Himg Hu). }
  split; [exact Hall|].
  pose proof (Hall n Hin) as Hn. unfold PyDict.mem in Hn.
  destruct (PyDict.get (JStr n) c) as [v|] eqn:Hv; [|discriminate].
  exists v. split; [reflexivity|].
  unfold _get_bbox_annotations. rewrite Hmiss, (scanned_string names n self Hlast Hin).
  rewrite Hlast. unfold mbind, on_conn. rewrite Hopen.
  unfold lift. simpl fst. simpl snd. rewrite Hcollect.
  unfold set_cache. simpl. rewrite Hlast. unfold PyDict.item. simpl. now rewrite Hv.
Qed.

Lemma cached_hit (cfg : Config) (n : string) (self : Storage Store)
    (c : list (json * (json * json))) :
  _bbox_annotation_cache self = Some c -> PyDict.mem (JStr n) c = true ->
  exists v, PyDict.get (JStr n) c = Some v /\
            _get_bbox_annotations cfg (JStr n) self = (OK v, self).
Proof.
  intros Hc Hm. unfold PyDict.mem in Hm.
  destruct (PyDict.get (JStr n) c) as [v|] eqn:Hv; [|discriminate].
  exists v. split; [reflexivity|].
  unfold _get_bbox_annotations, cached. rewrite Hc.
  unfold PyDict.contains, PyDict.mem, PyDict.item. simpl hashable. now rewrite Hv.
Qed.

(** After one read of a key of the scanned batch, a read of any key of
    that batch is served from the cache: the two reads together send one
    query, and the second leaves the instance as the first left it. *)
Theorem batch_is_read_once :
  forall (cfg : Config) (names : list string) (n1 n2 : string)
         (self : Storage Store) (res : json) (imgs : list json)
         (c' : Connector Store) (c : list (json * (json * json))),
    cached (JStr n1) self = OK false ->
    _last_iterkeys self = Some (map JStr names) ->
    In n1 names -> In n2 names ->
    batch_open cfg (map JStr names) (conn self) = (OK (res, imgs), c') ->
    (forall m, In m names ->
               exists img, In img imgs /\ py_getitem img "_uniqueid" = OK (JStr m)) ->
    collect cfg res imgs = OK c ->
    exists v1 v2 self1,
      _get_bbox_annotations cfg (JStr n1) self = (OK v1, self1) /\
      _get_bbox_annotations cfg (JStr n2) self1 = (OK v2, self1) /\
      PyDict.get (JStr n1) c = Some v1 /\ PyDict.get (JStr n2) c = Some v2 /\
      List.length (sent (conn self1)) = S (List.length (sent (conn self))).
Proof.
  intros cfg names n1 n2 self res imgs c' c Hmiss Hlast H1 H2 Hopen Hcover Hcollect.
  destruct (batch_read cfg names n1 self res imgs c' c Hmiss Hlast H1 Hopen Hcover Hcollect)
    as (Hall & v1 & Hv1 & Hget1).
  destruct (cached_hit cfg n2 (mkStorage c' (Some (map JStr names)) (Some c)) c
              eq_refl (Hall n2 H2)) as (v2 & Hv2 & Hget2).
  exists v1, v2, (mkStorage c' (Some (map JStr names)) (Some c)).
  repeat split; try assumption.
  simpl. pose proof (batch_open_sends _ _ _ _ _ Hopen) as Hs.
  destruct (batch_query cfg (map JStr names)) as [q|e]; destruct Hs as [Hc' _];
    [|discriminate].
  subst c'. simpl. rewrite length_app. simpl. lia.
Qed.

End Reads.

Lemma failed_read_witness :
  ApertureDBImportStorageBase._last_iterkeys
    (ApertureDBImportStorageBase.mkStorage
       (mkConnector (@nil json)
          [match @ApertureDBImportStorageBase.batch_query Sample.scripted
                   (Sample.config None (Some 1000)) [JStr "a"; JStr "b"] with
           | OK q => q | Raise _ => JNull end])
       (Some [JStr "a"; JStr "b"]) (Some [])) =
  ApertureDBImportStorageBase._last_iterkeys (Sample.scanned_ab [Sample.failed]) /\
  (exists qs,
      sent (mkConnector (@nil json)
              [match @ApertureDBImportStorageBase.batch_query Sample.scripted
                       (Sample.config None (Some 1000)) [JStr "a"; JStr "b"] with
               | OK q => q | Raise _ => JNull end]) =
      sent (ApertureDBImportStorageBase.conn (Sample.scanned_ab [Sample.failed])) ++ qs /\
      (List.length qs <= 1)%nat) /\
  (forall e, @Raise (json * json) (ValueError RetrieveFailed) = Raise e ->
             Some [] =
             ApertureDBImportStorageBase._bbox_annotation_cache
               (Sample.scanned_ab [Sample.failed]) \/
             (e = KeyError /\
              exists c : list (json * (json * json)),
                Some [] = Some c /\ PyDict.get (JStr "a") c = None)).
Proof.
  apply (@failed_read_leaves_cache Sample.scripted (Sample.config None (Some 1000))
           (JStr "a") (Sample.scanned_ab [Sample.failed])
           (ApertureDBImportStorageBase.mkStorage
              (mkConnector (@nil json)
                 [match @ApertureDBImportStorageBase.batch_query Sample.scripted
                          (Sample.config None (Some 1000)) [JStr "a"; JStr "b"] with
                  | OK q => q | Raise _ => JNull end])
              (Some [JStr "a"; JStr "b"]) (Some []))
           (Raise (ValueError RetrieveFailed))).
  vm_compute. reflexivity.
Defined.

Lemma batch_is_read_once_witness :
  exists v1 v2 self1,
    @ApertureDBImportStorageBase._get_bbox_annotations Sample.scripted
      (Sample.config None (Some 1000)) (JStr "a") (Sample.scanned_ab [Sample.both_found]) =
    (OK v1, self1) /\
    @ApertureDBImportStorageBase._get_bbox_annotations Sample.scripted
      (Sample.config None (Some 1000)) (JStr "b") self1 = (OK v2, self1) /\
    PyDict.get (JStr "a") [(JStr "a", Sample.no_annotations);
                           (JStr "b", Sample.no_annotations)] = Some v1 /\
    PyDict.get (JStr "b") [(JStr "a", Sample.no_annotations);
                           (JStr "b", Sample.no_annotations)] = Some v2 /\
    List.length (sent (ApertureDBImportStorageBase.conn self1)) =
    S (List.length (sent (ApertureDBImportStorageBase.conn
                            (Sample.scanned_ab [Sample.both_found])))).
Proof.
  apply (@batch_is_read_once Sample.scripted (Sample.config None (Some 1000))
           ["a"; "b"] "a" "b" (Sample.scanned_ab [Sample.both_found])
           Sample.both_found [Sample.entity (JStr "a"); Sample.entity (JStr "b")]
           (mkConnector []
              [match @ApertureDBImportStorageBase.batch_query Sample.scripted
                       (Sample.config None (Some 1000)) [JStr "a"; JStr "b"] with
               | OK q => q | Raise _ => JNull end])).
  - reflexivity.
  - reflexivity.
  - simpl; auto.
  - simpl; auto.
  - vm_compute. reflexivity.
  - intros m [<-|[<-|[]]];
      [exists (Sample.entity (JStr "a")) | exists (Sample.entity (JStr "b"))];
      (split; [simpl; auto | reflexivity]).
  - vm_compute. reflexivity.
Defined.

(** ** A scan without a limit *)

Section NoLimit.
Import ApertureDBImportStorageBase Spec.
Context `{E : Env}.
Variable consumer : json -> Storage Store -> Storage Store.
Variables (cfg : Config) (fi : dict) (all : list json).
Hypothesis Hnolimit : limit cfg = None \/ limit cfg = Some 0.
Hypothesis Hpaged : paged_by all fi.
Hypothesis Hhash : Forall (fun k => hashable k = true) all.

Lemma keep_going_always (offset : Z) : keep_going cfg offset = true.
Proof. unfold keep_going. destruct Hnolimit as [->| ->]; reflexivity. Qed.

Lemma loop_all (k : nat) :
  forall (i : Z) (fuel : nat) (self : Storage Store),
    0 <= i ->
    (List.length (skipn (Z.to_nat (100 * i)) all) <= k * page_size)%nat ->
    (k < fuel)%nat ->
    exists self',
      iterkeys_loop consumer fuel cfg fi (100 * i) self =
      (skipn (Z.to_nat (100 * i)) all, Returned, self').
Proof.
  induction k as [|k IH]; intros i fuel self Hi Hlen Hfuel;
    (destruct fuel as [|fuel]; [lia|]);
    rewrite (loop_step consumer fuel cfg fi (100 * i) self (keep_going_always _));
    cbv zeta; rewrite (Hpaged _ (100 * i) ltac:(lia));
    destruct (skipn (Z.to_nat (100 * i)) all) as [|a rest] eqn:Hskip;
    try (eexists; reflexivity).
  - simpl in Hlen. lia.
  - assert (Hpage : Forall (fun k => hashable k = true) (firstn page_size (a :: rest))).
    { rewrite <- Hskip. apply Forall_firstn_skipn. now apply Forall_firstn_skipn. }
    destruct (set_of_OK _ Hpage) as (s & Hs). rewrite Hs.
    assert (Hnext : skipn (Z.to_nat (100 * (i + 1))) all = skipn page_size (a :: rest)).
    { rewrite <- Hskip, skipn_skipn. f_equal. unfold page_size. lia. }
    match goal with
    | |- context [iterkeys_loop consumer fuel cfg fi (100 * i + batch) ?s3] =>
        destruct (IH (i + 1) fuel s3 ltac:(lia)) as (self' & Hrec)
    end.
    + rewrite Hnext, length_skipn. unfold page_size in *. simpl in Hlen. simpl. lia.
    + lia.
    + replace (100 * i + batch) with (100 * (i + 1)) by (unfold batch; lia).
      rewrite Hrec, Hnext. exists self'.
      now rewrite (firstn_skipn page_size (a :: rest)).
Qed.

(** X14.  Without a limit, and a limit of 0 is no limit, a scan of a store
    that pages through a fixed listing yields the whole listing, in
    order, and returns when it reads the first empty page. *)
Theorem scan_without_limit_yields_all :
  forall (fuel : nat) (self : Storage Store),
    find_images cfg = OK fi ->
    (List.length all / page_size + 2 <= fuel)%nat ->
    exists self', iterkeys consumer fuel cfg self = (all, Returned, self').
Proof.
  intros fuel self Hfi Hfuel. unfold iterkeys. rewrite Hfi.
  destruct (loop_all (List.length all / page_size + 1) 0 fuel self ltac:(lia))
    as (self' & H).
  - simpl skipn. unfold page_size.
    pose proof (Nat.div_mod_eq (List.length all) 100).
    pose proof (Nat.mod_upper_bound (List.length all) 100 ltac:(lia)). lia.
  - lia.
  - exists self'. exact H.
Qed.

End NoLimit.

Lemma scan_without_limit_witness :
  exists self',
    @ApertureDBImportStorageBase.iterkeys (Sample.image_store Sample.images)
      Sample.idle 4 (Sample.config None (Some 0)) (Sample.blank tt) =
    (Sample.images, ApertureDBImportStorageBase.Returned, self').
Proof.
  apply (@scan_without_limit_yields_all (Sample.image_store Sample.images) Sample.idle
           (Sample.config None (Some 0))
           [("uniqueids", JBool true); ("blobs", JBool false); ("limit", JInt 100);
            ("constraints", JDict ApertureDBImportStorageBase.internal_constraints)]
           Sample.images).
  - right. reflexivity.
  - apply image_store_paged.
  - exact images_hashable.
  - reflexivity.
  - vm_compute. lia.
Defined.

(** ** [get_data] and the key in its URL *)

Section TaskData.
Import ApertureDBImportStorageBase ApertureDBImportStorage Spec.
Context `{E : Env}.
Variable settings : Settings.

(** X15.  [get_data] returns the URL of the image under ["data"] and adds
    ["annotations"] and ["predictions"] only when the list is not empty;
    an exception of the read is raised unchanged, and the instance is
    left as the read left it. *)
Theorem get_data_omits_empty_lists :
  forall (cfg : Config) (title : option string) (key : json)
         (self self' : Storage Store),
    (forall anns preds,
        _get_bbox_annotations cfg key self = (OK (JList anns, JList preds), self') ->
        get_data settings cfg title key self =
        (OK (JDict ([("data", JDict [(DATA_UNDEFINED_NAME settings,
                                      JStr (data_url settings title key))])] ++
                    match anns with
                    | [] => []
                    | _ => [("annotations", JList anns)]
                    end ++
                    match preds with
                    | [] => []
                    | _ => [("predictions", JList preds)]
                    end)),
         self')) /\
    (forall e,
        _get_bbox_annotations cfg key self = (Raise e, self') ->
        get_data settings cfg title key self = (Raise e, self')).
Proof.
  intros cfg title key self self'. split.
  - intros anns preds H. unfold get_data, mbind, lift, ret. rewrite H.
    cbn [fst snd py_len].
    destruct anns as [|a anns]; destruct preds as [|p preds];
      cbn [List.length Z.of_nat];
      repeat match goal with
             | |- context [Z.pos ?p >? 0] => change (Z.pos p >? 0) with true
             end;
      reflexivity.
  - intros e H. unfold get_data, mbind. now rewrite H.
Qed.

(** What follows the last ["key="] of a string is what follows the last
    ["key="] of any of its suffixes that has one. *)
Lemma after_last_key_suffix (p s r : string) :
  after_last_key s = Some r -> after_last_key (String.append p s) = Some r.
Proof.
  intros H. induction p as [|c p IH]; simpl; [exact H|]. now rewrite IH.
Qed.

Lemma substring_all (s : string) : String.substring 0 (String.length s) s = s.
Proof. induction s as [|c s IH]; simpl; [reflexivity | now rewrite IH]. Qed.

Lemma after_marker (k : string) :
  no_key_marker k -> after_last_key (String.append "&key=" k) = Some k.
Proof.
  unfold no_key_marker. intros H.
  change (String.append "&key=" k)
    with (String "&" (String "k" (String "e" (String "y" (String "=" k))))).
  cbn [after_last_key]. rewrite H.
  destruct k as [|c k]; cbn -[String.substring String.length Nat.sub].
  - reflexivity.
  - f_equal. cbn [String.length Nat.sub String.substring].
    change (String c (String.substring 0 (String.length k) k))
      with (String c (String.substring 0 (String.length k) k)).
    now rewrite substring_all.
Qed.

Lemma data_url_key (title : option string) (key : json) :
  no_key_marker (py_str key) ->
  after_last_key (data_url settings title key) = Some (py_str key).
Proof.
  intros H. unfold data_url.
  change (String.concat "" [HOSTNAME settings; "/data/aperturedb/?title=";
                            title_or_none title; "&key="; py_str key])
    with (String.append (HOSTNAME settings)
            (String.append "/data/aperturedb/?title="
               (String.append (title_or_none title)
                  (String.append "&key=" (py_str key))))).
  do 3 apply after_last_key_suffix. now apply after_marker.
Qed.

(** X16.  The key survives the trip through the task: for an annotation
    without a storage filename whose task holds, under ["image"], the URL
    that [get_data] built for a key, [save_annotation] addresses the
    image [str(key)], provided [str(key)] does not itself contain
    ["key="]. *)
Theorem image_id_inverts_data_url :
  forall (annotation : Annotation) (title : option string) (key : json) (d : dict),
    storage_filename annotation = None \/ storage_filename annotation = Some "" ->
    task_data annotation = JDict d ->
    dict_get "image" d = Some (JStr (data_url settings title key)) ->
    no_key_marker (py_str key) ->
    image_id annotation = OK (py_str key).
Proof.
  intros annotation title key d Hsf Hd Hi Hk.
  unfold image_id.
  assert (Hurl : (img_url <- py_getitem (task_data annotation) "image" ;;
                  url <- as_str img_url ;;
                  OK match after_last_key url with Some r => r | None => url end)
                 = OK (py_str key)).
  { rewrite Hd. simpl py_getitem. rewrite Hi. simpl bind.
    now rewrite (data_url_key title key Hk). }
  destruct Hsf as [-> | ->]; exact Hurl.
Qed.

End TaskData.

Lemma get_data_witness :
  @ApertureDBImportStorage.get_data Sample.scripted Sample.settings
    (Sample.config None (Some 1000)) (Some "demo") (JStr "a")
    (Sample.scanned_ab [Sample.both_found]) =
  (OK (JDict ([("data",
                JDict [("$undefined$",
                        JStr (@ApertureDBImportStorage.data_url Sample.scripted
                                Sample.settings (Some "demo") (JStr "a")))])]
              ++ [] ++ [])),
   snd (@ApertureDBImportStorageBase._get_bbox_annotations Sample.scripted
          (Sample.config None (Some 1000)) (JStr "a")
          (Sample.scanned_ab [Sample.both_found]))).
Proof.
  apply (proj1 (@get_data_omits_empty_lists Sample.scripted Sample.settings
                  (Sample.config None (Some 1000)) (Some "demo") (JStr "a")
                  (Sample.scanned_ab [Sample.both_found]) _) [] []).
  vm_compute. reflexivity.
Defined.

Lemma image_id_witness :
  image_id Sample.linked_annotation = OK "5.1.220".
Proof.
  apply (@image_id_inverts_data_url Sample.rendering Sample.settings
           Sample.linked_annotation (Some "demo") (JStr "5.1.220")
           [("image",
             JStr (@ApertureDBImportStorage.data_url Sample.rendering Sample.settings
                     (Some "demo") (JStr "5.1.220")))]).
  - left. reflexivity.
  - reflexivity.
  - reflexivity.
  - vm_compute. reflexivity.
Defined.

(** ** Regions with different identifiers *)

Section Independence.
Import AnnotationBBox Spec.

Lemma touches_id (i : string) (ann : json) :
  touches i ann = true ->
  exists d, ann = JDict d /\ dict_get "id" d = Some (JStr i).
Proof.
  destruct ann; simpl; try discriminate.
  destruct (dict_get "id" d) as [j|] eqn:Hd; [|discriminate].
  destruct j; try discriminate.
  intros H. apply String.eqb_eq in H. subst s. eauto.
Qed.

Lemma not_touches_id (i : string) (d : dict) (j : json) :
  touches i (JDict d) = false -> dict_get "id" d = Some j -> j <> JStr i.
Proof.
  simpl. intros H Hj. rewrite Hj in H. intros ->.
  now rewrite String.eqb_refl in H.
Qed.

(** A fragment with another identifier leaves the box of [i] alone. *)
Lemma step_other (i : string) (m m' : bbox_map_t) (ann : json) :
  touches i ann = false -> bbox_map_step m ann = OK m' ->
  PyDict.get (JStr i) m' = PyDict.get (JStr i) m.
Proof.
  intros Hi H. unfold bbox_map_step in H.
  bind_split H as has_type Ht.
  destruct has_type; simpl in H; [|now inversion H].
  bind_split H as j Hj.
  assert (Hne : j <> JStr i).
  { destruct ann; simpl in Hj; try discriminate.
    destruct (dict_get "id" d) eqn:Hd; [|discriminate].
    inversion Hj; subst. exact (not_touches_id i d j Hi Hd). }
  bind_split H as known Hk. destruct known.
  - bind_split H as self Hself. bind_split H as self' Hm.
    inversion H; subst. now apply get_set_other.
  - bind_split H as ty Hty. bind_split H as is_rect Hr.
    destruct is_rect; [|now inversion H].
    bind_split H as b Hb. unfold PyDict.assign in H.
    destruct (hashable j); [|discriminate].
    inversion H; subst. now apply get_set_other.
Qed.

(** What a fragment with the identifier [i] does to the box of [i]
    depends on that box only. *)
Lemma step_same (i : string) (m1 m1' m2 : bbox_map_t) (ann : json) :
  touches i ann = true ->
  PyDict.get (JStr i) m1 = PyDict.get (JStr i) m2 ->
  bbox_map_step m1 ann = OK m1' ->
  exists m2', bbox_map_step m2 ann = OK m2' /\
              PyDict.get (JStr i) m1' = PyDict.get (JStr i) m2'.
Proof.
  intros Hi Hget H.
  apply touches_id in Hi as (d & -> & Hid).
  unfold bbox_map_step in *.
  destruct (py_contains "type" (JDict d)) as [[|]|e]; simpl in *;
    [| inversion H; subst; eauto | discriminate].
  rewrite Hid in *. simpl in *.
  unfold PyDict.contains, PyDict.item, PyDict.mem in *. simpl hashable in *.
  cbv iota in *. rewrite <- Hget.
  destruct (PyDict.get (JStr i) m1) as [self|] eqn:Hg1; simpl in *.
  - destruct (merge self (JDict d)) as [self'|e]; simpl in *; [|discriminate].
    inversion H; subst. eexists. split; [reflexivity|].
    now rewrite !get_set_same.
  - destruct (dict_get "type" d) as [ty|]; simpl in *; [|discriminate].
    destruct (startswith ty "rectangle") as [[|]|e]; simpl in *;
      [| inversion H; subst; exists m2; split; [reflexivity | congruence]
       | discriminate].
    destruct (__init__ (JDict d)) as [b|e]; simpl in *; [|discriminate].
    unfold PyDict.assign in *. simpl hashable in *. cbv iota in *.
    inversion H; subst. eexists. split; [reflexivity|].
    now rewrite !get_set_same.
Qed.

Lemma fold_independent (i : string) (regions : list json) :
  forall m1 m1' m2,
    PyDict.get (JStr i) m1 = PyDict.get (JStr i) m2 ->
    foldM bbox_map_step regions m1 = OK m1' ->
    exists m2', foldM bbox_map_step (filter (touches i) regions) m2 = OK m2' /\
                PyDict.get (JStr i) m1' = PyDict.get (JStr i) m2'.
Proof.
  induction regions as [|ann regions IH]; simpl; intros m1 m1' m2 Hget H.
  - inversion H; subst. eauto.
  - bind_split H as m1a Hstep.
    destruct (touches i ann) eqn:Ht; simpl.
    + destruct (step_same i m1 m1a m2 ann Ht Hget Hstep) as (m2a & Hs2 & Hg).
      rewrite Hs2. simpl. eauto.
    + apply (IH m1a m1' m2); [|exact H].
      rewrite (step_other i m1 m1a ann Ht Hstep). exact Hget.
Qed.

(** X18.  Regions with different identifiers do not interact: the box
    that a sequence of fragments gives for the identifier [i] is the box
    that the fragments carrying [i] give on their own. *)
Theorem box_depends_on_its_fragments_only :
  forall (i : string) (regions : list json) (m : bbox_map_t),
    build_bbox_map regions = OK m ->
    exists mi, build_bbox_map (filter (touches i) regions) = OK mi /\
               PyDict.get (JStr i) mi = PyDict.get (JStr i) m.
Proof.
  intros i regions m H.
  destruct (fold_independent i regions [] m [] eq_refl H) as (mi & Hmi & Hg).
  exists mi. split; [exact Hmi | now symmetry].
Qed.

End Independence.

Lemma box_depends_witness :
  exists mi,
    build_bbox_map
      (filter (Spec.touches "r1")
         [Sample.cat; Sample.region "r2" "rectanglelabels" []; Sample.note]) = OK mi /\
    PyDict.get (JStr "r1") mi =
    PyDict.get (JStr "r1")
      [(JStr "r1", Sample.box [JStr "cat"] [JStr "hello"]);
       (JStr "r2", Sample.box [] [])].
Proof.
  apply (box_depends_on_its_fragments_only "r1"
           [Sample.cat; Sample.region "r2" "rectanglelabels" []; Sample.note]).
  vm_compute. reflexivity.
Defined.

(** ** Reading the keys of a page *)

Section PageReads.
Import ApertureDBImportStorageBase Spec.
Context `{E : Env}.

(** Reads of keys that are all cached leave the instance alone. *)
Lemma hits_leave_instance (cfg : Config) (c : list (json * (json * json)))
    (names : list string) :
  forall self,
    _bbox_annotation_cache self = Some c ->
    Forall (fun n => PyDict.mem (JStr n) c = true) names ->
    fold_left (fun s k => reader cfg k s) (map JStr names) self = self.
Proof.
  induction names as [|n names IH]; simpl; intros self Hc Hall; [reflexivity|].
  inversion Hall as [|? ? Hn Hrest]; subst.
  destruct (cached_hit cfg n self c Hc Hn) as (v & _ & Hget).
  unfold reader at 2. rewrite Hget. simpl. now apply IH.
Qed.

(** X13.  When the batched read of a scanned page succeeds and its
    response lists every key of the page, the reads of the keys of the
    page cost one query in all: the first read after the page was fetched
    sends the batched query and all the other reads of keys of that page,
    in any order and however often, are served from the cache.  (A key
    that the response does not list is not cached and its read raises
    [KeyError]: see [unlisted_key_raises].) *)
Theorem page_is_read_with_one_query :
  forall (cfg : Config) (names : list string) (first : string) (others : list string)
         (conn0 : Connector Store) (res : json) (imgs : list json)
         (c' : Connector Store) (c : list (json * (json * json))),
    In first names -> Forall (fun n => In n names) others ->
    batch_open cfg (map JStr names) conn0 = (OK (res, imgs), c') ->
    (forall m, In m names ->
               exists img, In img imgs /\ py_getitem img "_uniqueid" = OK (JStr m)) ->
    collect cfg res imgs = OK c ->
    yield_from (reader cfg) (map JStr (first :: others))
      (mkStorage conn0 (Some (map JStr names)) (Some [])) =
    mkStorage c' (Some (map JStr names)) (Some c) /\
    List.length (sent c') = S (List.length (sent conn0)).
Proof.
  intros cfg names first others conn0 res imgs c' c Hfirst Hothers Hopen Hcover Hcollect.
  destruct (batch_read cfg names first
              (mkStorage conn0 (Some (map JStr names)) (Some []))
              res imgs c' c eq_refl eq_refl Hfirst Hopen Hcover Hcollect)
    as (Hall & v & _ & Hget).
  split.
  - unfold yield_from. simpl map. simpl fold_left.
    unfold reader at 2. rewrite Hget. simpl snd.
    apply hits_leave_instance with (c := c); [reflexivity|].
    apply Forall_forall. intros n Hn. apply Hall.
    rewrite Forall_forall in Hothers. auto.
  - pose proof (batch_open_sends _ _ _ _ _ Hopen) as Hs.
    destruct (batch_query cfg (map JStr names)) as [q|e]; destruct Hs as [Hc' _];
      [|discriminate].
    subst c'. simpl. rewrite length_app. simpl. lia.
Qed.

End PageReads.

Lemma page_is_read_witness :
  @ApertureDBImportStorageBase.yield_from Sample.scripted
    (@Spec.reader Sample.scripted (Sample.config None (Some 1000)))
    (map JStr ("a" :: ["b"; "a"]))
    (ApertureDBImportStorageBase.mkStorage
       (Sample.fresh [Sample.both_found]) (Some (map JStr ["a"; "b"])) (Some [])) =
  ApertureDBImportStorageBase.mkStorage
    (mkConnector []
       [match @ApertureDBImportStorageBase.batch_query Sample.scripted
                (Sample.config None (Some 1000)) [JStr "a"; JStr "b"] with
        | OK q => q | Raise _ => JNull end])
    (Some (map JStr ["a"; "b"]))
    (Some [(JStr "a", Sample.no_annotations); (JStr "b", Sample.no_annotations)]) /\
  List.length
    (sent (mkConnector (@nil json)
             [match @ApertureDBImportStorageBase.batch_query Sample.scripted
                      (Sample.config None (Some 1000)) [JStr "a"; JStr "b"] with
              | OK q => q | Raise _ => JNull end])) =
  S (List.length (sent (Sample.fresh [Sample.both_found]))).
Proof.
  apply (@page_is_read_with_one_query Sample.scripted (Sample.config None (Some 1000))
           ["a"; "b"] "a" ["b"; "a"] (Sample.fresh [Sample.both_found])
           Sample.both_found [Sample.entity (JStr "a"); Sample.entity (JStr "b")]).
  - simpl; auto.
  - constructor; [simpl; auto | constructor; [simpl; auto | constructor]].
  - vm_compute. reflexivity.
  - intros m [<-|[<-|[]]];
      [exists (Sample.entity (JStr "a")) | exists (Sample.entity (JStr "b"))];
      (split; [simpl; auto | reflexivity]).
  - vm_compute. reflexivity.
Defined.

(** ** The text of a region *)

Section RegionText.
Import AnnotationBBox Spec.

Lemma labels_at_most_one (b : t) (l : list json) :
  at_most_one_label (labels b) = OK tt -> labels b = JList l ->
  (List.length l <= 1)%nat.
Proof.
  intros H Hl. apply at_most_one_label_OK in H as (n & Hn & Hle).
  rewrite Hl in Hn. simpl in Hn. inversion Hn; subst. lia.
Qed.

Lemma notes_fold (b0 : t) (i : string) (l0 : list json)
    (Hl0 : (List.length l0 <= 1)%nat) (notes : list (dict * list json)) :
  Forall (note_of b0 i) notes ->
  forall acc,
    foldM bbox_map_step (map (fun dt => JDict (fst dt)) notes)
      [(JStr i, mk (original_width b0) (original_height b0) (rect b0)
                   (JList l0) (JList acc))] =
    OK [(JStr i, mk (original_width b0) (original_height b0) (rect b0)
                    (JList l0) (JList (acc ++ List.concat (map snd notes))))].
Proof.
  intros H. induction H as [|[d t] notes Hn Hrest IH]; intros acc; simpl.
  - now rewrite app_nil_r.
  - destruct Hn as (Htype & Hid & o & Ho & Hag & Hlo & Hto). simpl in *.
    rewrite (step_known _ d (JStr i) _ Htype Hid eq_refl)
      by (simpl; now rewrite String.eqb_refl).
    rewrite (merge_agree _ (JDict d) o Ho) by exact Hag.
    simpl labels. simpl text. rewrite Hlo, Hto. simpl py_extend. simpl bind.
    rewrite app_nil_r. rewrite (at_most_one_label_few l0 Hl0). simpl bind.
    rewrite String.eqb_refl. simpl. rewrite IH. now rewrite <- app_assoc.
Qed.

(** X19.  The text of a region accumulates in the order of the fragments:
    a rectangle followed by any number of fragments that carry text for
    the same identifier and agree with it gives one box, with the
    geometry and the label of the rectangle and the texts of all the
    fragments one after the other. *)
Theorem texts_accumulate_in_order :
  forall (d0 : dict) (ty i : string) (b0 : t) (l0 t0 : list json)
         (notes : list (dict * list json)),
    dict_get "type" d0 = Some (JStr ty) -> String.prefix "rectangle" ty = true ->
    dict_get "id" d0 = Some (JStr i) ->
    __init__ (JDict d0) = OK b0 ->
    labels b0 = JList l0 -> text b0 = JList t0 ->
    Forall (note_of b0 i) notes ->
    build_bbox_map (JDict d0 :: map (fun dt => JDict (fst dt)) notes) =
    OK [(JStr i, mk (original_width b0) (original_height b0) (rect b0)
                    (JList l0) (JList (t0 ++ List.concat (map snd notes))))].
Proof.
  intros d0 ty i b0 l0 t0 notes Hty Hp Hid Hb Hl Ht Hnotes.
  assert (Hl0 : (List.length l0 <= 1)%nat).
  { destruct (init_OK _ _ Hb) as (val & _ & Hone).
    exact (labels_at_most_one b0 l0 Hone Hl). }
  unfold build_bbox_map. simpl foldM.
  rewrite (step_new [] d0 (JStr i) ty Hty Hp Hid eq_refl eq_refl), Hb.
  simpl bind. simpl PyDict.set.
  replace b0 with (mk (original_width b0) (original_height b0) (rect b0)
                      (JList l0) (JList t0)) at 1
    by (destruct b0; simpl in *; now subst).
  exact (notes_fold b0 i l0 Hl0 notes Hnotes t0).
Qed.

End RegionText.

Lemma texts_accumulate_witness :
  build_bbox_map
    (Sample.cat ::
     map (fun dt => JDict (fst dt))
       [([("id", JStr "r1"); ("type", JStr "textarea");
          ("from_name", JStr "label"); ("to_name", JStr "image");
          ("original_width", JInt 800); ("original_height", JInt 600);
          ("image_rotation", JInt 0);
          ("value", JDict [("x", JInt 10); ("y", JInt 10);
                           ("width", JInt 50); ("height", JInt 20);
                           ("rotation", JInt 0); ("text", JList [JStr "hello"])])],
         [JStr "hello"])]) =
  OK [(JStr "r1",
       AnnotationBBox.mk (JInt 800) (JInt 600) (Rect.mk 80 60 400 120)
         (JList [JStr "cat"]) (JList ([] ++ List.concat (map snd
            [([("id", JStr "r1"); ("type", JStr "textarea");
               ("from_name", JStr "label"); ("to_name", JStr "image");
               ("original_width", JInt 800); ("original_height", JInt 600);
               ("image_rotation", JInt 0);
               ("value", JDict [("x", JInt 10); ("y", JInt 10);
                                ("width", JInt 50); ("height", JInt 20);
                                ("rotation", JInt 0);
                                ("text", JList [JStr "hello"])])],
              [JStr "hello"])]))))].
Proof.
  apply (texts_accumulate_in_order _ "rectanglelabels" "r1"
           (Sample.box [JStr "cat"] []) [JStr "cat"] []).
  - reflexivity.
  - reflexivity.
  - reflexivity.
  - vm_compute. reflexivity.
  - reflexivity.
  - reflexivity.
  - constructor; [|constructor].
    split; [reflexivity|]. split; [reflexivity|].
    exists (Sample.box [] [JStr "hello"]).
    split; [vm_compute; reflexivity|]. repeat split.
Defined.

(** ** Update or insert *)

Section UpdateOrInsert.
Import Spec.
Context `{E : Env}.

Lemma scan_fields_of_boxes (res : json) (m : bbox_map_t) :
  scan_id_fields res m =
  (l <- stored_boxes res ;; foldM (id_field_step m) l []).
Proof.
  unfold scan_id_fields, stored_boxes.
  destruct (py_index res 1) as [r1|e]; [simpl|reflexivity].
  destruct (py_getitem r1 "FindBoundingBox") as [fbb|e]; [simpl|reflexivity].
  destruct (py_contains "entities" fbb) as [[|]|e]; simpl; try reflexivity.
  destruct (py_getitem fbb "entities") as [ents|e]; [simpl|reflexivity].
  reflexivity.
Qed.

Lemma field_step_keeps (m : bbox_map_t) (k : string) (f f' : list (json * string))
    (bbx : json) :
  id_field_step m f bbx = OK f' ->
  PyDict.mem (JStr k) f = true -> PyDict.mem (JStr k) f' = true.
Proof.
  unfold id_field_step, PyDict.assign. intros H Hm.
  bind_split H as ls Hls. bind_split H as by_ls Hby.
  destruct by_ls.
  - destruct (hashable ls); [|discriminate]. inversion H; subst.
    now apply mem_set_other.
  - bind_split H as uid Huid. bind_split H as by_uid Hbu.
    destruct by_uid; [|now inversion H; subst].
    destruct (hashable uid); [|discriminate]. inversion H; subst.
    now apply mem_set_other.
Qed.

Lemma field_step_matches (m : bbox_map_t) (k : string) (f f' : list (json * string))
    (bbx : json) :
  id_field_step m f bbx = OK f' ->
  PyDict.mem (JStr k) m = true -> matches m k bbx ->
  PyDict.mem (JStr k) f' = true.
Proof.
  unfold id_field_step, PyDict.assign, PyDict.contains.
  intros H Hm [Hls|(ls & Hls & Hno & Huid)]; rewrite Hls in H; simpl in H.
  - rewrite Hm in H. simpl in H. inversion H; subst. apply mem_set_same.
  - unfold PyDict.contains in Hno. rewrite Hno in H. simpl in H.
    rewrite Huid in H. simpl in H. rewrite Hm in H. simpl in H.
    inversion H; subst. apply mem_set_same.
Qed.

Lemma fields_fold_matches (m : bbox_map_t) (k : string) (l : list json) :
  forall f f',
    foldM (id_field_step m) l f = OK f' ->
    PyDict.mem (JStr k) m = true ->
    PyDict.mem (JStr k) f = true \/ (exists bbx, In bbx l /\ matches m k bbx) ->
    PyDict.mem (JStr k) f' = true.
Proof.
  induction l as [|bbx l IH]; simpl; intros f f' H Hm Hor.
  - inversion H; subst. destruct Hor as [Hf|(b & [] & _)]. exact Hf.
  - bind_split H as f1 H1. apply (IH f1 f' H Hm).
    destruct Hor as [Hf|(b & [<-|Hin] & Hb)].
    + left. exact (field_step_keeps m k f f1 bbx H1 Hf).
    + left. exact (field_step_matches m k f f1 bbx H1 Hm Hb).
    + right. exists b. auto.
Qed.

(** The keys of the recorded fields are identifiers the store listed. *)
Lemma field_step_keys (m : bbox_map_t) (f f' : list (json * string)) (bbx : json) :
  id_field_step m f bbx = OK f' ->
  forall k, In k (map fst f') ->
            In k (map fst f) \/
            py_getitem bbx "LS_id" = OK k \/ py_getitem bbx "_uniqueid" = OK k.
Proof.
  unfold id_field_step, PyDict.assign. intros H k Hk.
  bind_split H as ls Hls. bind_split H as by_ls Hby.
  destruct by_ls.
  - destruct (hashable ls); [|discriminate]. inversion H; subst.
    rewrite set_keys in Hk. destruct (PyDict.mem ls f); [auto|].
    apply in_app_or in Hk as [Hk|[<-|[]]]; auto.
  - bind_split H as uid Huid. bind_split H as by_uid Hbu.
    destruct by_uid; [|inversion H; subst; auto].
    destruct (hashable uid); [|discriminate]. inversion H; subst.
    rewrite set_keys in Hk. destruct (PyDict.mem uid f); [auto|].
    apply in_app_or in Hk as [Hk|[<-|[]]]; auto.
Qed.

Lemma fields_fold_keys (m : bbox_map_t) (l : list json) :
  forall f f',
    foldM (id_field_step m) l f = OK f' ->
    forall k, In k (map fst f') ->
              In k (map fst f) \/
              exists bbx, In bbx l /\
                (py_getitem bbx "LS_id" = OK k \/ py_getitem bbx "_uniqueid" = OK k).
Proof.
  induction l as [|bbx l IH]; simpl; intros f f' H k Hk.
  - inversion H; subst. auto.
  - bind_split H as f1 H1.
    destruct (IH _ _ H k Hk) as [Hin|(b & Hin & Hb)]; [|eauto].
    destruct (field_step_keys m f f1 bbx H1 k Hin) as [Hf|Hb]; [auto|].
    right. exists bbx. auto.
Qed.

Lemma get_Some_key {V : Type} (k : json) (m : list (json * V)) (v : V) :
  PyDict.get k m = Some v -> exists k', In k' (map fst m) /\ py_eq k' k = true.
Proof.
  induction m as [|[k' v'] m IH]; simpl; [discriminate|].
  destruct (py_eq k' k) eqn:Hk.
  - intros _. exists k'. auto.
  - intros H. destruct (IH H) as (k2 & Hin & Heq). exists k2. auto.
Qed.

(** X20.  A box of the map is written as an update exactly when the store
    already lists a box for it.  When one of the stored boxes of the
    image carries the identifier [k] as its ["LS_id"], or as its
    ["_uniqueid"] while its ["LS_id"] is no key of the map, the box [k] is
    written by one ["UpdateBoundingBox"] constrained on that identifier.
    When no stored box carries [k] in either field, it is written by an
    ["AddBoundingBox"] that records [k] as ["LS_id"], followed by the
    connection to the annotation. *)
Theorem stored_box_is_updated_new_box_is_added :
  forall (res : json) (m : bbox_map_t) (fields : list (json * string))
         (l : list json) (k ann_id : string) (ref : Z) (b : AnnotationBBox.t),
    stored_boxes res = OK l ->
    scan_id_fields res m = OK fields ->
    PyDict.mem (JStr k) m = true ->
    ((exists bbx, In bbx l /\ matches m k bbx) ->
     exists field,
       bbox_commands fields ann_id ref (JStr k) b =
       (label <- first_label (AnnotationBBox.labels b) ;;
        OK [JDict [("UpdateBoundingBox", JDict [
              ("constraints", JDict [(field, JList [JStr "=="; JStr k])]);
              ("rectangle", rect_json (AnnotationBBox.rect b));
              ("label", label);
              ("properties", bbox_properties None b ann_id)])]])) /\
    ((forall bbx, In bbx l ->
        py_getitem bbx "LS_id" <> OK (JStr k) /\
        py_getitem bbx "_uniqueid" <> OK (JStr k)) ->
     bbox_commands fields ann_id ref (JStr k) b =
     (label <- first_label (AnnotationBBox.labels b) ;;
      OK [JDict [("AddBoundingBox", JDict [
            ("image_ref", JInt 1);
            ("_ref", JInt ref);
            ("rectangle", rect_json (AnnotationBBox.rect b));
            ("label", label);
            ("properties", bbox_properties (Some (JStr k)) b ann_id)])];
          JDict [("AddConnection", JDict [
            ("class", JStr "LS_annotation_region");
            ("src", JInt 2);
            ("dst", JInt ref);
            ("if_not_found", JDict [])])]])).
Proof.
  intros res m fields l k ann_id ref b Hl Hf Hm.
  rewrite scan_fields_of_boxes, Hl in Hf. simpl in Hf.
  split.
  - intros Hex.
    assert (Hmem : PyDict.mem (JStr k) fields = true)
      by (apply (fields_fold_matches m k l [] fields Hf Hm); auto).
    unfold PyDict.mem in Hmem. unfold bbox_commands.
    destruct (PyDict.get (JStr k) fields) as [field|]; [|discriminate].
    exists field. reflexivity.
  - intros Hnone. unfold bbox_commands.
    destruct (PyDict.get (JStr k) fields) as [field|] eqn:Hg; [|reflexivity].
    exfalso.
    destruct (get_Some_key _ _ _ Hg) as (k' & Hin & Heq).
    apply py_eq_str_r in Heq. subst k'.
    destruct (fields_fold_keys m l [] fields Hf (JStr k) Hin)
      as [[]|(bbx & Hb & Hor)].
    destruct (Hnone bbx Hb) as [H1 H2]. destruct Hor; contradiction.
Qed.

End UpdateOrInsert.

Lemma stored_box_is_updated_witness :
  exists field,
    @bbox_commands Sample.scripted [(JStr "r1", "_uniqueid")] "7" 3 (JStr "r1")
      (Sample.box [JStr "cat"] []) =
    (label <- first_label (AnnotationBBox.labels (Sample.box [JStr "cat"] [])) ;;
     OK [JDict [("UpdateBoundingBox", JDict [
           ("constraints", JDict [(field, JList [JStr "=="; JStr "r1"])]);
           ("rectangle", rect_json (AnnotationBBox.rect (Sample.box [JStr "cat"] [])));
           ("label", label);
           ("properties",
            @bbox_properties Sample.scripted None (Sample.box [JStr "cat"] []) "7")])]]).
Proof.
  apply (proj1 (@stored_box_is_updated_new_box_is_added Sample.scripted
           (JList [JDict [("FindImage", JDict [("status", JInt 0)])];
                   JDict [("FindBoundingBox", JDict [
                     ("status", JInt 0);
                     ("entities", JList [JDict [("LS_id", JNull);
                                                ("_uniqueid", JStr "r1")]])])]])
           [(JStr "r1", Sample.box [JStr "cat"] [])]
           [(JStr "r1", "_uniqueid")]
           [JDict [("LS_id", JNull); ("_uniqueid", JStr "r1")]]
           "r1" "7" 3 (Sample.box [JStr "cat"] [])
           ltac:(reflexivity) ltac:(reflexivity) ltac:(reflexivity))).
  exists (JDict [("LS_id", JNull); ("_uniqueid", JStr "r1")]).
  split; [simpl; auto|].
  right. exists JNull. repeat split.
Defined.
